(** * SchoolConnect: the row-level-security policy set and the client code
      that talks to it

    The development embeds

    - the schema, the three SECURITY DEFINER helper functions, the policies
      and the [updated_at] trigger of
      [supabase/migrations/20260130091328_b38b0bb0-f78a-4b5d-81cd-bb0bf507d9d0.sql];
    - the hooks [useSchool] ([fetchSchool], [createSchool]) and [useUserRole]
      ([fetchRole]), the [CreateSchool] page (what it renders, the code field,
      [generateCode], [handleSubmit]), the [handleSubmit] of the [JoinSchool] page and the
      save, edit and delete handlers of the three admin pages;
    - the student pages: what [Dashboard], [Notices], [Scholarships] and
      [Fees] fetch, the realtime subscription of [Notices], and the date
      helpers ([formatDate], [isDeadlineSoon], [isExpired], [isDueSoon],
      [isOverdue]).

    PostgreSQL's evaluation of policies (default deny once row-level security
    is enabled, permissive policies combined by OR, a USING clause reused as
    WITH CHECK when an UPDATE policy has none) is the semantics of the policy
    language; it is written once, in [Module Rls], and the policies themselves
    are transcribed as data.

    Part I holds the embedding and the vocabulary of the properties; Part II
    the lemmas and the theorems. *)

From Stdlib Require Import List String Ascii ZArith Bool Arith Lia.
From Stdlib Require Import QArith Qround Permutation Sorted.

Import ListNotations.

Close Scope Q_scope.

Local Open Scope string_scope.

Local Open Scope list_scope.

(** * Part I: the embedding *)

(** ** Column types *)

(** [UUID]: an opaque identifier. *)
Definition uuid := nat.

(** [TEXT]. *)
Definition text := string.

(** [TIMESTAMP WITH TIME ZONE], in microseconds. *)
Definition timestamptz := Z.

(** [DATE] and [DECIMAL(10, 2)] (in hundredths). *)
Definition date := Z.

Definition decimal := Z.

(** [CREATE TYPE public.app_role AS ENUM ('admin', 'student')]. *)
Inductive app_role := admin | student.

Definition app_role_eqb (a b : app_role) : bool :=
  match a, b with
  | admin, admin | student, student => true
  | _, _ => false
  end.

(** ** SQL's three-valued logic

    A nullable value is an [option]; a comparison with NULL is NULL, and a
    policy or a WHERE clause keeps a row only when its expression is [true]. *)
Module Sql.

Definition tri := option bool.

Definition of_bool (b : bool) : tri := Some b.

Definition eq_uuid (a b : option uuid) : tri :=
  match a, b with
  | Some x, Some y => Some (Nat.eqb x y)
  | _, _ => None
  end.

Definition eq_text (a b : option text) : tri :=
  match a, b with
  | Some x, Some y => Some (String.eqb x y)
  | _, _ => None
  end.

Definition and3 (a b : tri) : tri :=
  match a, b with
  | Some false, _ | _, Some false => Some false
  | Some true, Some true => Some true
  | _, _ => None
  end.

Definition or3 (a b : tri) : tri :=
  match a, b with
  | Some true, _ | _, Some true => Some true
  | Some false, Some false => Some false
  | _, _ => None
  end.

(** The row filter: NULL counts as not satisfied. *)
Definition holds (t : tri) : bool :=
  match t with
  | Some true => true
  | _ => false
  end.

End Sql.

(** ** Schema: one record per table, the fields named as the columns *)

Module School.
Record t := mk {
  id : uuid;
  name : text;
  school_code : text;
  admin_id : uuid;
  created_at : timestamptz;
  updated_at : timestamptz
}.
End School.

Module Profile.
Record t := mk {
  id : uuid;
  user_id : uuid;
  full_name : text;
  school_code : option text;
  created_at : timestamptz;
  updated_at : timestamptz
}.
End Profile.

Module UserRole.
Record t := mk {
  id : uuid;
  user_id : uuid;
  role : app_role
}.
End UserRole.

Module Scholarship.
Record t := mk {
  id : uuid;
  school_code : text;
  title : text;
  description : option text;
  amount : option decimal;
  deadline : option date;
  eligibility : option text;
  created_at : timestamptz;
  updated_at : timestamptz
}.
End Scholarship.

Module Fee.
Record t := mk {
  id : uuid;
  school_code : text;
  title : text;
  description : option text;
  amount : decimal;
  due_date : option date;
  category : option text;
  created_at : timestamptz;
  updated_at : timestamptz
}.
End Fee.

Module Notice.
Record t := mk {
  id : uuid;
  school_code : text;
  title : text;
  content : text;
  priority : option text;
  created_at : timestamptz;
  updated_at : timestamptz
}.
End Notice.

(** The six tables of schema [public]. *)
Record Database := mkDatabase {
  schools : list School.t;
  profiles : list Profile.t;
  user_roles : list UserRole.t;
  scholarships : list Scholarship.t;
  fees : list Fee.t;
  notices : list Notice.t
}.

Definition empty_db : Database := mkDatabase [] [] [] [] [] [].

Definition set_schools (rows : list School.t) (db : Database) : Database :=
  mkDatabase rows (profiles db) (user_roles db) (scholarships db) (fees db) (notices db).
Definition set_profiles (rows : list Profile.t) (db : Database) : Database :=
  mkDatabase (schools db) rows (user_roles db) (scholarships db) (fees db) (notices db).
Definition set_user_roles (rows : list UserRole.t) (db : Database) : Database :=
  mkDatabase (schools db) (profiles db) rows (scholarships db) (fees db) (notices db).
Definition set_scholarships (rows : list Scholarship.t) (db : Database) : Database :=
  mkDatabase (schools db) (profiles db) (user_roles db) rows (fees db) (notices db).
Definition set_fees (rows : list Fee.t) (db : Database) : Database :=
  mkDatabase (schools db) (profiles db) (user_roles db) (scholarships db) rows (notices db).
Definition set_notices (rows : list Notice.t) (db : Database) : Database :=
  mkDatabase (schools db) (profiles db) (user_roles db) (scholarships db) (fees db) rows.

(** ** The SECURITY DEFINER helper functions

    They read the tables directly (no policy applies inside them).  The
    caller's identity [auth.uid()] is NULL for a request without a session,
    hence [option uuid]. *)

(** [has_role]: [SELECT EXISTS (SELECT 1 FROM user_roles WHERE user_id = _user_id AND role = _role)]. *)
Definition has_role (db : Database) (_user_id : option uuid) (_role : app_role) : bool :=
  existsb
    (fun r => Sql.holds (Sql.and3 (Sql.eq_uuid (Some (UserRole.user_id r)) _user_id)
                                  (Sql.of_bool (app_role_eqb (UserRole.role r) _role))))
    (user_roles db).

(** [get_user_school_code]: [SELECT school_code FROM profiles WHERE user_id = _user_id];
    a SQL function returns the first row of its query, NULL when there is none. *)
Definition get_user_school_code (db : Database) (_user_id : option uuid) : option text :=
  match filter (fun p => Sql.holds (Sql.eq_uuid (Some (Profile.user_id p)) _user_id)) (profiles db) with
  | p :: _ => Profile.school_code p
  | [] => None
  end.

(** [is_school_admin]: [SELECT EXISTS (SELECT 1 FROM schools WHERE admin_id = _user_id AND school_code = _school_code)]. *)
Definition is_school_admin (db : Database) (_user_id : option uuid) (_school_code : option text) : bool :=
  existsb
    (fun s => Sql.holds (Sql.and3 (Sql.eq_uuid (Some (School.admin_id s)) _user_id)
                                  (Sql.eq_text (Some (School.school_code s)) _school_code)))
    (schools db).

(** ** Policies as data, and PostgreSQL's evaluation of them *)
Module Rls.

Inductive command := SELECT | INSERT | UPDATE | DELETE.

Definition command_eqb (a b : command) : bool :=
  match a, b with
  | SELECT, SELECT | INSERT, INSERT | UPDATE, UPDATE | DELETE, DELETE => true
  | _, _ => false
  end.

(** A policy expression sees the database (through the helper functions),
    [auth.uid()] and the row. *)
Definition expr (Row : Type) := Database -> option uuid -> Row -> Sql.tri.

(** [CREATE POLICY name ON table FOR cmd [USING (..)] [WITH CHECK (..)]]. *)
Record policy (Row : Type) := mkPolicy {
  pol_name : string;
  pol_cmd : command;
  pol_using : option (expr Row);
  pol_with_check : option (expr Row)
}.
Arguments mkPolicy {Row}.
Arguments pol_name {Row}.
Arguments pol_cmd {Row}.
Arguments pol_using {Row}.
Arguments pol_with_check {Row}.

(** A table as the policy engine sees it: its name, whether
    [ENABLE ROW LEVEL SECURITY] was issued, and its policies. *)
Record table (Row : Type) := mkTable {
  tbl_name : string;
  tbl_rls_enabled : bool;
  tbl_policies : list (policy Row)
}.
Arguments mkTable {Row}.
Arguments tbl_name {Row}.
Arguments tbl_rls_enabled {Row}.
Arguments tbl_policies {Row}.

Section Eval.

Context {Row : Type} (T : table Row) (db : Database) (uid : option uuid).

Definition eval_opt (e : option (expr Row)) (row : Row) : bool :=
  match e with
  | Some f => Sql.holds (f db uid row)
  | None => true
  end.

(** The check that applies to a row about to be stored: the policy's
    WITH CHECK, and for a policy that has none, its USING clause. *)
Definition check_expr (p : policy Row) : option (expr Row) :=
  match pol_with_check p with
  | Some c => Some c
  | None => pol_using p
  end.

(** Does an existing row pass the USING clauses of the policies for [cmd]?
    With row-level security enabled and no policy for the command,
    nothing passes. *)
Definition using_passes (cmd : command) (row : Row) : bool :=
  if tbl_rls_enabled T
  then existsb (fun p => command_eqb (pol_cmd p) cmd && eval_opt (pol_using p) row)
               (tbl_policies T)
  else true.

(** Does a row to be stored pass the checks of the policies for [cmd]? *)
Definition check_passes (cmd : command) (row : Row) : bool :=
  if tbl_rls_enabled T
  then existsb (fun p => command_eqb (pol_cmd p) cmd && eval_opt (check_expr p) row)
               (tbl_policies T)
  else true.

Definition allow_select (row : Row) : bool := using_passes SELECT row.

Definition allow_insert (row : Row) : bool := check_passes INSERT row.

Definition allow_delete (row : Row) : bool := using_passes DELETE row.

(** An UPDATE that turns [old] into [new]. *)
Definition allow_update (old new : Row) : bool :=
  using_passes UPDATE old && check_passes UPDATE new.

End Eval.

End Rls.

Import Rls.

(** ** The policies of the migration *)

(** RLS policies for profiles. *)
Definition profiles_table : table Profile.t :=
  mkTable "profiles" true
    [ mkPolicy "Users can view own profile" SELECT
        (Some (fun _ uid row => Sql.eq_uuid uid (Some (Profile.user_id row)))) None;
      mkPolicy "Users can update own profile" UPDATE
        (Some (fun _ uid row => Sql.eq_uuid uid (Some (Profile.user_id row)))) None;
      mkPolicy "Users can insert own profile" INSERT
        None (Some (fun _ uid row => Sql.eq_uuid uid (Some (Profile.user_id row)))) ].

(** RLS policies for user_roles. *)
Definition user_roles_table : table UserRole.t :=
  mkTable "user_roles" true
    [ mkPolicy "Users can view own role" SELECT
        (Some (fun _ uid row => Sql.eq_uuid uid (Some (UserRole.user_id row)))) None;
      mkPolicy "Users can insert own role" INSERT
        None (Some (fun _ uid row => Sql.eq_uuid uid (Some (UserRole.user_id row)))) ].

(** RLS policies for schools. *)
Definition schools_table : table School.t :=
  mkTable "schools" true
    [ mkPolicy "Anyone can view schools" SELECT
        (Some (fun _ _ _ => Sql.of_bool true)) None;
      mkPolicy "Admins can insert schools" INSERT
        None
        (Some (fun db uid row =>
                 Sql.and3 (Sql.of_bool (has_role db uid admin))
                          (Sql.eq_uuid (Some (School.admin_id row)) uid)));
      mkPolicy "Admins can update own schools" UPDATE
        (Some (fun _ uid row => Sql.eq_uuid (Some (School.admin_id row)) uid)) None ].

(** RLS policies for scholarships. *)
Definition scholarships_table : table Scholarship.t :=
  mkTable "scholarships" true
    [ mkPolicy "Users can view scholarships of their school" SELECT
        (Some (fun db uid row =>
                 Sql.or3 (Sql.eq_text (Some (Scholarship.school_code row)) (get_user_school_code db uid))
                         (Sql.of_bool (is_school_admin db uid (Some (Scholarship.school_code row))))))
        None;
      mkPolicy "Admins can insert scholarships" INSERT
        None
        (Some (fun db uid row =>
                 Sql.of_bool (is_school_admin db uid (Some (Scholarship.school_code row)))));
      mkPolicy "Admins can update scholarships" UPDATE
        (Some (fun db uid row =>
                 Sql.of_bool (is_school_admin db uid (Some (Scholarship.school_code row)))))
        None;
      mkPolicy "Admins can delete scholarships" DELETE
        (Some (fun db uid row =>
                 Sql.of_bool (is_school_admin db uid (Some (Scholarship.school_code row)))))
        None ].

(** RLS policies for fees. *)
Definition fees_table : table Fee.t :=
  mkTable "fees" true
    [ mkPolicy "Users can view fees of their school" SELECT
        (Some (fun db uid row =>
                 Sql.or3 (Sql.eq_text (Some (Fee.school_code row)) (get_user_school_code db uid))
                         (Sql.of_bool (is_school_admin db uid (Some (Fee.school_code row))))))
        None;
      mkPolicy "Admins can insert fees" INSERT
        None
        (Some (fun db uid row =>
                 Sql.of_bool (is_school_admin db uid (Some (Fee.school_code row)))));
      mkPolicy "Admins can update fees" UPDATE
        (Some (fun db uid row =>
                 Sql.of_bool (is_school_admin db uid (Some (Fee.school_code row)))))
        None;
      mkPolicy "Admins can delete fees" DELETE
        (Some (fun db uid row =>
                 Sql.of_bool (is_school_admin db uid (Some (Fee.school_code row)))))
        None ].

(** RLS policies for notices. *)
Definition notices_table : table Notice.t :=
  mkTable "notices" true
    [ mkPolicy "Users can view notices of their school" SELECT
        (Some (fun db uid row =>
                 Sql.or3 (Sql.eq_text (Some (Notice.school_code row)) (get_user_school_code db uid))
                         (Sql.of_bool (is_school_admin db uid (Some (Notice.school_code row))))))
        None;
      mkPolicy "Admins can insert notices" INSERT
        None
        (Some (fun db uid row =>
                 Sql.of_bool (is_school_admin db uid (Some (Notice.school_code row)))));
      mkPolicy "Admins can update notices" UPDATE
        (Some (fun db uid row =>
                 Sql.of_bool (is_school_admin db uid (Some (Notice.school_code row)))))
        None;
      mkPolicy "Admins can delete notices" DELETE
        (Some (fun db uid row =>
                 Sql.of_bool (is_school_admin db uid (Some (Notice.school_code row)))))
        None ].

(** ** Constraints, the trigger, and the execution of one statement *)

(** The trigger function: [NEW.updated_at = now(); RETURN NEW;].  It is
    attached to five tables, so it is written over any row type that has the
    column. *)
Class HasTimestamps (Row : Type) := {
  created_at_of : Row -> timestamptz;
  updated_at_of : Row -> timestamptz;
  with_updated_at : timestamptz -> Row -> Row
}.

#[export] Instance School_timestamps : HasTimestamps School.t := {
  created_at_of := School.created_at;
  updated_at_of := School.updated_at;
  with_updated_at t r :=
    School.mk (School.id r) (School.name r) (School.school_code r) (School.admin_id r)
              (School.created_at r) t
}.

#[export] Instance Profile_timestamps : HasTimestamps Profile.t := {
  created_at_of := Profile.created_at;
  updated_at_of := Profile.updated_at;
  with_updated_at t r :=
    Profile.mk (Profile.id r) (Profile.user_id r) (Profile.full_name r) (Profile.school_code r)
               (Profile.created_at r) t
}.

#[export] Instance Scholarship_timestamps : HasTimestamps Scholarship.t := {
  created_at_of := Scholarship.created_at;
  updated_at_of := Scholarship.updated_at;
  with_updated_at t r :=
    Scholarship.mk (Scholarship.id r) (Scholarship.school_code r) (Scholarship.title r)
                   (Scholarship.description r) (Scholarship.amount r) (Scholarship.deadline r)
                   (Scholarship.eligibility r) (Scholarship.created_at r) t
}.

#[export] Instance Fee_timestamps : HasTimestamps Fee.t := {
  created_at_of := Fee.created_at;
  updated_at_of := Fee.updated_at;
  with_updated_at t r :=
    Fee.mk (Fee.id r) (Fee.school_code r) (Fee.title r) (Fee.description r) (Fee.amount r)
           (Fee.due_date r) (Fee.category r) (Fee.created_at r) t
}.

#[export] Instance Notice_timestamps : HasTimestamps Notice.t := {
  created_at_of := Notice.created_at;
  updated_at_of := Notice.updated_at;
  with_updated_at t r :=
    Notice.mk (Notice.id r) (Notice.school_code r) (Notice.title r) (Notice.content r)
              (Notice.priority r) (Notice.created_at r) t
}.

Definition update_updated_at_column {Row : Type} `{HasTimestamps Row}
    (now : timestamptz) (NEW : Row) : Row :=
  with_updated_at now NEW.

Module Pg.

(** The two errors a statement of this schema can raise. *)
Inductive error :=
| rls_violation (table : string)
| unique_violation (constraint : string).

Definition dquote : string := String (ascii_of_nat 34) EmptyString.

(** The message PostgreSQL attaches to each. *)
Definition message (e : error) : string :=
  match e with
  | rls_violation t =>
      "new row violates row-level security policy for table " ++ dquote ++ t ++ dquote
  | unique_violation c =>
      "duplicate key value violates unique constraint " ++ dquote ++ c ++ dquote
  end.

(** A table with what a statement needs besides the policies: its PRIMARY
    KEY and UNIQUE constraints (name, and when two rows collide) and its
    BEFORE UPDATE row triggers. *)
Record relation (Row : Type) := mkRelation {
  rel_table : Rls.table Row;
  rel_unique : list (string * (Row -> Row -> bool));
  rel_before_update : list (timestamptz -> Row -> Row)
}.
Arguments mkRelation {Row}.
Arguments rel_table {Row}.
Arguments rel_unique {Row}.
Arguments rel_before_update {Row}.

Section Exec.

Context {Row : Type} (R : relation Row) (db : Database) (uid : option uuid)
        (now : timestamptz).

Definition find_conflict (new : Row) (rows : list Row) : option string :=
  option_map fst (find (fun c => existsb (snd c new) rows) (rel_unique R)).

Definition run_triggers (new : Row) : Row :=
  fold_left (fun r trg => trg now r) (rel_before_update R) new.

(** [SELECT .. WHERE ..]: rows that fail the policy are left out silently. *)
Definition select_rows (cond : Row -> bool) (rows : list Row) : list Row :=
  filter (fun r => using_passes (rel_table R) db uid SELECT r && cond r) rows.

(** [INSERT]: the policy check comes first, the unique indexes after. *)
Definition insert_row (new : Row) (rows : list Row) : error + list Row :=
  if negb (check_passes (rel_table R) db uid INSERT new)
  then inl (rls_violation (tbl_name (rel_table R)))
  else match find_conflict new rows with
       | Some c => inl (unique_violation c)
       | None => inr (rows ++ [new])
       end.

(** The rows an UPDATE or DELETE with a WHERE clause operates on: the
    clause reads columns, so the SELECT policies apply besides those of
    the command; the others are skipped silently. *)
Definition targeted (cmd : command) (cond : Row -> bool) (r : Row) : bool :=
  cond r && using_passes (rel_table R) db uid SELECT r
          && using_passes (rel_table R) db uid cmd r.

(** [UPDATE .. SET .. WHERE ..], row by row: the triggers run on the new
    row, then the check, then the unique indexes; an error aborts the
    statement.  (PostgreSQL holds the new row against the SELECT policies as
    well; on every table of this schema a row that passes the UPDATE
    policy's expression passes the SELECT policy's, see
    [select_implied_by_update_scholarships] and its siblings, so that test
    is not repeated here.) *)
Fixpoint update_rows (cond : Row -> bool) (assign : Row -> Row)
    (done todo : list Row) : error + list Row :=
  match todo with
  | [] => inr done
  | r :: rest =>
      if targeted UPDATE cond r then
        let new := run_triggers (assign r) in
        if negb (check_passes (rel_table R) db uid UPDATE new)
        then inl (rls_violation (tbl_name (rel_table R)))
        else match find_conflict new (done ++ rest) with
             | Some c => inl (unique_violation c)
             | None => update_rows cond assign (done ++ [new]) rest
             end
      else update_rows cond assign (done ++ [r]) rest
  end.

(** [DELETE .. WHERE ..]. *)
Definition delete_rows (cond : Row -> bool) (rows : list Row) : list Row :=
  filter (fun r => negb (targeted DELETE cond r)) rows.

End Exec.

(** Write the new contents of a table back. *)
Definition store {Row : Type} (set : list Row -> Database -> Database) (db : Database)
    (r : error + list Row) : error + Database :=
  match r with
  | inl e => inl e
  | inr rows => inr (set rows db)
  end.

End Pg.

(** The six relations: constraints from the CREATE TABLE statements, the
    trigger from the CREATE TRIGGER statements ([user_roles] has none). *)
Definition schools_rel : Pg.relation School.t :=
  Pg.mkRelation schools_table
    [ ("schools_pkey", fun a b => Nat.eqb (School.id a) (School.id b));
      ("schools_school_code_key", fun a b => String.eqb (School.school_code a) (School.school_code b)) ]
    [ update_updated_at_column ].

Definition profiles_rel : Pg.relation Profile.t :=
  Pg.mkRelation profiles_table
    [ ("profiles_pkey", fun a b => Nat.eqb (Profile.id a) (Profile.id b));
      ("profiles_user_id_key", fun a b => Nat.eqb (Profile.user_id a) (Profile.user_id b)) ]
    [ update_updated_at_column ].

Definition user_roles_rel : Pg.relation UserRole.t :=
  Pg.mkRelation user_roles_table
    [ ("user_roles_pkey", fun a b => Nat.eqb (UserRole.id a) (UserRole.id b));
      ("user_roles_user_id_role_key",
       fun a b => Nat.eqb (UserRole.user_id a) (UserRole.user_id b)
                  && app_role_eqb (UserRole.role a) (UserRole.role b)) ]
    [].

Definition scholarships_rel : Pg.relation Scholarship.t :=
  Pg.mkRelation scholarships_table
    [ ("scholarships_pkey", fun a b => Nat.eqb (Scholarship.id a) (Scholarship.id b)) ]
    [ update_updated_at_column ].

Definition fees_rel : Pg.relation Fee.t :=
  Pg.mkRelation fees_table
    [ ("fees_pkey", fun a b => Nat.eqb (Fee.id a) (Fee.id b)) ]
    [ update_updated_at_column ].

Definition notices_rel : Pg.relation Notice.t :=
  Pg.mkRelation notices_table
    [ ("notices_pkey", fun a b => Nat.eqb (Notice.id a) (Notice.id b)) ]
    [ update_updated_at_column ].

(** ** Requests of the generated client API

    A client request is one statement on one table, run under the caller's
    identity in a transaction of its own; [now] is that transaction's
    [now()]. *)

Inductive statement (Row : Type) :=
| Insert (new : Row)
| Update (cond : Row -> bool) (assign : Row -> Row)
| Delete (cond : Row -> bool).

Arguments Insert {Row}.
Arguments Update {Row}.
Arguments Delete {Row}.

Definition exec_statement {Row : Type} (R : Pg.relation Row) (db : Database)
    (uid : option uuid) (now : timestamptz) (s : statement Row) (rows : list Row)
    : Pg.error + list Row :=
  match s with
  | Insert new => Pg.insert_row R db uid new rows
  | Update cond assign => Pg.update_rows R db uid now cond assign [] rows
  | Delete cond => inr (Pg.delete_rows R db uid cond rows)
  end.

Inductive request :=
| on_schools (s : statement School.t)
| on_profiles (s : statement Profile.t)
| on_user_roles (s : statement UserRole.t)
| on_scholarships (s : statement Scholarship.t)
| on_fees (s : statement Fee.t)
| on_notices (s : statement Notice.t).

Definition exec_request (db : Database) (uid : option uuid) (now : timestamptz)
    (r : request) : Pg.error + Database :=
  match r with
  | on_schools s =>
      Pg.store set_schools db (exec_statement schools_rel db uid now s (schools db))
  | on_profiles s =>
      Pg.store set_profiles db (exec_statement profiles_rel db uid now s (profiles db))
  | on_user_roles s =>
      Pg.store set_user_roles db (exec_statement user_roles_rel db uid now s (user_roles db))
  | on_scholarships s =>
      Pg.store set_scholarships db (exec_statement scholarships_rel db uid now s (scholarships db))
  | on_fees s =>
      Pg.store set_fees db (exec_statement fees_rel db uid now s (fees db))
  | on_notices s =>
      Pg.store set_notices db (exec_statement notices_rel db uid now s (notices db))
  end.

(** What the client is left with when the request fails: the database as it was. *)
Definition after_request (db : Database) (uid : option uuid) (now : timestamptz)
    (r : request) : Database :=
  match exec_request db uid now r with
  | inl _ => db
  | inr db' => db'
  end.

(** ** JavaScript strings, as far as the pages use them

    Strings are taken over the ASCII characters. *)
Module Js.

Definition is_lower (c : ascii) : bool :=
  (97 <=? nat_of_ascii c)%nat && (nat_of_ascii c <=? 122)%nat.

Definition is_upper (c : ascii) : bool :=
  (65 <=? nat_of_ascii c)%nat && (nat_of_ascii c <=? 90)%nat.

Definition is_digit (c : ascii) : bool :=
  (48 <=? nat_of_ascii c)%nat && (nat_of_ascii c <=? 57)%nat.

Definition is_space (c : ascii) : bool :=
  match nat_of_ascii c with
  | 9 | 10 | 11 | 12 | 13 | 32 => true
  | _ => false
  end.

(** [s.toUpperCase()]. *)
Fixpoint toUpperCase (s : string) : string :=
  match s with
  | EmptyString => EmptyString
  | String c s' =>
      String (if is_lower c then ascii_of_nat (nat_of_ascii c - 32) else c) (toUpperCase s')
  end.

(** [s.replace(/[^A-Z0-9]/g, '')]. *)
Fixpoint strip_non_code (s : string) : string :=
  match s with
  | EmptyString => EmptyString
  | String c s' =>
      if is_upper c || is_digit c then String c (strip_non_code s') else strip_non_code s'
  end.

Fixpoint trimStart (s : string) : string :=
  match s with
  | EmptyString => EmptyString
  | String c s' => if is_space c then trimStart s' else s
  end.

Fixpoint trimEnd (s : string) : string :=
  match s with
  | EmptyString => EmptyString
  | String c s' =>
      match trimEnd s' with
      | EmptyString => if is_space c then EmptyString else String c EmptyString
      | rest => String c rest
      end
  end.

(** [s.trim()]. *)
Definition trim (s : string) : string := trimEnd (trimStart s).

(** [s.includes(needle)]. *)
Fixpoint includes (s needle : string) : bool :=
  String.prefix needle s
  || match s with
     | EmptyString => false
     | String _ s' => includes s' needle
     end.

(** [.single()]: exactly one row, or an error and no data. *)
Definition single {A : Type} (rows : list A) : option A :=
  match rows with
  | [r] => Some r
  | _ => None
  end.

End Js.

(** ** hooks/useUserRole: [fetchRole]

    [supabase.from('user_roles').select('role').eq('user_id', user.id).single()];
    the role state starts as [null] and is set only when the request returns
    data without an error. *)
Definition fetchRole (db : Database) (user : uuid) : option app_role :=
  option_map UserRole.role
    (Js.single (Pg.select_rows user_roles_rel db (Some user)
                  (fun r => Nat.eqb (UserRole.user_id r) user) (user_roles db))).

(** [isAdmin: role === 'admin']. *)
Definition isAdmin (db : Database) (user : uuid) : bool :=
  match fetchRole db user with
  | Some admin => true
  | _ => false
  end.

(** ** hooks/useSchool: [createSchool] *)
Module UseSchool.

Inductive client_error :=
| not_authenticated
| pg_error (e : Pg.error).

Definition error_message (e : client_error) : string :=
  match e with
  | not_authenticated => "Not authenticated"
  | pg_error e => Pg.message e
  end.

(** The row [insert({ name, school_code: code, admin_id: user.id })] stores:
    [id], [created_at] and [updated_at] take their column defaults,
    [gen_random_uuid()] and [now()]. *)
Definition new_school (new_id : uuid) (now : timestamptz) (name code : text)
    (admin_id : uuid) : School.t :=
  School.mk new_id name code admin_id now now.

(** [update({ school_code: code })]. *)
Definition set_profile_school_code (code : text) (p : Profile.t) : Profile.t :=
  Profile.mk (Profile.id p) (Profile.user_id p) (Profile.full_name p) (Some code)
             (Profile.created_at p) (Profile.updated_at p).

(** [createSchool(name, schoolCode)]: the insert into [schools] (its
    [.select().single()] returns the stored row, which the SELECT policy of
    [schools] always lets through), then, when that succeeded, the update of
    the caller's own profile, whose outcome is not looked at.  [new_id] is the
    identifier the database generates; [t1 < t2] are the times of the two
    requests. *)
Definition createSchool (new_id : uuid) (t1 t2 : timestamptz) (user : option uuid)
    (name schoolCode : string) (db : Database) : option client_error * Database :=
  match user with
  | None => (Some not_authenticated, db)
  | Some user_id =>
      let code := Js.strip_non_code (Js.toUpperCase schoolCode) in
      match exec_request db user t1
              (on_schools (Insert (new_school new_id t1 name code user_id))) with
      | inl e => (Some (pg_error e), db)
      | inr db1 =>
          (None,
           after_request db1 user t2
             (on_profiles (Update (fun p => Nat.eqb (Profile.user_id p) user_id)
                                  (set_profile_school_code code))))
      end
  end.

End UseSchool.

(** ** pages/CreateSchool: [handleSubmit] *)
Module CreateSchool.

Import UseSchool.

Inductive toast_variant := default_variant | destructive.

Record Toast := mkToast {
  variant : toast_variant;
  toast_title : string;
  toast_description : string
}.

Definition code_taken_message : string :=
  "This school code is already taken. Please choose a different one.".

Definition invalid_name_toast : Toast :=
  mkToast destructive "Invalid name" "School name must be at least 3 characters.".

Definition invalid_code_toast : Toast :=
  mkToast destructive "Invalid code" "School code must be at least 4 characters.".

Definition failure_toast (error : client_error) : Toast :=
  mkToast destructive "Failed to create school"
    (if Js.includes (error_message error) "duplicate"
     then code_taken_message
     else error_message error).

Definition created_toast : Toast :=
  mkToast default_variant "School created!" "Your school has been set up successfully.".

Definition handleSubmit (new_id : uuid) (t1 t2 : timestamptz) (user : option uuid)
    (schoolName schoolCode : string) (db : Database) : Toast * Database :=
  if (String.length (Js.trim schoolName) <? 3)%nat then (invalid_name_toast, db)
  else if (String.length (Js.trim schoolCode) <? 4)%nat then (invalid_code_toast, db)
  else
    match createSchool new_id t1 t2 user (Js.trim schoolName) (Js.trim schoolCode) db with
    | (Some error, db') => (failure_toast error, db')
    | (None, db') => (created_toast, db')
    end.

End CreateSchool.

(** ** pages/admin: the save and delete handlers

    [school] is the page's [school?.school_code] (from [useSchool]); the
    handlers return without a request when it is missing or empty
    ([if (!school?.school_code) return;]).  The form fields arrive parsed. *)
Module AdminScholarships.

(** [scholarshipData]. *)
Record Data := mkData {
  school_code : text;
  title : text;
  description : option text;
  amount : option decimal;
  deadline : option date;
  eligibility : option text
}.

Definition inserted (new_id : uuid) (now : timestamptz) (d : Data) : Scholarship.t :=
  Scholarship.mk new_id (school_code d) (title d) (description d) (amount d) (deadline d)
                 (eligibility d) now now.

Definition updated (d : Data) (r : Scholarship.t) : Scholarship.t :=
  Scholarship.mk (Scholarship.id r) (school_code d) (title d) (description d) (amount d)
                 (deadline d) (eligibility d) (Scholarship.created_at r) (Scholarship.updated_at r).

Definition handleSubmit (new_id : uuid) (now : timestamptz) (user : option uuid)
    (school : option text) (form : text * option text * option decimal * option date * option text)
    (editingId : option uuid) (db : Database) : Pg.error + Database :=
  match school with
  | None => inr db
  | Some code =>
      if String.eqb code EmptyString then inr db else
      let '(title, description, amount, deadline, eligibility) := form in
      let scholarshipData := mkData code title description amount deadline eligibility in
      match editingId with
      | Some id =>
          exec_request db user now
            (on_scholarships (Update (fun r => Nat.eqb (Scholarship.id r) id) (updated scholarshipData)))
      | None =>
          exec_request db user now (on_scholarships (Insert (inserted new_id now scholarshipData)))
      end
  end.

Definition handleDelete (now : timestamptz) (user : option uuid) (id : uuid) (db : Database)
    : Pg.error + Database :=
  exec_request db user now (on_scholarships (Delete (fun r => Nat.eqb (Scholarship.id r) id))).

End AdminScholarships.

Module AdminFees.

(** [feeData]. *)
Record Data := mkData {
  school_code : text;
  title : text;
  description : option text;
  amount : decimal;
  due_date : option date;
  category : option text
}.

Definition inserted (new_id : uuid) (now : timestamptz) (d : Data) : Fee.t :=
  Fee.mk new_id (school_code d) (title d) (description d) (amount d) (due_date d)
         (category d) now now.

Definition updated (d : Data) (r : Fee.t) : Fee.t :=
  Fee.mk (Fee.id r) (school_code d) (title d) (description d) (amount d)
         (due_date d) (category d) (Fee.created_at r) (Fee.updated_at r).

(** The amount must be positive, or nothing is sent. *)
Definition handleSubmit (new_id : uuid) (now : timestamptz) (user : option uuid)
    (school : option text) (form : text * option text * decimal * option date * option text)
    (editingId : option uuid) (db : Database) : Pg.error + Database :=
  match school with
  | None => inr db
  | Some code =>
      if String.eqb code EmptyString then inr db else
      let '(title, description, amount, due_date, category) := form in
      if (amount <=? 0)%Z then inr db
      else
        let feeData := mkData code title description amount due_date category in
        match editingId with
        | Some id =>
            exec_request db user now
              (on_fees (Update (fun r => Nat.eqb (Fee.id r) id) (updated feeData)))
        | None =>
            exec_request db user now (on_fees (Insert (inserted new_id now feeData)))
        end
  end.

Definition handleDelete (now : timestamptz) (user : option uuid) (id : uuid) (db : Database)
    : Pg.error + Database :=
  exec_request db user now (on_fees (Delete (fun r => Nat.eqb (Fee.id r) id))).

End AdminFees.

Module AdminNotices.

(** [noticeData]. *)
Record Data := mkData {
  school_code : text;
  title : text;
  content : text;
  priority : text
}.

Definition inserted (new_id : uuid) (now : timestamptz) (d : Data) : Notice.t :=
  Notice.mk new_id (school_code d) (title d) (content d) (Some (priority d)) now now.

Definition updated (d : Data) (r : Notice.t) : Notice.t :=
  Notice.mk (Notice.id r) (school_code d) (title d) (content d) (Some (priority d))
            (Notice.created_at r) (Notice.updated_at r).

Definition handleSubmit (new_id : uuid) (now : timestamptz) (user : option uuid)
    (school : option text) (form : text * text * text)
    (editingId : option uuid) (db : Database) : Pg.error + Database :=
  match school with
  | None => inr db
  | Some code =>
      if String.eqb code EmptyString then inr db else
      let '(title, content, priority) := form in
      let noticeData := mkData code title content priority in
      match editingId with
      | Some id =>
          exec_request db user now
            (on_notices (Update (fun r => Nat.eqb (Notice.id r) id) (updated noticeData)))
      | None =>
          exec_request db user now (on_notices (Insert (inserted new_id now noticeData)))
      end
  end.

Definition handleDelete (now : timestamptz) (user : option uuid) (id : uuid) (db : Database)
    : Pg.error + Database :=
  exec_request db user now (on_notices (Delete (fun r => Nat.eqb (Notice.id r) id))).

End AdminNotices.

(** ** hooks/useAuth: [signUp] and [joinSchool] *)
Module UseAuth.

(** Modelled from the spec: hooks/useAuth, which holds [signUp] and
    [joinSchool], is not among the sources (only its callers are).  "Profile
    and Role are created at signup (role chosen at signup time)" and a
    profile's "school_code is null until the user joins/creates a tenant": the
    new identity inserts its own profile, without a school code, and its own
    role row. *)
Definition signUp (profile_id role_id : uuid) (t1 t2 : timestamptz) (user : uuid)
    (full_name : text) (role : app_role) (db : Database) : Database :=
  let db1 :=
    after_request db (Some user) t1
      (on_profiles (Insert (Profile.mk profile_id user full_name None t1 t1))) in
  after_request db1 (Some user) t2
    (on_user_roles (Insert (UserRole.mk role_id user role))).

Inductive join_result :=
| joined
| join_not_authenticated
| join_not_found
| join_failed (e : Pg.error).

(** Modelled from the spec: "joinTenant(code) (set own profile.school_code to
    an existing tenant's code)"; a code that names no tenant is NotFound. *)
Definition joinSchool (now : timestamptz) (user : option uuid) (code : text) (db : Database)
    : join_result * Database :=
  match user with
  | None => (join_not_authenticated, db)
  | Some user_id =>
      match Pg.select_rows schools_rel db user
              (fun s => String.eqb (School.school_code s) code) (schools db) with
      | [] => (join_not_found, db)
      | _ :: _ =>
          match exec_request db user now
                  (on_profiles (Update (fun p => Nat.eqb (Profile.user_id p) user_id)
                                       (UseSchool.set_profile_school_code code))) with
          | inl e => (join_failed e, db)
          | inr db' => (joined, db')
          end
      end
  end.

(** Modelled from the spec: the identity store, which issues identities, is
    outside the sources; an identity is "stable, externally issued", and
    sign-up is the step from "Authenticated(no role)": the identity that
    signs up has just been issued, so no row mentions it yet. *)
Definition fresh_identity (db : Database) (user : uuid) : bool :=
  forallb (fun p => negb (Nat.eqb (Profile.user_id p) user)) (profiles db)
  && forallb (fun r => negb (Nat.eqb (UserRole.user_id r) user)) (user_roles db).

End UseAuth.

(** ** pages/JoinSchool: [handleSubmit]

    The code must have four characters once trimmed (otherwise the "Invalid
    code" toast, and nothing is sent); then [joinSchool(schoolCode.trim())]. *)
Module JoinSchool.

Definition handleSubmit (now : timestamptz) (user : option uuid) (schoolCode : string)
    (db : Database) : option UseAuth.join_result * Database :=
  if (String.length (Js.trim schoolCode) <? 4)%nat then (None, db)
  else (Some (fst (UseAuth.joinSchool now user (Js.trim schoolCode) db)),
        snd (UseAuth.joinSchool now user (Js.trim schoolCode) db)).

End JoinSchool.

(** ** The application as a transition system

    One action is one call of a handler above.  Time is the sequence of the
    requests' transaction times: every request starts after the previous one,
    so the times an action uses lie after the clock and in order. *)

Inductive action :=
| act_signUp (user : uuid) (full_name : text) (role : app_role) (profile_id role_id : uuid)
| act_createSchool (user : option uuid) (schoolName schoolCode : string) (new_id : uuid)
| act_joinSchool (user : option uuid) (schoolCode : string)
| act_saveScholarship (user : option uuid) (school : option text)
    (form : text * option text * option decimal * option date * option text)
    (editingId : option uuid) (new_id : uuid)
| act_deleteScholarship (user : option uuid) (id : uuid)
| act_saveFee (user : option uuid) (school : option text)
    (form : text * option text * decimal * option date * option text)
    (editingId : option uuid) (new_id : uuid)
| act_deleteFee (user : option uuid) (id : uuid)
| act_saveNotice (user : option uuid) (school : option text) (form : text * text * text)
    (editingId : option uuid) (new_id : uuid)
| act_deleteNotice (user : option uuid) (id : uuid).

Definition or_unchanged (db : Database) (r : Pg.error + Database) : Database :=
  match r with
  | inl _ => db
  | inr db' => db'
  end.

Definition run (a : action) (t1 t2 : timestamptz) (db : Database) : Database :=
  match a with
  | act_signUp user full_name role profile_id role_id =>
      UseAuth.signUp profile_id role_id t1 t2 user full_name role db
  | act_createSchool user schoolName schoolCode new_id =>
      snd (CreateSchool.handleSubmit new_id t1 t2 user schoolName schoolCode db)
  | act_joinSchool user schoolCode =>
      snd (JoinSchool.handleSubmit t1 user schoolCode db)
  | act_saveScholarship user school form editingId new_id =>
      or_unchanged db (AdminScholarships.handleSubmit new_id t1 user school form editingId db)
  | act_deleteScholarship user id =>
      or_unchanged db (AdminScholarships.handleDelete t1 user id db)
  | act_saveFee user school form editingId new_id =>
      or_unchanged db (AdminFees.handleSubmit new_id t1 user school form editingId db)
  | act_deleteFee user id =>
      or_unchanged db (AdminFees.handleDelete t1 user id db)
  | act_saveNotice user school form editingId new_id =>
      or_unchanged db (AdminNotices.handleSubmit new_id t1 user school form editingId db)
  | act_deleteNotice user id =>
      or_unchanged db (AdminNotices.handleDelete t1 user id db)
  end.

(** Sign-up is for an identity that has just been issued (see
    [UseAuth.fresh_identity]); the other actions can be taken in any state. *)
Definition enabled (a : action) (db : Database) : bool :=
  match a with
  | act_signUp user _ _ _ _ => UseAuth.fresh_identity db user
  | _ => true
  end.

Record world := mkWorld {
  w_db : Database;
  w_clock : timestamptz
}.

Inductive step : world -> world -> Prop :=
| step_action (w : world) (a : action) (t1 t2 : timestamptz) :
    enabled a (w_db w) = true ->
    (w_clock w < t1)%Z -> (t1 < t2)%Z ->
    step w (mkWorld (run a t1 t2 (w_db w)) t2).

Inductive steps : world -> world -> Prop :=
| steps_refl (w : world) : steps w w
| steps_step (w1 w2 w3 : world) : steps w1 w2 -> step w2 w3 -> steps w1 w3.

Definition initial_world : world := mkWorld empty_db 0%Z.

Definition reachable (w : world) : Prop := steps initial_world w.

(** * Part I, continued: the vocabulary of the properties *)

(** ** Policies *)

(** What the SELECT policies of the three tenant-scoped tables ask of a
    row's code: the caller's profile carries it, or the caller administers
    it. *)
Definition member_or_admin (db : Database) (uid : option uuid) (code : text) : bool :=
  Sql.holds (Sql.eq_text (Some code) (get_user_school_code db uid))
  || is_school_admin db uid (Some code).

(** How an accepted UPDATE relates the rows before and after, position by
    position: a row the statement does not target stays as it is, a targeted
    row becomes what the triggers made of the assignment, and that row passed
    the check. *)
Definition rewritten {Row : Type} (R : Pg.relation Row) (db : Database) (uid : option uuid)
    (now : timestamptz) (cond : Row -> bool) (assign : Row -> Row) (r r' : Row) : Prop :=
  (Pg.targeted R db uid UPDATE cond r = false /\ r' = r)
  \/ (Pg.targeted R db uid UPDATE cond r = true
      /\ r' = Pg.run_triggers R now (assign r)
      /\ check_passes (Pg.rel_table R) db uid UPDATE r' = true).

(** ** The three tenant-scoped tables, taken together *)

Inductive resource := res_scholarships | res_fees | res_notices.

Definition row_of (k : resource) : Type :=
  match k with
  | res_scholarships => Scholarship.t
  | res_fees => Fee.t
  | res_notices => Notice.t
  end.

Definition table_of (k : resource) : table (row_of k) :=
  match k with
  | res_scholarships => scholarships_table
  | res_fees => fees_table
  | res_notices => notices_table
  end.

Definition rel_of (k : resource) : Pg.relation (row_of k) :=
  match k with
  | res_scholarships => scholarships_rel
  | res_fees => fees_rel
  | res_notices => notices_rel
  end.

Definition rows_of (k : resource) (db : Database) : list (row_of k) :=
  match k with
  | res_scholarships => scholarships db
  | res_fees => fees db
  | res_notices => notices db
  end.

Definition school_code_of (k : resource) : row_of k -> text :=
  match k with
  | res_scholarships => Scholarship.school_code
  | res_fees => Fee.school_code
  | res_notices => Notice.school_code
  end.

(** [school_code TEXT UNIQUE]: no two rows of [schools] share a code. *)
Definition unique_school_codes (db : Database) : Prop :=
  NoDup (map School.school_code (schools db)).

(** ** A small database for the examples

    Identity 1, an admin, owns "SPRING24"; identity 3, an admin, owns
    "OAKHILL1"; identities 2 and 4 are students of the one and the other. *)
Module Demo.

Definition springfield : School.t := School.mk 10 "Springfield High" "SPRING24" 1 100%Z 100%Z.

Definition oakhill : School.t := School.mk 11 "Oak Hill" "OAKHILL1" 3 110%Z 110%Z.

Definition exam : Notice.t :=
  Notice.mk 40 "SPRING24" "Exam" "Maths on Monday" (Some "high") 200%Z 200%Z.

Definition fair : Notice.t :=
  Notice.mk 41 "OAKHILL1" "Fair" "Book fair" (Some "normal") 210%Z 210%Z.

Definition tuition : Fee.t :=
  Fee.mk 50 "SPRING24" "Tuition" None 50000%Z None None 220%Z 220%Z.

Definition merit : Scholarship.t :=
  Scholarship.mk 60 "SPRING24" "Merit" None (Some 100000%Z) None None 230%Z 230%Z.

Definition db : Database :=
  mkDatabase
    [ springfield; oakhill ]
    [ Profile.mk 20 1 "Ada" (Some "SPRING24") 90%Z 105%Z;
      Profile.mk 21 2 "Sam" (Some "SPRING24") 91%Z 120%Z;
      Profile.mk 22 3 "Olu" (Some "OAKHILL1") 92%Z 115%Z;
      Profile.mk 23 4 "Tia" (Some "OAKHILL1") 93%Z 130%Z ]
    [ UserRole.mk 30 1 admin; UserRole.mk 31 2 student;
      UserRole.mk 32 3 admin; UserRole.mk 33 4 student ]
    [ merit ]
    [ tuition ]
    [ exam; fair ].

End Demo.

(** ** Tenant membership and roles *)

(** [tenantCodeOf]: the lookup of [get_user_school_code], on the rows. *)
Definition tenant_lookup (rows : list Profile.t) (uid : option uuid) : option text :=
  match filter (fun p => Sql.holds (Sql.eq_uuid (Some (Profile.user_id p)) uid)) rows with
  | p :: _ => Profile.school_code p
  | [] => None
  end.

(** No identity that has a tenant code loses it. *)
Definition membership_kept (rows rows' : list Profile.t) : Prop :=
  forall uid, tenant_lookup rows uid <> None -> tenant_lookup rows' uid <> None.

(** Row by row: the same user, and a code where there was a code. *)
Definition keeps_code (p p' : Profile.t) : Prop :=
  Profile.user_id p' = Profile.user_id p
  /\ (Profile.school_code p <> None -> Profile.school_code p' <> None).

(** An update of [profiles] whose assignment keeps [user_id] and puts a code
    where there was one (such as [update({ school_code: code })]) keeps every
    membership; so does any insert, and any delete. *)
Definition assignment_keeps_code (s : statement Profile.t) : Prop :=
  match s with
  | Update _ assign => forall p, keeps_code p (assign p)
  | _ => True
  end.

(** The identity an action signs up, if it is a sign-up. *)
Definition signing_up (a : action) : option uuid :=
  match a with
  | act_signUp user _ _ _ _ => Some user
  | _ => None
  end.

(** The role rows after an action: the rows before, then possibly rows of
    the identity that signed up. *)
Definition roles_extended (a : action) (before after : list UserRole.t) : Prop :=
  exists extra, after = before ++ extra
                /\ Forall (fun r => signing_up a = Some (UserRole.user_id r)) extra.

(** [fetchRole], on the rows: the policy of [user_roles] looks at the row only. *)
Definition role_lookup (rows : list UserRole.t) (user : uuid) : option app_role :=
  option_map UserRole.role
    (Js.single (filter (fun r => Nat.eqb (UserRole.user_id r) user) rows)).

(** ** The requests an action sends

    Every request the handlers send, with the identity and the time it is
    sent under.  An action sends none, one (at [t1]) or two (at [t1], then at
    [t2]). *)
Inductive app_request (t1 t2 : timestamptz)
  : action -> option uuid -> timestamptz -> request -> Prop :=
| req_signUp_profile user full_name role profile_id role_id :
    app_request t1 t2 (act_signUp user full_name role profile_id role_id) (Some user) t1
      (on_profiles (Insert (Profile.mk profile_id user full_name None t1 t1)))
| req_signUp_role user full_name role profile_id role_id :
    app_request t1 t2 (act_signUp user full_name role profile_id role_id) (Some user) t2
      (on_user_roles (Insert (UserRole.mk role_id user role)))
| req_createSchool_school user schoolName schoolCode new_id name code :
    app_request t1 t2 (act_createSchool (Some user) schoolName schoolCode new_id) (Some user) t1
      (on_schools (Insert (UseSchool.new_school new_id t1 name code user)))
| req_createSchool_profile user schoolName schoolCode new_id code :
    app_request t1 t2 (act_createSchool (Some user) schoolName schoolCode new_id) (Some user) t2
      (on_profiles (Update (fun p => Nat.eqb (Profile.user_id p) user)
                           (UseSchool.set_profile_school_code code)))
| req_joinSchool user schoolCode code :
    app_request t1 t2 (act_joinSchool (Some user) schoolCode) (Some user) t1
      (on_profiles (Update (fun p => Nat.eqb (Profile.user_id p) user)
                           (UseSchool.set_profile_school_code code)))
| req_scholarship_insert user school form new_id d :
    app_request t1 t2 (act_saveScholarship user school form None new_id) user t1
      (on_scholarships (Insert (AdminScholarships.inserted new_id t1 d)))
| req_scholarship_update user school form id new_id d :
    app_request t1 t2 (act_saveScholarship user school form (Some id) new_id) user t1
      (on_scholarships (Update (fun r => Nat.eqb (Scholarship.id r) id)
                               (AdminScholarships.updated d)))
| req_scholarship_delete user id :
    app_request t1 t2 (act_deleteScholarship user id) user t1
      (on_scholarships (Delete (fun r => Nat.eqb (Scholarship.id r) id)))
| req_fee_insert user school form new_id d :
    app_request t1 t2 (act_saveFee user school form None new_id) user t1
      (on_fees (Insert (AdminFees.inserted new_id t1 d)))
| req_fee_update user school form id new_id d :
    app_request t1 t2 (act_saveFee user school form (Some id) new_id) user t1
      (on_fees (Update (fun r => Nat.eqb (Fee.id r) id) (AdminFees.updated d)))
| req_fee_delete user id :
    app_request t1 t2 (act_deleteFee user id) user t1
      (on_fees (Delete (fun r => Nat.eqb (Fee.id r) id)))
| req_notice_insert user school form new_id d :
    app_request t1 t2 (act_saveNotice user school form None new_id) user t1
      (on_notices (Insert (AdminNotices.inserted new_id t1 d)))
| req_notice_update user school form id new_id d :
    app_request t1 t2 (act_saveNotice user school form (Some id) new_id) user t1
      (on_notices (Update (fun r => Nat.eqb (Notice.id r) id) (AdminNotices.updated d)))
| req_notice_delete user id :
    app_request t1 t2 (act_deleteNotice user id) user t1
      (on_notices (Delete (fun r => Nat.eqb (Notice.id r) id))).

(** ** Timestamps *)

(** The five tables that carry [created_at] and [updated_at] and the
    [update_updated_at_column] trigger. *)
Inductive mutable_table := mt_schools | mt_profiles | mt_scholarships | mt_fees | mt_notices.

Definition mrow (k : mutable_table) : Type :=
  match k with
  | mt_schools => School.t
  | mt_profiles => Profile.t
  | mt_scholarships => Scholarship.t
  | mt_fees => Fee.t
  | mt_notices => Notice.t
  end.

Definition mrel (k : mutable_table) : Pg.relation (mrow k) :=
  match k with
  | mt_schools => schools_rel
  | mt_profiles => profiles_rel
  | mt_scholarships => scholarships_rel
  | mt_fees => fees_rel
  | mt_notices => notices_rel
  end.

Definition mrows (k : mutable_table) (db : Database) : list (mrow k) :=
  match k with
  | mt_schools => schools db
  | mt_profiles => profiles db
  | mt_scholarships => scholarships db
  | mt_fees => fees db
  | mt_notices => notices db
  end.

Definition created (k : mutable_table) : mrow k -> timestamptz :=
  match k with
  | mt_schools => School.created_at
  | mt_profiles => Profile.created_at
  | mt_scholarships => Scholarship.created_at
  | mt_fees => Fee.created_at
  | mt_notices => Notice.created_at
  end.

Definition updated (k : mutable_table) : mrow k -> timestamptz :=
  match k with
  | mt_schools => School.updated_at
  | mt_profiles => Profile.updated_at
  | mt_scholarships => Scholarship.updated_at
  | mt_fees => Fee.updated_at
  | mt_notices => Notice.updated_at
  end.

(** [updated_at >= created_at], and nothing is stamped later than the clock. *)
Definition stamped (k : mutable_table) (clock : timestamptz) (r : mrow k) : Prop :=
  (created k r <= updated k r)%Z /\ (updated k r <= clock)%Z.

Definition all_stamped (clock : timestamptz) (db : Database) : Prop :=
  forall k, Forall (stamped k clock) (mrows k db).

(** The statements the application sends: an inserted row takes both
    timestamps from the column default [now()], and an update does not
    assign [created_at]. *)
Definition well_stamped (k : mutable_table) (now : timestamptz) (s : statement (mrow k)) : Prop :=
  match s with
  | Insert new => created k new = now /\ updated k new = now
  | Update _ assign => forall r, created k (assign r) = created k r
  | Delete _ => True
  end.

Definition request_well_stamped (now : timestamptz) (r : request) : Prop :=
  match r with
  | on_schools s => well_stamped mt_schools now s
  | on_profiles s => well_stamped mt_profiles now s
  | on_user_roles _ => True
  | on_scholarships s => well_stamped mt_scholarships now s
  | on_fees s => well_stamped mt_fees now s
  | on_notices s => well_stamped mt_notices now s
  end.

(** ** Creating a school: one submission, and two at once *)

Definition code_taken (db : Database) (code : text) : Prop :=
  exists s, In s (schools db) /\ School.school_code s = code.

Definition school_id_used (db : Database) (id : uuid) : Prop :=
  exists s, In s (schools db) /\ School.id s = id.

(** *** Two submissions at once

    A submission of the form runs [handleSubmit]: after the checks, the
    insert into [schools]; then, if that was accepted, the update of the
    profile.  Each request is atomic at the database; requests of two
    browsers interleave in any order.  [advance] performs the next request of
    one submission. *)
Record submission := mkSubmission {
  sub_user : option uuid;
  sub_name : string;
  sub_code : string;
  sub_id : uuid
}.

Inductive progress :=
| submitted
| school_stored
| finished (t : CreateSchool.Toast).

(** The code a submission asks for, as [createSchool] normalises it. *)
Definition requested_code (s : submission) : text :=
  Js.strip_non_code (Js.toUpperCase (Js.trim (sub_code s))).

(** [handleSubmit], one request at a time: from [submitted], the checks and
    the insert; from [school_stored], the update of the profile (see
    [advance_twice_is_handleSubmit]). *)
Definition advance (s : submission) (now : timestamptz) (p : progress) (db : Database)
    : progress * Database :=
  match p with
  | submitted =>
      if (String.length (Js.trim (sub_name s)) <? 3)%nat
      then (finished CreateSchool.invalid_name_toast, db)
      else if (String.length (Js.trim (sub_code s)) <? 4)%nat
      then (finished CreateSchool.invalid_code_toast, db)
      else
        match sub_user s with
        | None => (finished (CreateSchool.failure_toast UseSchool.not_authenticated), db)
        | Some user_id =>
            match exec_request db (sub_user s) now
                    (on_schools (Insert (UseSchool.new_school (sub_id s) now
                                           (Js.trim (sub_name s)) (requested_code s) user_id))) with
            | inl e => (finished (CreateSchool.failure_toast (UseSchool.pg_error e)), db)
            | inr db1 => (school_stored, db1)
            end
        end
  | school_stored =>
      (finished CreateSchool.created_toast,
       match sub_user s with
       | None => db
       | Some user_id =>
           after_request db (sub_user s) now
             (on_profiles (Update (fun p => Nat.eqb (Profile.user_id p) user_id)
                                  (UseSchool.set_profile_school_code (requested_code s))))
       end)
  | finished t => (finished t, db)
  end.

Definition toast_of (p : progress) : CreateSchool.Toast :=
  match p with
  | finished t => t
  | _ => CreateSchool.created_toast
  end.

(** A schedule says whose request comes next, and at what time. *)
Fixpoint interleave (schedule : list (bool * timestamptz)) (s1 s2 : submission)
    (p1 p2 : progress) (db : Database) : progress * progress * Database :=
  match schedule with
  | [] => (p1, p2, db)
  | (true, now) :: rest =>
      let '(p1', db') := advance s1 now p1 db in interleave rest s1 s2 p1' p2 db'
  | (false, now) :: rest =>
      let '(p2', db') := advance s2 now p2 db in interleave rest s1 s2 p1 p2' db'
  end.

Definition code_taken_toast : CreateSchool.Toast :=
  CreateSchool.mkToast CreateSchool.destructive "Failed to create school"
    CreateSchool.code_taken_message.

Definition well_formed (s : submission) : Prop :=
  (3 <= String.length (Js.trim (sub_name s)))%nat
  /\ (4 <= String.length (Js.trim (sub_code s)))%nat.

(** A submission has won once its school is stored. *)
Definition won (p : progress) : Prop :=
  p = school_stored \/ p = finished CreateSchool.created_toast.

Section RaceStates.
Variables (db0 : Database) (s1 : submission).

(** Where the two submissions can stand. *)
Inductive race : progress -> progress -> Database -> Prop :=
| race_open db :
    schools db = schools db0 -> race submitted submitted db
| race_first_ahead p1 row db :
    won p1 -> schools db = schools db0 ++ [row] ->
    School.school_code row = requested_code s1 ->
    race p1 submitted db
| race_second_ahead p2 row db :
    won p2 -> schools db = schools db0 ++ [row] ->
    School.school_code row = requested_code s1 ->
    race submitted p2 db
| race_first_won p1 row db :
    won p1 -> schools db = schools db0 ++ [row] ->
    School.school_code row = requested_code s1 ->
    race p1 (finished code_taken_toast) db
| race_second_won p2 row db :
    won p2 -> schools db = schools db0 ++ [row] ->
    School.school_code row = requested_code s1 ->
    race (finished code_taken_toast) p2 db.

Definition race_invariant (p1 p2 : progress) (db : Database) : Prop :=
  user_roles db = user_roles db0 /\ race p1 p2 db.

End RaceStates.

(** Every submission is through after two of its requests. *)
Definition steps_left (p : progress) : nat :=
  match p with
  | submitted => 2
  | school_stored => 1
  | finished _ => 0
  end.

Definition turns (who : bool) (schedule : list (bool * timestamptz)) : nat :=
  List.length (filter (fun x => Bool.eqb (fst x) who) schedule).

(** * Part I, continued: the rest of the hooks and pages *)

(** ** pages/CreateSchool: the code field and [generateCode] *)
Module CreateSchoolForm.

(** The code input's [onChange]:
    [setSchoolCode(e.target.value.toUpperCase().replace(/[^A-Z0-9]/g, ''))]. *)
Definition onChange (value : string) : string :=
  Js.strip_non_code (Js.toUpperCase value).





End CreateSchoolForm.

(** ** hooks/useSchool: [fetchSchool]

    The body of the effect.  [school] is the hook's state before the run and
    the result its state after: the state is cleared when there is no user,
    set when a school is found, and left as it was otherwise.  First the
    school the user administers, then the school the profile's code names;
    [.single()] gives no data unless exactly one row comes back. *)
Definition fetchSchool (db : Database) (user : option uuid) (profile_school_code : option text)
    (school : option School.t) : option School.t :=
  match user with
  | None => None
  | Some user_id =>
      match Js.single (Pg.select_rows schools_rel db user
                         (fun s => Nat.eqb (School.admin_id s) user_id) (schools db)) with
      | Some adminSchool => Some adminSchool
      | None =>
          match profile_school_code with
          | None => school
          | Some code =>
              if String.eqb code EmptyString then school
              else
                match Js.single (Pg.select_rows schools_rel db user
                                   (fun s => String.eqb (School.school_code s) code)
                                   (schools db)) with
                | Some studentSchool => Some studentSchool
                | None => school
                end
          end
      end
  end.

(** ** pages/admin/AdminNotices: [openEditDialog]

    The form the dialog opens with, and [editingId]:
    [priority: notice.priority || 'normal']. *)
Module AdminNoticesDialog.

Definition openEditDialog (notice : Notice.t) : (text * text * text) * option uuid :=
  ((Notice.title notice, Notice.content notice,
    match Notice.priority notice with
    | Some p => if String.eqb p EmptyString then "normal" else p
    | None => "normal"
    end),
   Some (Notice.id notice)).

End AdminNoticesDialog.

(** ** The query builder: [order] and [limit] *)
Module Query.

(** [.order(column, { ascending })].  Rows with equal keys stay in the order
    the table has them (PostgreSQL leaves their order open). *)
Fixpoint place {Row : Type} (before : Row -> Row -> bool) (x : Row) (rows : list Row)
    : list Row :=
  match rows with
  | [] => [x]
  | y :: rest => if before x y then x :: y :: rest else y :: place before x rest
  end.

Definition order {Row : Type} (before : Row -> Row -> bool) (rows : list Row) : list Row :=
  fold_right (place before) [] rows.

(** [ascending: true] on a nullable column: NULLs come last. *)
Definition ascending (a b : option Z) : bool :=
  match a, b with
  | Some x, Some y => (x <=? y)%Z
  | Some _, None => true
  | None, Some _ => false
  | None, None => true
  end.

(** [ascending: false] on a NOT NULL column. *)
Definition descending (a b : Z) : bool := (b <=? a)%Z.

(** [.limit(n)]. *)
Definition limit {Row : Type} (n : nat) (rows : list Row) : list Row := firstn n rows.

End Query.

(** ** JavaScript dates: the time value, in milliseconds since 1970-01-01 UTC *)
Module JsDate.


(** [a / b] on numbers. *)
Definition quotient (a b : Z) : Q := Qdiv (inject_Z a) (inject_Z b).

Definition lt (a : Q) (b : Z) : bool := negb (Qle_bool (inject_Z b) a).

End JsDate.

(** ** pages/dashboard/Notices *)
Module Notices.

(** [fetchNotices], run by the effect unless [profile?.school_code] is missing
    or empty; the list is what [setNotices] leaves:
    [.select('*').eq('school_code', profile.school_code)
     .order('created_at', { ascending: false })]. *)
Definition fetchNotices (db : Database) (user : option uuid) (profile_school_code : option text)
    (state : list Notice.t) : list Notice.t :=
  match profile_school_code with
  | None => state
  | Some code =>
      if String.eqb code EmptyString then state
      else
        Query.order (fun a b => Query.descending (Notice.created_at a) (Notice.created_at b))
          (Pg.select_rows notices_rel db user
             (fun r => String.eqb (Notice.school_code r) code) (notices db))
  end.


Inductive date_label :=
| just_now
| hours_ago (hours : Z)
| yesterday
| on_date.

(** [formatDate]: [now] and [date] are the time values of [new Date()] and
    [new Date(dateString)].  The last case is the browser's
    [toLocaleDateString]. *)
Definition formatDate (now date : Z) : date_label :=
  let diffInHours := JsDate.quotient (now - date) (1000 * 60 * 60) in
  if JsDate.lt diffInHours 1 then just_now
  else if JsDate.lt diffInHours 24 then hours_ago (Qfloor diffInHours)
  else if JsDate.lt diffInHours 48 then yesterday
  else on_date.

End Notices.

(** ** pages/dashboard/Dashboard: [fetchStats] *)
Module Dashboard.

Record Stats := mkStats {
  n_scholarships : nat;
  n_notices : nat
}.

(** The two counts ([select('id', { count: 'exact' })]) and the three most
    recent notices, all for [profile.school_code]; the requests are taken to
    read the same state of the database. *)
Definition fetchStats (db : Database) (user : option uuid) (profile_school_code : option text)
    (state : Stats * list Notice.t) : Stats * list Notice.t :=
  match profile_school_code with
  | None => state
  | Some code =>
      if String.eqb code EmptyString then state
      else
        (mkStats
           (List.length (Pg.select_rows scholarships_rel db user
                           (fun r => String.eqb (Scholarship.school_code r) code)
                           (scholarships db)))
           (List.length (Pg.select_rows notices_rel db user
                           (fun r => String.eqb (Notice.school_code r) code) (notices db))),
         Query.limit 3
           (Query.order (fun a b => Query.descending (Notice.created_at a) (Notice.created_at b))
              (Pg.select_rows notices_rel db user
                 (fun r => String.eqb (Notice.school_code r) code) (notices db))))
  end.

End Dashboard.

(** ** pages/dashboard/Scholarships *)
Module Scholarships.

Definition fetchScholarships (db : Database) (user : option uuid)
    (profile_school_code : option text) (state : list Scholarship.t) : list Scholarship.t :=
  match profile_school_code with
  | None => state
  | Some code =>
      if String.eqb code EmptyString then state
      else
        Query.order (fun a b => Query.ascending (Scholarship.deadline a) (Scholarship.deadline b))
          (Pg.select_rows scholarships_rel db user
             (fun r => String.eqb (Scholarship.school_code r) code) (scholarships db))
  end.



End Scholarships.

(** ** pages/dashboard/Fees *)
Module Fees.

Definition fetchFees (db : Database) (user : option uuid)
    (profile_school_code : option text) (state : list Fee.t) : list Fee.t :=
  match profile_school_code with
  | None => state
  | Some code =>
      if String.eqb code EmptyString then state
      else
        Query.order (fun a b => Query.ascending (Fee.due_date a) (Fee.due_date b))
          (Pg.select_rows fees_rel db user
             (fun r => String.eqb (Fee.school_code r) code) (fees db))
  end.



End Fees.

(** ** pages/CreateSchool: what the page renders

    The spinner while a hook is loading, a redirect, or the form. *)
Module CreateSchoolPage.

Inductive view :=
| spinner
| navigate (to : string)
| form.

(** [profile?.school_code] as a condition: a missing profile, NULL and the
    empty string all count as false. *)
Definition has_code (profile_school_code : option text) : bool :=
  match profile_school_code with
  | Some code => negb (String.eqb code EmptyString)
  | None => false
  end.

Definition render (authLoading roleLoading schoolLoading : bool) (user : option uuid)
    (isAdmin : bool) (school : option School.t) (profile_school_code : option text) : view :=
  if authLoading || roleLoading || schoolLoading then spinner
  else
    match user with
    | None => navigate "/auth"
    | Some _ =>
        if negb isAdmin then navigate "/join-school"
        else
          match school with
          | Some _ => navigate "/admin"
          | None => if has_code profile_school_code then navigate "/admin" else form
          end
    end.

End CreateSchoolPage.

(** * Part I, continued: the vocabulary of the properties of the pages *)

(** Every character is one of [A-Z0-9]. *)
Fixpoint code_chars (s : string) : bool :=
  match s with
  | EmptyString => true
  | String c s' => (Js.is_upper c || Js.is_digit c) && code_chars s'
  end.

(** Nothing but white space. *)
Fixpoint blank (s : string) : bool :=
  match s with
  | EmptyString => true
  | String c s' => Js.is_space c && blank s'
  end.

(** The PRIMARY KEY and UNIQUE constraints of the six tables. *)
Definition role_key (r : UserRole.t) : uuid * app_role :=
  (UserRole.user_id r, UserRole.role r).

Definition role_key_eqb (a b : uuid * app_role) : bool :=
  Nat.eqb (fst a) (fst b) && app_role_eqb (snd a) (snd b).

Record constraints_hold (db : Database) : Prop := mkConstraints {
  schools_pkey : NoDup (map School.id (schools db));
  schools_school_code_key : NoDup (map School.school_code (schools db));
  profiles_pkey : NoDup (map Profile.id (profiles db));
  profiles_user_id_key : NoDup (map Profile.user_id (profiles db));
  user_roles_pkey : NoDup (map UserRole.id (user_roles db));
  user_roles_user_id_role_key : NoDup (map role_key (user_roles db));
  scholarships_pkey : NoDup (map Scholarship.id (scholarships db));
  fees_pkey : NoDup (map Fee.id (fees db));
  notices_pkey : NoDup (map Notice.id (notices db))
}.

(** The small database after identity 5 has signed up as an admin; it has
    no school yet. *)
Definition demo_newcomer : Database :=
  mkDatabase (schools Demo.db)
    (profiles Demo.db ++ [Profile.mk 24 5 "Eve" None 140%Z 140%Z])
    (user_roles Demo.db ++ [UserRole.mk 34 5 admin])
    (scholarships Demo.db) (fees Demo.db) (notices Demo.db).

(** What an accepted UPDATE makes of a row: the triggers' result on the
    assignment when the statement targets it, the row itself otherwise. *)
Definition updated_row {Row : Type} (R : Pg.relation Row) (db : Database) (uid : option uuid)
    (now : timestamptz) (cond : Row -> bool) (assign : Row -> Row) (r : Row) : Row :=
  if Pg.targeted R db uid UPDATE cond r then Pg.run_triggers R now (assign r) else r.

(** No row of the table collides with another one on a PRIMARY KEY or UNIQUE
    constraint. *)
Definition no_conflicts {Row : Type} (R : Pg.relation Row) (rows : list Row) : Prop :=
  forall l1 r l2, rows = l1 ++ r :: l2 -> Pg.find_conflict R r (l1 ++ l2) = None.


(** Newest first. *)
Definition newest_first (rows : list Notice.t) : Prop :=
  StronglySorted (fun a b => (Notice.created_at b <= Notice.created_at a)%Z) rows.

(** * Part II: properties *)

Lemma app_role_eqb_eq a b : app_role_eqb a b = true <-> a = b.
Proof. destruct a, b; simpl; split; congruence. Qed.

(** ** SQL's three-valued logic *)
Module SqlFacts.
Import Sql.

Lemma holds_eq_uuid a b : holds (eq_uuid a b) = true <-> exists x, a = Some x /\ b = Some x.
Proof.
  destruct a as [x|], b as [y|]; simpl;
    try (split; [discriminate | intros (z & Ha & Hb); discriminate]).
  destruct (Nat.eqb_spec x y) as [->|Hne]; split; eauto; try discriminate.
  intros (z & Ha & Hb). congruence.
Qed.

Lemma holds_eq_text a b : holds (eq_text a b) = true <-> exists x, a = Some x /\ b = Some x.
Proof.
  destruct a as [x|], b as [y|]; simpl;
    try (split; [discriminate | intros (z & Ha & Hb); discriminate]).
  destruct (String.eqb_spec x y) as [->|Hne]; split; eauto; try discriminate.
  intros (z & Ha & Hb). congruence.
Qed.

Lemma holds_of_bool b : holds (of_bool b) = b.
Proof. now destruct b. Qed.

Lemma holds_and3 a b : holds (and3 a b) = holds a && holds b.
Proof. destruct a as [[|]|], b as [[|]|]; reflexivity. Qed.

Lemma holds_or3 a b : holds (or3 a b) = holds a || holds b.
Proof. destruct a as [[|]|], b as [[|]|]; reflexivity. Qed.

End SqlFacts.

Arguments Sql.holds : simpl never.
Arguments Sql.and3 : simpl never.
Arguments Sql.or3 : simpl never.
Arguments Sql.eq_uuid : simpl never.
Arguments Sql.eq_text : simpl never.
Arguments Sql.of_bool : simpl never.
Arguments has_role : simpl never.
Arguments get_user_school_code : simpl never.
Arguments is_school_admin : simpl never.

(** ** What each policy set decides *)

Section PolicyFacts.

Variables (db : Database) (uid : option uuid).

Lemma eq_uuid_sym a b : Sql.eq_uuid a b = Sql.eq_uuid b a.
Proof. destruct a, b; unfold Sql.eq_uuid; try reflexivity. now rewrite Nat.eqb_sym. Qed.

Lemma holds_uid_is (u : uuid) : Sql.holds (Sql.eq_uuid uid (Some u)) = true <-> uid = Some u.
Proof.
  rewrite SqlFacts.holds_eq_uuid. split.
  - intros (x & -> & E). now injection E as ->.
  - intros ->. eauto.
Qed.

(** profiles *)
Lemma profiles_select row :
  allow_select profiles_table db uid row = Sql.holds (Sql.eq_uuid uid (Some (Profile.user_id row))).
Proof. unfold allow_select, using_passes. simpl. now rewrite orb_false_r. Qed.

Lemma profiles_insert row :
  allow_insert profiles_table db uid row = Sql.holds (Sql.eq_uuid uid (Some (Profile.user_id row))).
Proof. unfold allow_insert, check_passes. simpl. now rewrite orb_false_r. Qed.

Lemma profiles_update old new :
  allow_update profiles_table db uid old new
  = Sql.holds (Sql.eq_uuid uid (Some (Profile.user_id old)))
    && Sql.holds (Sql.eq_uuid uid (Some (Profile.user_id new))).
Proof. unfold allow_update, using_passes, check_passes. simpl. now rewrite !orb_false_r. Qed.

Lemma profiles_delete row : allow_delete profiles_table db uid row = false.
Proof. reflexivity. Qed.

(** user_roles *)
Lemma user_roles_select row :
  allow_select user_roles_table db uid row = Sql.holds (Sql.eq_uuid uid (Some (UserRole.user_id row))).
Proof. unfold allow_select, using_passes. simpl. now rewrite orb_false_r. Qed.

Lemma user_roles_insert row :
  allow_insert user_roles_table db uid row = Sql.holds (Sql.eq_uuid uid (Some (UserRole.user_id row))).
Proof. unfold allow_insert, check_passes. simpl. now rewrite orb_false_r. Qed.

Lemma user_roles_update_using row : using_passes user_roles_table db uid UPDATE row = false.
Proof. reflexivity. Qed.

Lemma user_roles_delete row : allow_delete user_roles_table db uid row = false.
Proof. reflexivity. Qed.

(** schools *)
Lemma schools_select row : allow_select schools_table db uid row = true.
Proof. reflexivity. Qed.

Lemma schools_insert row :
  allow_insert schools_table db uid row
  = has_role db uid admin && Sql.holds (Sql.eq_uuid (Some (School.admin_id row)) uid).
Proof.
  unfold allow_insert, check_passes. simpl. now rewrite orb_false_r, SqlFacts.holds_and3, SqlFacts.holds_of_bool.
Qed.

Lemma schools_update old new :
  allow_update schools_table db uid old new
  = Sql.holds (Sql.eq_uuid (Some (School.admin_id old)) uid)
    && Sql.holds (Sql.eq_uuid (Some (School.admin_id new)) uid).
Proof. unfold allow_update, using_passes, check_passes. simpl. now rewrite !orb_false_r. Qed.

Lemma schools_delete row : allow_delete schools_table db uid row = false.
Proof. reflexivity. Qed.

Lemma scholarships_select row :
  allow_select scholarships_table db uid row = member_or_admin db uid (Scholarship.school_code row).
Proof.
  unfold allow_select, using_passes, member_or_admin. simpl.
  now rewrite orb_false_r, SqlFacts.holds_or3, SqlFacts.holds_of_bool.
Qed.

Lemma fees_select row :
  allow_select fees_table db uid row = member_or_admin db uid (Fee.school_code row).
Proof.
  unfold allow_select, using_passes, member_or_admin. simpl.
  now rewrite orb_false_r, SqlFacts.holds_or3, SqlFacts.holds_of_bool.
Qed.

Lemma notices_select row :
  allow_select notices_table db uid row = member_or_admin db uid (Notice.school_code row).
Proof.
  unfold allow_select, using_passes, member_or_admin. simpl.
  now rewrite orb_false_r, SqlFacts.holds_or3, SqlFacts.holds_of_bool.
Qed.

Lemma scholarships_insert row :
  allow_insert scholarships_table db uid row = is_school_admin db uid (Some (Scholarship.school_code row)).
Proof. unfold allow_insert, check_passes. simpl. now rewrite orb_false_r, SqlFacts.holds_of_bool. Qed.

Lemma fees_insert row :
  allow_insert fees_table db uid row = is_school_admin db uid (Some (Fee.school_code row)).
Proof. unfold allow_insert, check_passes. simpl. now rewrite orb_false_r, SqlFacts.holds_of_bool. Qed.

Lemma notices_insert row :
  allow_insert notices_table db uid row = is_school_admin db uid (Some (Notice.school_code row)).
Proof. unfold allow_insert, check_passes. simpl. now rewrite orb_false_r, SqlFacts.holds_of_bool. Qed.

Lemma scholarships_update old new :
  allow_update scholarships_table db uid old new
  = is_school_admin db uid (Some (Scholarship.school_code old))
    && is_school_admin db uid (Some (Scholarship.school_code new)).
Proof.
  unfold allow_update, using_passes, check_passes. simpl.
  now rewrite !orb_false_r, !SqlFacts.holds_of_bool.
Qed.

Lemma fees_update old new :
  allow_update fees_table db uid old new
  = is_school_admin db uid (Some (Fee.school_code old))
    && is_school_admin db uid (Some (Fee.school_code new)).
Proof.
  unfold allow_update, using_passes, check_passes. simpl.
  now rewrite !orb_false_r, !SqlFacts.holds_of_bool.
Qed.

Lemma notices_update old new :
  allow_update notices_table db uid old new
  = is_school_admin db uid (Some (Notice.school_code old))
    && is_school_admin db uid (Some (Notice.school_code new)).
Proof.
  unfold allow_update, using_passes, check_passes. simpl.
  now rewrite !orb_false_r, !SqlFacts.holds_of_bool.
Qed.

Lemma scholarships_delete row :
  allow_delete scholarships_table db uid row = is_school_admin db uid (Some (Scholarship.school_code row)).
Proof. unfold allow_delete, using_passes. simpl. now rewrite orb_false_r, SqlFacts.holds_of_bool. Qed.

Lemma fees_delete row :
  allow_delete fees_table db uid row = is_school_admin db uid (Some (Fee.school_code row)).
Proof. unfold allow_delete, using_passes. simpl. now rewrite orb_false_r, SqlFacts.holds_of_bool. Qed.

Lemma notices_delete row :
  allow_delete notices_table db uid row = is_school_admin db uid (Some (Notice.school_code row)).
Proof. unfold allow_delete, using_passes. simpl. now rewrite orb_false_r, SqlFacts.holds_of_bool. Qed.

End PolicyFacts.

(** ** One statement *)

Section StatementFacts.

Context {Row : Type} (R : Pg.relation Row) (db : Database) (uid : option uuid)
        (now : timestamptz).

Lemma update_rows_spec cond assign todo : forall done out,
  Pg.update_rows R db uid now cond assign done todo = inr out ->
  exists out', out = done ++ out' /\ Forall2 (rewritten R db uid now cond assign) todo out'.
Proof.
  induction todo as [|r rest IH]; intros done out H; simpl in H.
  - injection H as <-. exists []. split; [now rewrite app_nil_r | constructor].
  - destruct (Pg.targeted R db uid UPDATE cond r) eqn:Ht.
    + destruct (check_passes _ db uid UPDATE _) eqn:Hc; simpl in H; [|discriminate].
      destruct (Pg.find_conflict R _ _); [discriminate|].
      apply IH in H. destruct H as (out' & -> & HF).
      exists (Pg.run_triggers R now (assign r) :: out'). split.
      * now rewrite <- app_assoc.
      * constructor; [right; auto | exact HF].
    + apply IH in H. destruct H as (out' & -> & HF).
      exists (r :: out'). split.
      * now rewrite <- app_assoc.
      * constructor; [left; auto | exact HF].
Qed.

Lemma update_rows_rewritten cond assign rows out :
  Pg.update_rows R db uid now cond assign [] rows = inr out ->
  Forall2 (rewritten R db uid now cond assign) rows out.
Proof.
  intros H. apply update_rows_spec in H. destruct H as (out' & -> & HF). exact HF.
Qed.

(** With no UPDATE policy that lets a row through, an UPDATE changes nothing. *)
Lemma update_rows_no_target cond assign todo : forall done,
  (forall r, In r todo -> Pg.targeted R db uid UPDATE cond r = false) ->
  Pg.update_rows R db uid now cond assign done todo = inr (done ++ todo).
Proof.
  induction todo as [|r rest IH]; intros done H; simpl.
  - now rewrite app_nil_r.
  - rewrite (H r (or_introl eq_refl)), IH.
    + now rewrite <- app_assoc.
    + intros r' Hin. apply H. now right.
Qed.

Lemma delete_rows_no_target cond rows :
  (forall r, In r rows -> Pg.targeted R db uid DELETE cond r = false) ->
  Pg.delete_rows R db uid cond rows = rows.
Proof.
  intros H. unfold Pg.delete_rows. induction rows as [|r rest IH]; simpl; [reflexivity|].
  rewrite (H r (or_introl eq_refl)). simpl. f_equal. apply IH.
  intros r' Hin. apply H. now right.
Qed.

Lemma insert_row_spec new rows out :
  Pg.insert_row R db uid new rows = inr out ->
  out = rows ++ [new]
  /\ check_passes (Pg.rel_table R) db uid INSERT new = true
  /\ Pg.find_conflict R new rows = None.
Proof.
  unfold Pg.insert_row. intros H.
  destruct (check_passes _ db uid INSERT new); simpl in H; [|discriminate].
  destruct (Pg.find_conflict R new rows); [discriminate|].
  injection H as <-. auto.
Qed.

(** A property of rows that new and rewritten rows have is kept by every
    accepted statement. *)
Lemma exec_statement_Forall (P : Row -> Prop) s rows out :
  Forall P rows ->
  match s with
  | Insert new => P new
  | Update _ assign => forall r, P r -> P (Pg.run_triggers R now (assign r))
  | Delete _ => True
  end ->
  exec_statement R db uid now s rows = inr out ->
  Forall P out.
Proof.
  intros HP Hs H. destruct s as [new|cond assign|cond]; simpl in H.
  - apply insert_row_spec in H. destruct H as (-> & _ & _).
    apply Forall_app. split; [exact HP | constructor; [exact Hs | constructor]].
  - apply update_rows_rewritten in H.
    induction H as [|r r' l l' Hr HF IH]; [constructor|].
    inversion HP; subst. constructor; [|auto].
    destruct Hr as [[_ ->]|(_ & -> & _)]; auto.
  - injection H as <-. unfold Pg.delete_rows.
    rewrite Forall_forall in *. intros x Hx. apply filter_In in Hx. apply HP, Hx.
Qed.

End StatementFacts.

(** The SELECT policy of every table lets through whatever its UPDATE and
    DELETE policies let through, so the extra SELECT condition in
    [Pg.targeted] never removes a row the command's own policy accepts. *)
Lemma select_implied_by_update_scholarships db uid r :
  using_passes scholarships_table db uid UPDATE r = true ->
  using_passes scholarships_table db uid SELECT r = true.
Proof.
  intros H. change (allow_select scholarships_table db uid r = true).
  rewrite scholarships_select. unfold member_or_admin.
  unfold using_passes in H. simpl in H. rewrite orb_false_r, SqlFacts.holds_of_bool in H.
  rewrite H. apply orb_true_r.
Qed.

Lemma select_implied_by_update_fees db uid r :
  using_passes fees_table db uid UPDATE r = true ->
  using_passes fees_table db uid SELECT r = true.
Proof.
  intros H. change (allow_select fees_table db uid r = true).
  rewrite fees_select. unfold member_or_admin.
  unfold using_passes in H. simpl in H. rewrite orb_false_r, SqlFacts.holds_of_bool in H.
  rewrite H. apply orb_true_r.
Qed.

Lemma select_implied_by_update_notices db uid r :
  using_passes notices_table db uid UPDATE r = true ->
  using_passes notices_table db uid SELECT r = true.
Proof.
  intros H. change (allow_select notices_table db uid r = true).
  rewrite notices_select. unfold member_or_admin.
  unfold using_passes in H. simpl in H. rewrite orb_false_r, SqlFacts.holds_of_bool in H.
  rewrite H. apply orb_true_r.
Qed.

Lemma select_implied_by_update_profiles db uid r :
  using_passes profiles_table db uid UPDATE r = using_passes profiles_table db uid SELECT r.
Proof. reflexivity. Qed.

Lemma select_implied_by_update_schools db uid r :
  using_passes schools_table db uid SELECT r = true.
Proof. reflexivity. Qed.

(** ** The three tenant-scoped tables, taken together *)

Lemma resource_select k db uid (R : row_of k) :
  allow_select (table_of k) db uid R = member_or_admin db uid (school_code_of k R).
Proof.
  destruct k; [apply scholarships_select | apply fees_select | apply notices_select].
Qed.

Lemma resource_insert k db uid (R : row_of k) :
  allow_insert (table_of k) db uid R = is_school_admin db uid (Some (school_code_of k R)).
Proof.
  destruct k; [apply scholarships_insert | apply fees_insert | apply notices_insert].
Qed.

Lemma resource_update k db uid (old new : row_of k) :
  allow_update (table_of k) db uid old new
  = is_school_admin db uid (Some (school_code_of k old))
    && is_school_admin db uid (Some (school_code_of k new)).
Proof.
  destruct k; [apply scholarships_update | apply fees_update | apply notices_update].
Qed.

Lemma resource_delete k db uid (R : row_of k) :
  allow_delete (table_of k) db uid R = is_school_admin db uid (Some (school_code_of k R)).
Proof.
  destruct k; [apply scholarships_delete | apply fees_delete | apply notices_delete].
Qed.

Lemma resource_update_check k db uid (new : row_of k) :
  check_passes (table_of k) db uid UPDATE new
  = is_school_admin db uid (Some (school_code_of k new)).
Proof.
  destruct k; unfold check_passes; simpl; now rewrite !orb_false_r, SqlFacts.holds_of_bool.
Qed.

Lemma rel_table_of k : Pg.rel_table (rel_of k) = table_of k.
Proof. now destruct k. Qed.

(** ** Who administers a code *)

Lemma is_school_admin_iff db uid code :
  is_school_admin db uid (Some code) = true
  <-> exists s, In s (schools db) /\ uid = Some (School.admin_id s) /\ School.school_code s = code.
Proof.
  unfold is_school_admin. rewrite existsb_exists. split.
  - intros (s & Hin & H). exists s. split; [exact Hin|].
    rewrite SqlFacts.holds_and3 in H. apply andb_true_iff in H. destruct H as [Ha Hc].
    apply SqlFacts.holds_eq_uuid in Ha. destruct Ha as (x & Hx & ->).
    apply SqlFacts.holds_eq_text in Hc. destruct Hc as (c & Hc1 & Hc2).
    split; congruence.
  - intros (s & Hin & -> & <-). exists s. split; [exact Hin|].
    rewrite SqlFacts.holds_and3. apply andb_true_iff. split.
    + apply SqlFacts.holds_eq_uuid. eauto.
    + apply SqlFacts.holds_eq_text. eauto.
Qed.

Lemma NoDup_map_eq {A B : Type} (f : A -> B) (l : list A) (x y : A) :
  NoDup (map f l) -> In x l -> In y l -> f x = f y -> x = y.
Proof.
  induction l as [|a l IH]; simpl; intros Hnd Hx Hy Hf; [contradiction|].
  inversion Hnd as [|? ? Hnotin Hnd']; subst.
  destruct Hx as [->|Hx], Hy as [->|Hy]; auto.
  - exfalso. apply Hnotin. rewrite Hf. now apply in_map.
  - exfalso. apply Hnotin. rewrite <- Hf. now apply in_map.
Qed.

(** Under the constraint, the code of a school has one administrator: the
    identity in its [admin_id]. *)
Lemma is_school_admin_of db uid s :
  unique_school_codes db -> In s (schools db) ->
  (is_school_admin db uid (Some (School.school_code s)) = true <-> uid = Some (School.admin_id s)).
Proof.
  intros Hu Hin. rewrite is_school_admin_iff. split.
  - intros (s' & Hin' & -> & Hc).
    now rewrite (NoDup_map_eq School.school_code (schools db) s' s Hu Hin' Hin Hc).
  - intros ->. exists s. auto.
Qed.

Lemma is_school_admin_not db uid s :
  unique_school_codes db -> In s (schools db) -> uid <> Some (School.admin_id s) ->
  is_school_admin db uid (Some (School.school_code s)) = false.
Proof.
  intros Hu Hin Hne. destruct (is_school_admin _ _ _) eqn:E; [|reflexivity].
  exfalso. apply Hne. now apply (is_school_admin_of db uid s Hu Hin).
Qed.

Lemma demo_unique_codes : unique_school_codes Demo.db.
Proof.
  unfold unique_school_codes. simpl.
  constructor.
  - simpl. intros [H|[]]. discriminate H.
  - constructor; [intros [] | constructor].
Qed.

(** ** The policy engine: who may do what *)

Lemma member_or_admin_iff db uid code :
  member_or_admin db uid code = true
  <-> get_user_school_code db uid = Some code
      \/ exists s, In s (schools db) /\ uid = Some (School.admin_id s) /\ School.school_code s = code.
Proof.
  unfold member_or_admin. rewrite orb_true_iff, is_school_admin_iff, SqlFacts.holds_eq_text.
  split; (intros [H|H]; [left|right; exact H]).
  - destruct H as (x & Hx & ->). congruence.
  - exists code. auto.
Qed.

(** C1. Tenant isolation on reads.  For a user U whose tenant code is C1 and
    a scholarship, fee or notice row R of another tenant, the SELECT policy
    lets R through exactly when U is the administrator recorded in a school
    with R's code; and whatever a SELECT on one of the three tables returns,
    for any caller and any WHERE clause, is a row of the caller's own tenant
    code or of a school the caller administers. *)
Theorem tenant_isolation_on_reads (k : resource) (db : Database) :
  (forall (U : uuid) (C1 : text) (R : row_of k),
      get_user_school_code db (Some U) = Some C1 ->
      school_code_of k R <> C1 ->
      (allow_select (table_of k) db (Some U) R = true
       <-> exists s, In s (schools db) /\ School.admin_id s = U
                     /\ School.school_code s = school_code_of k R))
  /\ (forall (uid : option uuid) (cond : row_of k -> bool) (R : row_of k),
         In R (Pg.select_rows (rel_of k) db uid cond (rows_of k db)) ->
         get_user_school_code db uid = Some (school_code_of k R)
         \/ exists s, In s (schools db) /\ uid = Some (School.admin_id s)
                      /\ School.school_code s = school_code_of k R).
Proof.
  split.
  - intros U C1 R Hcode Hne. rewrite resource_select, member_or_admin_iff. split.
    + intros [H|(s & Hin & Hu & Hc)].
      * exfalso. apply Hne. congruence.
      * exists s. injection Hu as ->. auto.
    + intros (s & Hin & <- & Hc). right. exists s. auto.
  - intros uid cond R Hin. unfold Pg.select_rows in Hin. apply filter_In in Hin.
    destruct Hin as [_ H]. apply andb_true_iff in H. destruct H as [H _].
    rewrite rel_table_of in H. change (allow_select (table_of k) db uid R = true) in H.
    now rewrite resource_select, member_or_admin_iff in H.
Qed.

(** A student of "SPRING24" and a notice of "OAKHILL1". *)
Lemma tenant_isolation_on_reads_witness :
  allow_select (table_of res_notices) Demo.db (Some 2) Demo.fair = true
  <-> exists s, In s (schools Demo.db) /\ School.admin_id s = 2
                /\ School.school_code s = school_code_of res_notices Demo.fair.
Proof.
  apply (proj1 (tenant_isolation_on_reads res_notices Demo.db) 2 "SPRING24" Demo.fair).
  - reflexivity.
  - simpl. discriminate.
Defined.

(** C2. Admin supremacy.  For a school s in a database that respects the
    UNIQUE constraint on codes, and the rows of s's tenant in any of the three
    tables: the identity in s's [admin_id] may select, insert and delete such
    a row and update it to any row of the same tenant; any other caller,
    signed in or not, may neither insert nor delete such a row nor update it
    to anything; in particular a user whose profile carries the tenant's code
    and who is not its administrator cannot insert a fee for it. *)
Theorem admin_supremacy (k : resource) (db : Database) (s : School.t) :
  unique_school_codes db ->
  In s (schools db) ->
  (forall R : row_of k, school_code_of k R = School.school_code s ->
      allow_select (table_of k) db (Some (School.admin_id s)) R = true
      /\ allow_insert (table_of k) db (Some (School.admin_id s)) R = true
      /\ (forall R' : row_of k, school_code_of k R' = School.school_code s ->
             allow_update (table_of k) db (Some (School.admin_id s)) R R' = true)
      /\ allow_delete (table_of k) db (Some (School.admin_id s)) R = true)
  /\ (forall (uid : option uuid) (R : row_of k),
         uid <> Some (School.admin_id s) ->
         school_code_of k R = School.school_code s ->
         allow_insert (table_of k) db uid R = false
         /\ (forall R' : row_of k, allow_update (table_of k) db uid R R' = false)
         /\ allow_delete (table_of k) db uid R = false)
  /\ (forall (student_id : uuid) (fee : Fee.t),
         get_user_school_code db (Some student_id) = Some (School.school_code s) ->
         student_id <> School.admin_id s ->
         Fee.school_code fee = School.school_code s ->
         allow_insert fees_table db (Some student_id) fee = false).
Proof.
  intros Hu Hin.
  assert (Hadmin : is_school_admin db (Some (School.admin_id s)) (Some (School.school_code s)) = true)
    by now apply (is_school_admin_of db _ s Hu Hin).
  split; [|split].
  - intros R HR.
    rewrite resource_select, resource_insert, resource_delete. unfold member_or_admin.
    rewrite HR, Hadmin, orb_true_r. repeat split.
    intros R' HR'. now rewrite resource_update, HR, HR', Hadmin.
  - intros uid R Hne HR.
    rewrite resource_insert, resource_delete, HR.
    rewrite (is_school_admin_not db uid s Hu Hin Hne). repeat split.
    intros R'. now rewrite resource_update, HR, (is_school_admin_not db uid s Hu Hin Hne).
  - intros u fee _ Hne Hfee. rewrite fees_insert, Hfee.
    apply (is_school_admin_not db (Some u) s Hu Hin). congruence.
Qed.

(** Springfield's administrator, and Sam, a student who joined it. *)
Lemma admin_supremacy_witness :
  allow_delete (table_of res_fees) Demo.db (Some 1) Demo.tuition = true
  /\ allow_insert fees_table Demo.db (Some 2) Demo.tuition = false.
Proof.
  pose proof (admin_supremacy res_fees Demo.db Demo.springfield demo_unique_codes
                (or_introl eq_refl)) as (Hadmin & _ & Hstudent).
  split.
  - apply (Hadmin Demo.tuition). reflexivity.
  - apply (Hstudent 2 Demo.tuition); [reflexivity | discriminate | reflexivity].
Defined.

(** C3, as the code has it.  Every caller, signed in or not, may select any
    row of [schools]; an insert is allowed exactly when the caller holds the
    role admin and the new row's [admin_id] is the caller; an update is
    allowed exactly when the [admin_id] of the existing row and that of the
    row as updated are both the caller (the policy has no WITH CHECK clause,
    so its USING clause is also applied to the new row); nobody may delete a
    row, and nobody may insert a row that names another identity as its
    administrator. *)
Theorem schools_policy (db : Database) (uid : option uuid) :
  (forall row, allow_select schools_table db uid row = true)
  /\ (forall row, allow_insert schools_table db uid row = true
                  <-> has_role db uid admin = true /\ uid = Some (School.admin_id row))
  /\ (forall old new, allow_update schools_table db uid old new = true
                      <-> uid = Some (School.admin_id old) /\ uid = Some (School.admin_id new))
  /\ (forall row, allow_delete schools_table db uid row = false)
  /\ (forall row, uid <> Some (School.admin_id row) ->
                  allow_insert schools_table db uid row = false).
Proof.
  assert (Hid : forall u, Sql.holds (Sql.eq_uuid (Some u) uid) = true <-> uid = Some u).
  { intros u. rewrite eq_uuid_sym. apply holds_uid_is. }
  repeat split.
  - rewrite schools_insert in H. now apply andb_true_iff in H.
  - rewrite schools_insert in H. apply andb_true_iff in H. now apply Hid.
  - intros [Hr Hu]. rewrite schools_insert. apply andb_true_iff. split; [exact Hr | now apply Hid].
  - rewrite schools_update in H. apply andb_true_iff in H. now apply Hid.
  - rewrite schools_update in H. apply andb_true_iff in H. now apply Hid.
  - intros [Ho Hn]. rewrite schools_update. apply andb_true_iff. split; now apply Hid.
  - intros row Hne. rewrite schools_insert.
    destruct (Sql.holds (Sql.eq_uuid (Some (School.admin_id row)) uid)) eqn:E.
    + exfalso. apply Hne. now apply Hid.
    + apply andb_false_r.
Qed.

(** C3 as stated fails: Springfield's owner, identity 1, is refused the
    update that hands the row to identity 3, although the existing row's
    [admin_id] is the caller. *)
Lemma schools_update_not_decided_by_existing_row :
  Some 1 = Some (School.admin_id Demo.springfield)
  /\ allow_update schools_table Demo.db (Some 1) Demo.springfield
       (School.mk 10 "Springfield High" "SPRING24" 3 100%Z 100%Z) = false.
Proof. split; reflexivity. Qed.

(** C4. Self-profile restriction.  A SELECT or INSERT on a profile row is
    allowed exactly when the row's [user_id] is the caller; an UPDATE exactly
    when that holds of the row before and of the row after; so for distinct
    identities U1 and U2, U1 can neither read nor insert nor update U2's row,
    nor turn a row into U2's. *)
Theorem self_profile_restriction (db : Database) (uid : option uuid) :
  (forall row, allow_select profiles_table db uid row = true
               <-> uid = Some (Profile.user_id row))
  /\ (forall row, allow_insert profiles_table db uid row = true
                  <-> uid = Some (Profile.user_id row))
  /\ (forall old new, allow_update profiles_table db uid old new = true
                      <-> uid = Some (Profile.user_id old) /\ uid = Some (Profile.user_id new))
  /\ (forall (U1 U2 : uuid) (row : Profile.t),
         uid = Some U1 -> U1 <> U2 -> Profile.user_id row = U2 ->
         allow_select profiles_table db uid row = false
         /\ allow_insert profiles_table db uid row = false
         /\ (forall new, allow_update profiles_table db uid row new = false)
         /\ (forall old, allow_update profiles_table db uid old row = false)).
Proof.
  split; [|split; [|split]].
  - intros row. rewrite profiles_select. apply holds_uid_is.
  - intros row. rewrite profiles_insert. apply holds_uid_is.
  - intros old new. rewrite profiles_update, andb_true_iff, !holds_uid_is. tauto.
  - intros U1 U2 row -> Hne Hrow.
    assert (Hno : Sql.holds (Sql.eq_uuid (Some U1) (Some (Profile.user_id row))) = false).
    { destruct (Sql.holds _) eqn:E; [|reflexivity].
      apply holds_uid_is in E. exfalso. apply Hne. congruence. }
    rewrite profiles_select, profiles_insert, Hno. repeat split.
    + intros new. now rewrite profiles_update, Hno.
    + intros old. rewrite profiles_update, Hno. apply andb_false_r.
Qed.

(** Sam reads and rewrites Sam's own profile; Ada's is out of reach. *)
Lemma self_profile_restriction_witness :
  allow_select profiles_table Demo.db (Some 2) (Profile.mk 20 1 "Ada" (Some "SPRING24") 90%Z 105%Z)
  = false.
Proof.
  apply (proj2 (proj2 (proj2 (self_profile_restriction Demo.db (Some 2)))) 2 1
               (Profile.mk 20 1 "Ada" (Some "SPRING24") 90%Z 105%Z));
    [reflexivity | discriminate | reflexivity].
Defined.

(** ** Requests: what they leave alone *)

Lemma set_schools_same db : set_schools (schools db) db = db.
Proof. now destruct db. Qed.

Lemma set_profiles_same db : set_profiles (profiles db) db = db.
Proof. now destruct db. Qed.

Lemma set_user_roles_same db : set_user_roles (user_roles db) db = db.
Proof. now destruct db. Qed.

Lemma Forall2_length_eq {A B : Type} (P : A -> B -> Prop) l l' :
  Forall2 P l l' -> List.length l = List.length l'.
Proof. induction 1; simpl; congruence. Qed.

Lemma Forall2_In_l {A B : Type} (P : A -> B -> Prop) l l' x :
  Forall2 P l l' -> In x l -> exists y, In y l' /\ P x y.
Proof.
  induction 1 as [|a b l l' Hab HF IH]; simpl; [contradiction|].
  intros [->|Hin].
  - exists b. auto.
  - destruct (IH Hin) as (y & Hy & HP). exists y. auto.
Qed.

(** A table without a DELETE policy: a DELETE removes nothing. *)
Lemma delete_without_policy {Row : Type} (R : Pg.relation Row) db uid cond rows :
  (forall r, using_passes (Pg.rel_table R) db uid DELETE r = false) ->
  Pg.delete_rows R db uid cond rows = rows.
Proof.
  intros H. apply delete_rows_no_target. intros r _.
  unfold Pg.targeted. rewrite H. apply andb_false_r.
Qed.

(** A table without an UPDATE policy: an UPDATE changes nothing. *)
Lemma update_without_policy {Row : Type} (R : Pg.relation Row) db uid now cond assign rows :
  (forall r, using_passes (Pg.rel_table R) db uid UPDATE r = false) ->
  Pg.update_rows R db uid now cond assign [] rows = inr rows.
Proof.
  intros H. apply (update_rows_no_target R db uid now cond assign rows []). intros r _.
  unfold Pg.targeted. rewrite H. apply andb_false_r.
Qed.

(** INSERT and UPDATE never shorten a table. *)
Lemma exec_statement_grows {Row : Type} (R : Pg.relation Row) db uid now s rows out :
  match s with Delete _ => False | _ => True end ->
  exec_statement R db uid now s rows = inr out ->
  List.length rows <= List.length out.
Proof.
  intros Hs H. destruct s as [new|cond assign|cond]; simpl in H; [| |contradiction].
  - apply insert_row_spec in H. destruct H as (-> & _). rewrite length_app. lia.
  - apply update_rows_rewritten in H. apply Forall2_length_eq in H. lia.
Qed.

(** What a request on [user_roles] can do: add the caller's own row at the
    end, and nothing else. *)
Lemma exec_statement_user_roles db uid now s out :
  exec_statement user_roles_rel db uid now s (user_roles db) = inr out ->
  out = user_roles db
  \/ exists new, s = Insert new /\ out = user_roles db ++ [new]
                 /\ uid = Some (UserRole.user_id new)
                 /\ Pg.find_conflict user_roles_rel new (user_roles db) = None.
Proof.
  destruct s as [new|cond assign|cond]; simpl; intros H.
  - right. exists new. apply insert_row_spec in H. destruct H as (-> & Hc & Hf).
    repeat split; auto.
    change (allow_insert user_roles_table db uid new = true) in Hc.
    rewrite user_roles_insert in Hc. now apply holds_uid_is.
  - left. rewrite update_without_policy in H by reflexivity. congruence.
  - left. rewrite delete_without_policy in H by reflexivity. congruence.
Qed.

(** C9. No deletion of identity or tenant records.  For every caller the
    DELETE decision on a row of [schools], [profiles] or [user_roles] is a
    refusal (row-level security is enabled on the three tables and none has a
    DELETE policy); a DELETE request on them leaves the database as it was;
    and no request of the client API, whatever it is, makes any of the three
    tables shorter. *)
Theorem no_deletion_of_identity_or_tenant_records
    (db : Database) (uid : option uuid) (now : timestamptz) :
  (tbl_rls_enabled schools_table = true /\ forall row, allow_delete schools_table db uid row = false)
  /\ (tbl_rls_enabled profiles_table = true /\ forall row, allow_delete profiles_table db uid row = false)
  /\ (tbl_rls_enabled user_roles_table = true /\ forall row, allow_delete user_roles_table db uid row = false)
  /\ (forall cond, exec_request db uid now (on_schools (Delete cond)) = inr db)
  /\ (forall cond, exec_request db uid now (on_profiles (Delete cond)) = inr db)
  /\ (forall cond, exec_request db uid now (on_user_roles (Delete cond)) = inr db)
  /\ (forall r db', exec_request db uid now r = inr db' ->
        List.length (schools db) <= List.length (schools db')
        /\ List.length (profiles db) <= List.length (profiles db')
        /\ List.length (user_roles db) <= List.length (user_roles db')).
Proof.
  repeat split; try reflexivity.
  - intros cond. simpl. rewrite delete_without_policy by reflexivity. simpl.
    now rewrite set_schools_same.
  - intros cond. simpl. rewrite delete_without_policy by reflexivity. simpl.
    now rewrite set_profiles_same.
  - intros cond. simpl. rewrite delete_without_policy by reflexivity. simpl.
    now rewrite set_user_roles_same.
  - destruct r as [s|s|s|s|s|s]; simpl in H;
      match type of H with
      | Pg.store _ _ ?e = _ => destruct e as [err|out] eqn:E; simpl in H; [discriminate|]
      end; injection H as <-; simpl; try lia.
    destruct s as [new|cond assign|cond].
    + now apply exec_statement_grows in E.
    + now apply exec_statement_grows in E.
    + simpl in E. rewrite delete_without_policy in E by reflexivity.
      injection E as <-. lia.
  - destruct r as [s|s|s|s|s|s]; simpl in H;
      match type of H with
      | Pg.store _ _ ?e = _ => destruct e as [err|out] eqn:E; simpl in H; [discriminate|]
      end; injection H as <-; simpl; try lia.
    destruct s as [new|cond assign|cond].
    + now apply exec_statement_grows in E.
    + now apply exec_statement_grows in E.
    + simpl in E. rewrite delete_without_policy in E by reflexivity.
      injection E as <-. lia.
  - destruct r as [s|s|s|s|s|s]; simpl in H;
      match type of H with
      | Pg.store _ _ ?e = _ => destruct e as [err|out] eqn:E; simpl in H; [discriminate|]
      end; injection H as <-; simpl; try lia.
    apply exec_statement_user_roles in E.
    destruct E as [->|(new & _ & -> & _)]; [lia | rewrite length_app; lia].
Qed.

(** C10. No cross-tenant re-homing via update.  On the three tenant-scoped
    tables the UPDATE policy has a USING clause and no WITH CHECK, so the
    administrator test is applied to the row as updated too: an update is
    allowed only if the caller administers the code of the old row and the
    code of the new row; an accepted UPDATE statement leaves every row either
    as it was or with a code the caller administers; a statement that would
    move a row it targets to a code the caller does not administer is
    rejected as a whole; and with unique codes, no caller can update a row
    into a school whose [admin_id] is someone else. *)
Theorem no_cross_tenant_rehoming (k : resource) (db : Database) (uid : option uuid) :
  (forall old new : row_of k,
      allow_update (table_of k) db uid old new = true ->
      is_school_admin db uid (Some (school_code_of k old)) = true
      /\ is_school_admin db uid (Some (school_code_of k new)) = true)
  /\ (forall now cond assign out,
         Pg.update_rows (rel_of k) db uid now cond assign [] (rows_of k db) = inr out ->
         Forall2 (fun r r' => r' = r
                              \/ is_school_admin db uid (Some (school_code_of k r')) = true)
                 (rows_of k db) out)
  /\ (forall now cond assign (r : row_of k),
         In r (rows_of k db) ->
         Pg.targeted (rel_of k) db uid UPDATE cond r = true ->
         is_school_admin db uid
           (Some (school_code_of k (Pg.run_triggers (rel_of k) now (assign r)))) = false ->
         exists e, Pg.update_rows (rel_of k) db uid now cond assign [] (rows_of k db) = inl e)
  /\ (forall (s : School.t) (old new : row_of k),
         unique_school_codes db -> In s (schools db) ->
         uid <> Some (School.admin_id s) ->
         school_code_of k new = School.school_code s ->
         allow_update (table_of k) db uid old new = false).
Proof.
  split; [|split; [|split]].
  - intros old new H. rewrite resource_update in H. now apply andb_true_iff in H.
  - intros now cond assign out H. apply update_rows_rewritten in H.
    eapply Forall2_impl; [|exact H].
    intros r r' [[_ ->]|(_ & _ & Hc)]; [now left|right].
    now rewrite rel_table_of, resource_update_check in Hc.
  - intros now cond assign r Hin Ht Hno.
    destruct (Pg.update_rows _ db uid now cond assign [] (rows_of k db)) as [e|out] eqn:E;
      [now exists e|].
    exfalso. apply update_rows_rewritten in E.
    destruct (Forall2_In_l _ _ _ r E Hin) as (r' & _ & [[Hf _]|(_ & -> & Hc)]).
    + congruence.
    + rewrite rel_table_of, resource_update_check in Hc. congruence.
  - intros s old new Hu Hin Hne Hc.
    rewrite resource_update, Hc, (is_school_admin_not db uid s Hu Hin Hne).
    apply andb_false_r.
Qed.

(** Springfield's administrator tries to file the exam notice under Oak Hill. *)
Lemma no_cross_tenant_rehoming_witness :
  allow_update (table_of res_notices) Demo.db (Some 1) Demo.exam
    (Notice.mk 40 "OAKHILL1" "Exam" "Maths on Monday" (Some "high") 200%Z 200%Z) = false.
Proof.
  apply (proj2 (proj2 (proj2 (no_cross_tenant_rehoming res_notices Demo.db (Some 1))))
           Demo.oakhill Demo.exam).
  - exact demo_unique_codes.
  - right. left. reflexivity.
  - discriminate.
  - reflexivity.
Defined.

(** An accepted request rewrites one table, by its statement, and leaves the
    other five as they were. *)
Lemma exec_request_inv db uid now r db' :
  exec_request db uid now r = inr db' ->
  match r with
  | on_schools s =>
      exec_statement schools_rel db uid now s (schools db) = inr (schools db')
      /\ profiles db' = profiles db /\ user_roles db' = user_roles db
      /\ scholarships db' = scholarships db /\ fees db' = fees db /\ notices db' = notices db
  | on_profiles s =>
      exec_statement profiles_rel db uid now s (profiles db) = inr (profiles db')
      /\ schools db' = schools db /\ user_roles db' = user_roles db
      /\ scholarships db' = scholarships db /\ fees db' = fees db /\ notices db' = notices db
  | on_user_roles s =>
      exec_statement user_roles_rel db uid now s (user_roles db) = inr (user_roles db')
      /\ schools db' = schools db /\ profiles db' = profiles db
      /\ scholarships db' = scholarships db /\ fees db' = fees db /\ notices db' = notices db
  | on_scholarships s =>
      exec_statement scholarships_rel db uid now s (scholarships db) = inr (scholarships db')
      /\ schools db' = schools db /\ profiles db' = profiles db /\ user_roles db' = user_roles db
      /\ fees db' = fees db /\ notices db' = notices db
  | on_fees s =>
      exec_statement fees_rel db uid now s (fees db) = inr (fees db')
      /\ schools db' = schools db /\ profiles db' = profiles db /\ user_roles db' = user_roles db
      /\ scholarships db' = scholarships db /\ notices db' = notices db
  | on_notices s =>
      exec_statement notices_rel db uid now s (notices db) = inr (notices db')
      /\ schools db' = schools db /\ profiles db' = profiles db /\ user_roles db' = user_roles db
      /\ scholarships db' = scholarships db /\ fees db' = fees db
  end.
Proof.
  destruct r as [s|s|s|s|s|s]; simpl; intros H;
    match type of H with
    | Pg.store _ _ ?e = _ => destruct e as [err|out]; simpl in H; [discriminate|]
    end; injection H as <-; simpl; repeat split.
Qed.

(** The client goes on with the database as it was when a request fails. *)
Lemma after_request_cases db uid now r :
  after_request db uid now r = db
  \/ exec_request db uid now r = inr (after_request db uid now r).
Proof.
  unfold after_request. destruct (exec_request db uid now r); auto.
Qed.

(** ** Tenant membership *)

Lemma get_user_school_code_lookup db uid :
  get_user_school_code db uid = tenant_lookup (profiles db) uid.
Proof. reflexivity. Qed.

Lemma membership_kept_refl rows : membership_kept rows rows.
Proof. intros uid H. exact H. Qed.

Lemma membership_kept_trans a b c :
  membership_kept a b -> membership_kept b c -> membership_kept a c.
Proof. intros H1 H2 uid H. apply H2, H1, H. Qed.

Lemma membership_kept_app rows extra : membership_kept rows (rows ++ extra).
Proof.
  intros uid. unfold tenant_lookup. rewrite filter_app.
  destruct (filter _ rows) as [|p l]; simpl; [congruence | auto].
Qed.

Lemma membership_kept_pointwise rows rows' :
  Forall2 keeps_code rows rows' -> membership_kept rows rows'.
Proof.
  intros HF uid. unfold tenant_lookup.
  induction HF as [|p p' l l' [Hu Hc] HF IH]; simpl; [auto|].
  rewrite Hu. destruct (Sql.holds _); simpl; auto.
Qed.

Lemma run_triggers_profiles now p :
  Pg.run_triggers profiles_rel now p = with_updated_at now p.
Proof. reflexivity. Qed.

Lemma profiles_statement_keeps_membership db uid now s out :
  assignment_keeps_code s ->
  exec_statement profiles_rel db uid now s (profiles db) = inr out ->
  membership_kept (profiles db) out.
Proof.
  intros Hs H. destruct s as [new|cond assign|cond]; simpl in H.
  - apply insert_row_spec in H. destruct H as (-> & _). apply membership_kept_app.
  - apply update_rows_rewritten in H. apply membership_kept_pointwise.
    eapply Forall2_impl; [|exact H].
    intros p p' [[_ ->]|(_ & -> & _)].
    + split; auto.
    + rewrite run_triggers_profiles. destruct (Hs p) as [Hu Hc]. split; simpl; auto.
  - rewrite delete_without_policy in H by reflexivity. injection H as <-.
    apply membership_kept_refl.
Qed.

Lemma set_profile_school_code_keeps code p :
  keeps_code p (UseSchool.set_profile_school_code code p).
Proof. split; simpl; [reflexivity | discriminate]. Qed.

(** ** Roles *)

(** The rows of [user_roles] stay, in place and unchanged, under every
    request of the client API. *)
Lemma exec_request_user_roles_prefix db uid now r db' :
  exec_request db uid now r = inr db' ->
  user_roles db' = user_roles db
  \/ exists new, r = on_user_roles (Insert new)
                 /\ user_roles db' = user_roles db ++ [new]
                 /\ uid = Some (UserRole.user_id new).
Proof.
  intros H. apply exec_request_inv in H.
  destruct r as [s|s|s|s|s|s]; try (left; tauto).
  destruct H as (H & _). apply exec_statement_user_roles in H.
  destruct H as [H|(new & -> & H & Hu & _)]; [now left|right; eauto].
Qed.

Lemma after_request_user_roles_prefix db uid now r :
  user_roles (after_request db uid now r) = user_roles db
  \/ exists new, r = on_user_roles (Insert new)
                 /\ user_roles (after_request db uid now r) = user_roles db ++ [new]
                 /\ uid = Some (UserRole.user_id new).
Proof.
  destruct (after_request_cases db uid now r) as [->|H]; [now left|].
  exact (exec_request_user_roles_prefix db uid now r _ H).
Qed.

Arguments exec_request : simpl never.

(** A property of the database at a time that later times keep and that
    every accepted request of the application re-establishes at the
    request's time holds after the action. *)
Lemma run_preserves (P : timestamptz -> Database -> Prop) (t1 t2 : timestamptz) (a : action) :
  (forall c c' db, (c <= c')%Z -> P c db -> P c' db) ->
  (forall c db uid now r db',
      P c db -> (c < now)%Z -> app_request t1 t2 a uid now r ->
      exec_request db uid now r = inr db' -> P now db') ->
  forall c db, (c < t1)%Z -> (t1 < t2)%Z -> P c db -> P t2 (run a t1 t2 db).
Proof.
  intros Hmono Hreq c db Hc Ht HP.
  assert (H0 : P t2 db) by (apply (Hmono c); [lia | exact HP]).
  assert (H1 : forall uid r db',
             app_request t1 t2 a uid t1 r -> exec_request db uid t1 r = inr db' -> P t1 db')
    by (intros uid r db' Ha He; exact (Hreq c db uid t1 r db' HP Hc Ha He)).
  assert (Hup : forall d, P t1 d -> P t2 d) by (intros d; apply Hmono; lia).
  destruct a; cbn [run].
  - (* signUp *)
    unfold UseAuth.signUp, after_request.
    destruct (exec_request db (Some user) t1 _) as [e1|db1] eqn:E1.
    + destruct (exec_request db (Some user) t2 _) as [e2|db2] eqn:E2; [cbn [snd or_unchanged]; exact H0|].
      assert (HP1 : P t1 db) by (apply (Hmono c); [lia | exact HP]).
      eapply Hreq; [exact HP1 | exact Ht | | exact E2]. constructor.
    + assert (HP1 : P t1 db1) by (eapply H1; [|exact E1]; constructor).
      destruct (exec_request db1 (Some user) t2 _) as [e2|db2] eqn:E2; [cbn [snd or_unchanged]; now apply Hup|].
      eapply Hreq; [exact HP1 | exact Ht | | exact E2]. constructor.
  - (* createSchool *)
    unfold CreateSchool.handleSubmit.
    destruct (_ <? 3)%nat; [cbn [snd or_unchanged]; exact H0|].
    destruct (_ <? 4)%nat; [cbn [snd or_unchanged]; exact H0|].
    unfold UseSchool.createSchool. destruct user as [user|]; [|cbn [snd or_unchanged]; exact H0].
    destruct (exec_request db (Some user) t1 _) as [e1|db1] eqn:E1; [cbn [snd or_unchanged]; exact H0|].
    cbn [snd or_unchanged]. assert (HP1 : P t1 db1) by (eapply H1; [|exact E1]; constructor).
    unfold after_request.
    destruct (exec_request db1 (Some user) t2 _) as [e2|db2] eqn:E2; [cbn [snd or_unchanged]; now apply Hup|].
    eapply Hreq; [exact HP1 | exact Ht | | exact E2]. constructor.
  - (* joinSchool *)
    unfold JoinSchool.handleSubmit.
    destruct (_ <? 4)%nat; [cbn [snd or_unchanged]; exact H0|]. cbn [snd].
    unfold UseAuth.joinSchool. destruct user as [user|]; [|cbn [snd or_unchanged]; exact H0].
    destruct (Pg.select_rows _ _ _ _ _); [cbn [snd or_unchanged]; exact H0|].
    destruct (exec_request db (Some user) t1 _) as [e1|db1] eqn:E1; [cbn [snd or_unchanged]; exact H0|].
    cbn [snd or_unchanged]. apply Hup. eapply H1; [|exact E1]; constructor.
  - (* saveScholarship *)
    unfold AdminScholarships.handleSubmit. destruct school as [code|]; [|cbn [snd or_unchanged]; exact H0].
    destruct (String.eqb code EmptyString); [cbn [snd or_unchanged]; exact H0|].
    destruct form as [[[[title description] amount] deadline] eligibility].
    destruct editingId as [id|];
      (destruct (exec_request db user t1 _) as [e1|db1] eqn:E1; [cbn [snd or_unchanged]; exact H0|]);
      cbn [snd or_unchanged]; apply Hup; (eapply H1; [|exact E1]; constructor).
  - unfold AdminScholarships.handleDelete.
    destruct (exec_request db user t1 _) as [e1|db1] eqn:E1; [cbn [snd or_unchanged]; exact H0|].
    cbn [snd or_unchanged]. apply Hup. eapply H1; [|exact E1]; constructor.
  - (* saveFee *)
    unfold AdminFees.handleSubmit. destruct school as [code|]; [|cbn [snd or_unchanged]; exact H0].
    destruct (String.eqb code EmptyString); [cbn [snd or_unchanged]; exact H0|].
    destruct form as [[[[title description] amount] due_date] category].
    destruct (amount <=? 0)%Z; [cbn [snd or_unchanged]; exact H0|].
    destruct editingId as [id|];
      (destruct (exec_request db user t1 _) as [e1|db1] eqn:E1; [cbn [snd or_unchanged]; exact H0|]);
      cbn [snd or_unchanged]; apply Hup; (eapply H1; [|exact E1]; constructor).
  - unfold AdminFees.handleDelete.
    destruct (exec_request db user t1 _) as [e1|db1] eqn:E1; [cbn [snd or_unchanged]; exact H0|].
    cbn [snd or_unchanged]. apply Hup. eapply H1; [|exact E1]; constructor.
  - (* saveNotice *)
    unfold AdminNotices.handleSubmit. destruct school as [code|]; [|cbn [snd or_unchanged]; exact H0].
    destruct (String.eqb code EmptyString); [cbn [snd or_unchanged]; exact H0|].
    destruct form as [[title content] priority].
    destruct editingId as [id|];
      (destruct (exec_request db user t1 _) as [e1|db1] eqn:E1; [cbn [snd or_unchanged]; exact H0|]);
      cbn [snd or_unchanged]; apply Hup; (eapply H1; [|exact E1]; constructor).
  - unfold AdminNotices.handleDelete.
    destruct (exec_request db user t1 _) as [e1|db1] eqn:E1; [cbn [snd or_unchanged]; exact H0|].
    cbn [snd or_unchanged]. apply Hup. eapply H1; [|exact E1]; constructor.
Qed.

(** ** Membership along the application's actions *)

Lemma app_request_keeps_membership t1 t2 a uid now r db db' :
  app_request t1 t2 a uid now r ->
  exec_request db uid now r = inr db' ->
  membership_kept (profiles db) (profiles db').
Proof.
  intros Ha He. apply exec_request_inv in He.
  inversion Ha; subst; cbn beta iota in He;
    try (destruct He as (_ & _ & -> & _); apply membership_kept_refl);
    try (destruct He as (_ & -> & _); apply membership_kept_refl);
    destruct He as (He & _);
    (eapply profiles_statement_keeps_membership; [|exact He]); simpl; auto;
    intros p; apply set_profile_school_code_keeps.
Qed.

Lemma run_keeps_membership a t1 t2 c db :
  (c < t1)%Z -> (t1 < t2)%Z ->
  membership_kept (profiles db) (profiles (run a t1 t2 db)).
Proof.
  intros Hc Ht.
  apply (run_preserves (fun _ d => membership_kept (profiles db) (profiles d)) t1 t2 a)
    with (c := c); auto.
  - intros c0 d uid now r d' HP _ Ha He.
    eapply membership_kept_trans; [exact HP|].
    eapply app_request_keeps_membership; eauto.
  - apply membership_kept_refl.
Qed.

Lemma steps_keep_membership w w' :
  steps w w' -> membership_kept (profiles (w_db w)) (profiles (w_db w')).
Proof.
  induction 1 as [w|w1 w2 w3 _ IH Hstep].
  - apply membership_kept_refl.
  - eapply membership_kept_trans; [exact IH|].
    destruct Hstep as [w a t1 t2 _ Hc Ht]. simpl.
    now apply (run_keeps_membership a t1 t2 (w_clock w)).
Qed.

(** ** Roles along the application's actions *)

(** A role row, once there, makes [has_role] true for good. *)
Lemma has_role_extended db db' extra uid role :
  user_roles db' = user_roles db ++ extra ->
  has_role db uid role = true -> has_role db' uid role = true.
Proof.
  unfold has_role. intros -> H. rewrite existsb_app, H. reflexivity.
Qed.

Lemma run_extends_roles a t1 t2 c db :
  (c < t1)%Z -> (t1 < t2)%Z ->
  roles_extended a (user_roles db) (user_roles (run a t1 t2 db)).
Proof.
  intros Hc Ht.
  apply (run_preserves (fun _ d => roles_extended a (user_roles db) (user_roles d)) t1 t2 a)
    with (c := c); auto.
  - intros c0 d uid now r d' (extra & Hd & HF) _ Ha He.
    apply exec_request_user_roles_prefix in He.
    destruct He as [->|(new & -> & -> & ->)].
    + exists extra. auto.
    + exists (extra ++ [new]). split.
      * now rewrite Hd, app_assoc.
      * apply Forall_app. split; [exact HF|]. constructor; [|constructor].
        inversion Ha; subst. reflexivity.
  - exists []. split; [now rewrite app_nil_r | constructor].
Qed.

Lemma fetchRole_lookup db user : fetchRole db user = role_lookup (user_roles db) user.
Proof.
  unfold fetchRole, role_lookup, Pg.select_rows. do 2 f_equal.
  apply filter_ext. intros r.
  change (using_passes (Pg.rel_table user_roles_rel) db (Some user) SELECT r)
    with (allow_select user_roles_table db (Some user) r).
  rewrite user_roles_select.
  destruct (Nat.eqb_spec (UserRole.user_id r) user) as [->|Hne].
  - rewrite andb_true_r. apply holds_uid_is. reflexivity.
  - apply andb_false_r.
Qed.

Lemma role_lookup_some_in rows user role :
  role_lookup rows user = Some role ->
  exists r, In r rows /\ UserRole.user_id r = user.
Proof.
  unfold role_lookup. intros H.
  destruct (filter _ rows) as [|r l] eqn:E; [discriminate|].
  assert (Hin : In r (filter (fun r => Nat.eqb (UserRole.user_id r) user) rows))
    by (rewrite E; now left).
  apply filter_In in Hin. destruct Hin as [Hin Hu]. apply Nat.eqb_eq in Hu. eauto.
Qed.

Lemma role_lookup_app_other rows extra user :
  Forall (fun r => UserRole.user_id r <> user) extra ->
  role_lookup (rows ++ extra) user = role_lookup rows user.
Proof.
  intros HF. unfold role_lookup. rewrite filter_app.
  replace (filter (fun r => Nat.eqb (UserRole.user_id r) user) extra) with (@nil UserRole.t).
  - now rewrite app_nil_r.
  - induction HF as [|r l Hr HF IH]; simpl; [reflexivity|].
    apply Nat.eqb_neq in Hr. now rewrite Hr.
Qed.

Lemma fresh_identity_no_role db user r :
  UseAuth.fresh_identity db user = true -> In r (user_roles db) -> UserRole.user_id r <> user.
Proof.
  unfold UseAuth.fresh_identity. intros H Hin. apply andb_true_iff in H. destruct H as [_ H].
  rewrite forallb_forall in H. specialize (H r Hin).
  apply negb_true_iff, Nat.eqb_neq in H. exact H.
Qed.

Lemma step_keeps_role w w' user role :
  step w w' -> fetchRole (w_db w) user = Some role -> fetchRole (w_db w') user = Some role.
Proof.
  intros Hstep. destruct Hstep as [w a t1 t2 Hen Hc Ht]. simpl.
  rewrite !fetchRole_lookup. intros H.
  destruct (run_extends_roles a t1 t2 (w_clock w) (w_db w) Hc Ht) as (extra & -> & HF).
  rewrite role_lookup_app_other; [exact H|].
  apply role_lookup_some_in in H. destruct H as (r0 & Hin0 & Hu0).
  eapply Forall_impl; [|exact HF]. intros r Hr Heq.
  destruct a; simpl in Hr; try discriminate. injection Hr as ->.
  simpl in Hen. apply (fresh_identity_no_role _ _ r0 Hen Hin0). congruence.
Qed.

Lemma steps_keep_role w w' user role :
  steps w w' -> fetchRole (w_db w) user = Some role -> fetchRole (w_db w') user = Some role.
Proof.
  induction 1 as [w|w1 w2 w3 _ IH Hstep]; [auto|].
  intros H. eapply step_keeps_role; eauto.
Qed.

Lemma steps_extend_roles w w' :
  steps w w' -> exists extra, user_roles (w_db w') = user_roles (w_db w) ++ extra.
Proof.
  induction 1 as [w|w1 w2 w3 _ (extra & IH) Hstep].
  - exists []. now rewrite app_nil_r.
  - destruct Hstep as [w a t1 t2 _ Hc Ht]. simpl.
    destruct (run_extends_roles a t1 t2 (w_clock w) (w_db w) Hc Ht) as (extra' & -> & _).
    exists (extra ++ extra'). now rewrite IH, app_assoc.
Qed.

(** *** What the policy of [profiles] guarantees by itself: a caller touches
    no profile but their own *)

Lemma holds_eq_uuid_other (a b : uuid) :
  a <> b -> Sql.holds (Sql.eq_uuid (Some a) (Some b)) = false.
Proof.
  intros Hne. destruct (Sql.holds _) eqn:E; [|reflexivity].
  apply SqlFacts.holds_eq_uuid in E. destruct E as (x & Ha & Hb). congruence.
Qed.

Lemma profiles_update_using db uid r :
  using_passes profiles_table db uid UPDATE r
  = Sql.holds (Sql.eq_uuid uid (Some (Profile.user_id r))).
Proof. unfold using_passes. simpl. now rewrite orb_false_r. Qed.

Lemma profiles_update_check db uid r :
  check_passes profiles_table db uid UPDATE r
  = Sql.holds (Sql.eq_uuid uid (Some (Profile.user_id r))).
Proof. unfold check_passes. simpl. now rewrite orb_false_r. Qed.

Lemma tenant_lookup_app_other rows new U :
  Profile.user_id new <> U ->
  tenant_lookup (rows ++ [new]) (Some U) = tenant_lookup rows (Some U).
Proof.
  intros Hne. unfold tenant_lookup. rewrite filter_app. simpl.
  now rewrite (holds_eq_uuid_other _ _ Hne), app_nil_r.
Qed.

Lemma tenant_lookup_untouched rows rows' U :
  Forall2 (fun r r' => r' = r \/ (Profile.user_id r <> U /\ Profile.user_id r' <> U))
          rows rows' ->
  tenant_lookup rows' (Some U) = tenant_lookup rows (Some U).
Proof.
  unfold tenant_lookup. induction 1 as [|r r' l l' Hr HF IH]; simpl; [reflexivity|].
  destruct Hr as [->|[H1 H2]].
  - destruct (Sql.holds _); [reflexivity | exact IH].
  - now rewrite (holds_eq_uuid_other _ _ H1), (holds_eq_uuid_other _ _ H2).
Qed.

Lemma others_cannot_change_membership db uid now r db' U :
  exec_request db uid now r = inr db' ->
  uid <> Some U ->
  get_user_school_code db' (Some U) = get_user_school_code db (Some U).
Proof.
  intros He Hne. rewrite !get_user_school_code_lookup. apply exec_request_inv in He.
  destruct r as [s|s|s|s|s|s];
    try (destruct He as (_ & _ & -> & _); reflexivity);
    try (destruct He as (_ & -> & _); reflexivity).
  destruct He as (He & _). destruct s as [new|cond assign|cond]; simpl in He.
  - apply insert_row_spec in He. destruct He as (-> & Hc & _).
    apply tenant_lookup_app_other.
    change (allow_insert profiles_table db uid new = true) in Hc.
    rewrite profiles_insert in Hc. apply holds_uid_is in Hc. congruence.
  - apply update_rows_rewritten in He. apply tenant_lookup_untouched.
    eapply Forall2_impl; [|exact He].
    intros p p' [[_ ->]|(Ht & Hp' & Hc)]; [now left|right].
    unfold Pg.targeted in Ht. apply andb_true_iff in Ht. destruct Ht as [_ Hu].
    change (using_passes profiles_table db uid UPDATE p = true) in Hu.
    change (check_passes profiles_table db uid UPDATE p' = true) in Hc.
    rewrite profiles_update_using in Hu. rewrite profiles_update_check in Hc.
    apply holds_uid_is in Hu. apply holds_uid_is in Hc. split; congruence.
  - rewrite delete_without_policy in He by reflexivity. now injection He as <-.
Qed.

Lemma request_keeps_membership db uid now r db' :
  exec_request db uid now r = inr db' ->
  match r with on_profiles s => assignment_keeps_code s | _ => True end ->
  membership_kept (profiles db) (profiles db').
Proof.
  intros He Hr. apply exec_request_inv in He.
  destruct r as [s|s|s|s|s|s];
    try (destruct He as (_ & _ & -> & _); apply membership_kept_refl);
    try (destruct He as (_ & -> & _); apply membership_kept_refl).
  destruct He as (He & _). now apply (profiles_statement_keeps_membership db uid now s).
Qed.

(** C5, as the code has it.  A request made under another identity never
    changes a user's tenant code; a request that does not itself assign an
    empty code or another [user_id] to a profile (every insert, every delete,
    every update such as [update({ school_code: code })]) leaves a code where
    there was one; hence along any sequence of the application's actions
    (sign-up, create school, join school, saving and deleting scholarships,
    fees and notices) a user who has a tenant code keeps having one; and no
    request at all takes a role away. *)
Theorem monotonic_tenant_membership :
  (forall db uid now r db' (U : uuid),
      exec_request db uid now r = inr db' ->
      uid <> Some U ->
      get_user_school_code db' (Some U) = get_user_school_code db (Some U))
  /\ (forall db uid now r db' (U : uuid) (code : text),
        exec_request db uid now r = inr db' ->
        match r with on_profiles s => assignment_keeps_code s | _ => True end ->
        get_user_school_code db (Some U) = Some code ->
        get_user_school_code db' (Some U) <> None)
  /\ (forall db uid now r db' who role,
        exec_request db uid now r = inr db' ->
        has_role db who role = true -> has_role db' who role = true)
  /\ (forall (w w' : world) (U : uuid) (code : text),
        steps w w' ->
        get_user_school_code (w_db w) (Some U) = Some code ->
        get_user_school_code (w_db w') (Some U) <> None
        /\ (forall role, has_role (w_db w) (Some U) role = true ->
                         has_role (w_db w') (Some U) role = true)).
Proof.
  split; [exact others_cannot_change_membership | split; [|split]].
  - intros db uid now r db' U code He Hr Hcode.
    rewrite get_user_school_code_lookup in *.
    apply (request_keeps_membership db uid now r db' He Hr). congruence.
  - intros db uid now r db' who role He.
    apply exec_request_user_roles_prefix in He.
    destruct He as [He|(new & _ & He & _)].
    + apply (has_role_extended db db' []). now rewrite app_nil_r.
    + now apply (has_role_extended db db' [new]).
  - intros w w' U code Hsteps Hcode. split.
    + rewrite get_user_school_code_lookup in *.
      apply (steps_keep_membership w w' Hsteps). congruence.
    + intros role. destruct (steps_extend_roles w w' Hsteps) as (extra & He).
      now apply (has_role_extended _ _ extra).
Qed.

(** Sam, a student of "SPRING24", submits the join form with "OAKHILL1". *)
Lemma monotonic_tenant_membership_witness :
  get_user_school_code
    (run (act_joinSchool (Some 2) "OAKHILL1") 301%Z 302%Z Demo.db) (Some 2) <> None
  /\ (forall role, has_role Demo.db (Some 2) role = true ->
        has_role (run (act_joinSchool (Some 2) "OAKHILL1") 301%Z 302%Z Demo.db) (Some 2) role
        = true).
Proof.
  apply (proj2 (proj2 (proj2 monotonic_tenant_membership))
           (mkWorld Demo.db 300%Z)
           (mkWorld (run (act_joinSchool (Some 2) "OAKHILL1") 301%Z 302%Z Demo.db) 302%Z)
           2 "SPRING24").
  - eapply steps_step; [apply steps_refl|].
    apply (step_action (mkWorld Demo.db 300%Z) (act_joinSchool (Some 2) "OAKHILL1") 301%Z 302%Z);
      [reflexivity | simpl; lia | lia].
  - reflexivity.
Defined.

(** C5 as stated fails: the UPDATE policy of [profiles] compares [user_id]
    only, so Sam's own request through the client API that clears the code
    is accepted, and Sam, who had the code "SPRING24", has none afterwards. *)
Lemma own_update_clears_school_code :
  get_user_school_code Demo.db (Some 2) = Some "SPRING24"
  /\ exists db',
       exec_request Demo.db (Some 2) 300%Z
         (on_profiles
            (Update (fun p => Nat.eqb (Profile.user_id p) 2)
                    (fun p => Profile.mk (Profile.id p) (Profile.user_id p) (Profile.full_name p)
                                         None (Profile.created_at p) (Profile.updated_at p))))
       = inr db'
       /\ get_user_school_code db' (Some 2) = None.
Proof. split; [reflexivity|]. eexists. split; reflexivity. Qed.

Lemma role_lookup_fresh base role_id user role :
  (forall r, In r base -> UserRole.user_id r <> user) ->
  role_lookup (base ++ [UserRole.mk role_id user role]) user = Some role.
Proof.
  intros H. unfold role_lookup. rewrite filter_app.
  replace (filter (fun r => Nat.eqb (UserRole.user_id r) user) base) with (@nil UserRole.t).
  - simpl. now rewrite Nat.eqb_refl.
  - induction base as [|r l IH]; simpl; [reflexivity|].
    assert (Hr : UserRole.user_id r <> user) by (apply H; now left).
    apply Nat.eqb_neq in Hr. rewrite Hr. apply IH. intros r' Hin. apply H. now right.
Qed.

Lemma signUp_role db user full_name role profile_id role_id t1 t2 :
  UseAuth.fresh_identity db user = true ->
  In (UserRole.mk role_id user role)
     (user_roles (UseAuth.signUp profile_id role_id t1 t2 user full_name role db)) ->
  fetchRole (UseAuth.signUp profile_id role_id t1 t2 user full_name role db) user = Some role.
Proof.
  intros Hfresh Hin. rewrite fetchRole_lookup. unfold UseAuth.signUp in *.
  set (db1 := after_request db (Some user) t1 _) in *.
  assert (H1 : user_roles db1 = user_roles db).
  { destruct (after_request_user_roles_prefix db (Some user) t1
                (on_profiles (Insert (Profile.mk profile_id user full_name None t1 t1))))
      as [H|(new & Habs & _)]; [exact H | discriminate]. }
  destruct (after_request_user_roles_prefix db1 (Some user) t2
              (on_user_roles (Insert (UserRole.mk role_id user role))))
    as [H2|(new & Hnew & H2 & _)].
  - exfalso. rewrite H2, H1 in Hin.
    now apply (fresh_identity_no_role db user _ Hfresh Hin).
  - injection Hnew as <-. rewrite H2, H1. apply role_lookup_fresh.
    intros r Hr. now apply (fresh_identity_no_role db user r Hfresh).
Qed.

Lemma others_cannot_change_role db uid now r db' (U : uuid) :
  exec_request db uid now r = inr db' ->
  uid <> Some U ->
  fetchRole db' U = fetchRole db U.
Proof.
  intros He Hne. rewrite !fetchRole_lookup.
  apply exec_request_user_roles_prefix in He.
  destruct He as [->|(new & _ & -> & Hu)]; [reflexivity|].
  apply role_lookup_app_other. constructor; [|constructor]. congruence.
Qed.

(** C6, as the code has it.  No request of the client API changes or removes
    a row of [user_roles] (accepted requests can only append, and only a row
    of the caller); a request made under another identity never changes the
    role [fetchRole] observes for a user; along the application's actions,
    which insert a role row at sign-up only, the role observed for a user
    stays the same; and for an identity that signs up, once its role row is
    stored, [fetchRole] returns the role chosen at sign-up then and in every
    later state the application reaches. *)
Theorem role_immutability :
  (forall db uid now r db',
      exec_request db uid now r = inr db' ->
      exists extra, user_roles db' = user_roles db ++ extra
                    /\ Forall (fun row => uid = Some (UserRole.user_id row)) extra)
  /\ (forall db uid now r db' (U : uuid),
        exec_request db uid now r = inr db' ->
        uid <> Some U ->
        fetchRole db' U = fetchRole db U)
  /\ (forall w w', steps w w' ->
        exists extra, user_roles (w_db w') = user_roles (w_db w) ++ extra)
  /\ (forall w w' user role,
        steps w w' ->
        fetchRole (w_db w) user = Some role -> fetchRole (w_db w') user = Some role)
  /\ (forall db user full_name role profile_id role_id t1 t2 w',
        enabled (act_signUp user full_name role profile_id role_id) db = true ->
        In (UserRole.mk role_id user role)
           (user_roles (run (act_signUp user full_name role profile_id role_id) t1 t2 db)) ->
        steps (mkWorld (run (act_signUp user full_name role profile_id role_id) t1 t2 db) t2) w' ->
        fetchRole (w_db w') user = Some role).
Proof.
  split; [|split; [|split; [|split]]].
  - intros db uid now r db' H. apply exec_request_user_roles_prefix in H.
    destruct H as [->|(new & _ & -> & Hu)].
    + exists []. split; [now rewrite app_nil_r | constructor].
    + exists [new]. split; [reflexivity | constructor; [exact Hu | constructor]].
  - exact others_cannot_change_role.
  - exact steps_extend_roles.
  - exact steps_keep_role.
  - intros db user full_name role profile_id role_id t1 t2 w' Hen Hin Hsteps.
    apply (steps_keep_role _ w' user role Hsteps). simpl in *.
    now apply signUp_role.
Qed.

(** Identity 9 signs up as a student; later Ada's school gets a notice. *)
Lemma role_immutability_witness :
  fetchRole
    (run (act_saveNotice (Some 1) (Some "SPRING24") ("Fair", "On Friday", "normal") None 42)
         403%Z 404%Z
         (run (act_signUp 9 "Noa" student 24 34) 401%Z 402%Z Demo.db))
    9
  = Some student.
Proof.
  apply (proj2 (proj2 (proj2 (proj2 role_immutability)))
           Demo.db 9 "Noa" student 24 34 401%Z 402%Z
           (mkWorld
              (run (act_saveNotice (Some 1) (Some "SPRING24") ("Fair", "On Friday", "normal") None 42)
                   403%Z 404%Z
                   (run (act_signUp 9 "Noa" student 24 34) 401%Z 402%Z Demo.db))
              404%Z)).
  - reflexivity.
  - vm_compute. right. right. right. right. left. reflexivity.
  - eapply steps_step; [apply steps_refl|].
    apply (step_action
             (mkWorld (run (act_signUp 9 "Noa" student 24 34) 401%Z 402%Z Demo.db) 402%Z)
             (act_saveNotice (Some 1) (Some "SPRING24") ("Fair", "On Friday", "normal") None 42)
             403%Z 404%Z); [reflexivity | simpl; lia | lia].
Defined.

(** C6 as stated fails: the INSERT policy of [user_roles] compares [user_id]
    only, and UNIQUE (user_id, role) admits one row per role, so Sam's own
    request through the client API that adds the role admin is accepted; no
    existing row was changed or removed, yet [fetchRole], which returned
    student, now finds two rows and returns no role (and [has_role] says
    admin). *)
Lemma second_role_row_changes_observed_role :
  fetchRole Demo.db 2 = Some student
  /\ exists db',
       exec_request Demo.db (Some 2) 300%Z (on_user_roles (Insert (UserRole.mk 34 2 admin)))
       = inr db'
       /\ (exists extra, user_roles db' = user_roles Demo.db ++ extra)
       /\ fetchRole db' 2 = None
       /\ has_role db' (Some 2) admin = true.
Proof.
  split; [reflexivity|]. eexists. split; [reflexivity|].
  split; [now exists [UserRole.mk 34 2 admin] | split; reflexivity].
Qed.

(** ** Timestamps *)

(** ** Timestamps *)

(** What the trigger does to a row of each table. *)
Lemma run_triggers_updated k now (r : mrow k) :
  updated k (Pg.run_triggers (mrel k) now r) = now.
Proof. now destruct k. Qed.

Lemma run_triggers_created k now (r : mrow k) :
  created k (Pg.run_triggers (mrel k) now r) = created k r.
Proof. now destruct k. Qed.

Lemma stamped_later k c c' r : (c <= c')%Z -> stamped k c r -> stamped k c' r.
Proof. unfold stamped. lia. Qed.

Lemma all_stamped_later c c' db : (c <= c')%Z -> all_stamped c db -> all_stamped c' db.
Proof.
  intros Hc H k. eapply Forall_impl; [|apply H]. intros r. now apply stamped_later.
Qed.

Lemma statement_keeps_stamped k db uid c now s rows out :
  (c < now)%Z ->
  well_stamped k now s ->
  Forall (stamped k c) rows ->
  exec_statement (mrel k) db uid now s rows = inr out ->
  Forall (stamped k now) out.
Proof.
  intros Hc Hs HF H.
  apply (exec_statement_Forall (mrel k) db uid now (stamped k now) s rows out).
  - eapply Forall_impl; [|exact HF]. intros r. apply stamped_later. lia.
  - destruct s as [new|cond assign|cond]; simpl in *; auto.
    + destruct Hs as [H1 H2]. unfold stamped. lia.
    + intros r [Hr1 Hr2]. unfold stamped.
      rewrite run_triggers_updated, run_triggers_created, Hs. lia.
  - exact H.
Qed.

Lemma request_keeps_stamped db uid c now r db' :
  (c < now)%Z ->
  request_well_stamped now r ->
  all_stamped c db ->
  exec_request db uid now r = inr db' ->
  all_stamped now db'.
Proof.
  intros Hc Hr Hinv He. apply exec_request_inv in He.
  assert (Hle : (c <= now)%Z) by lia.
  pose proof (all_stamped_later c now db Hle Hinv) as Hnow.
  intros k.
  destruct r as [s|s|s|s|s|s]; destruct He as (He & E1 & E2 & E3 & E4 & E5);
    destruct k; simpl mrows;
    try (rewrite ?E1, ?E2, ?E3, ?E4, ?E5;
         first [ exact (Hnow mt_schools) | exact (Hnow mt_profiles)
               | exact (Hnow mt_scholarships) | exact (Hnow mt_fees)
               | exact (Hnow mt_notices) ]).
  - exact (statement_keeps_stamped mt_schools db uid c now s _ _ Hc Hr (Hinv mt_schools) He).
  - exact (statement_keeps_stamped mt_profiles db uid c now s _ _ Hc Hr (Hinv mt_profiles) He).
  - exact (statement_keeps_stamped mt_scholarships db uid c now s _ _ Hc Hr
             (Hinv mt_scholarships) He).
  - exact (statement_keeps_stamped mt_fees db uid c now s _ _ Hc Hr (Hinv mt_fees) He).
  - exact (statement_keeps_stamped mt_notices db uid c now s _ _ Hc Hr (Hinv mt_notices) He).
Qed.

Lemma app_request_well_stamped t1 t2 a uid now r :
  app_request t1 t2 a uid now r -> request_well_stamped now r.
Proof. intros H. inversion H; subst; simpl; auto. Qed.

Lemma step_keeps_stamped w w' :
  step w w' -> all_stamped (w_clock w) (w_db w) -> all_stamped (w_clock w') (w_db w').
Proof.
  intros Hstep Hinv. destruct Hstep as [w a t1 t2 _ Hc Ht]. simpl.
  apply (run_preserves all_stamped t1 t2 a) with (c := w_clock w); auto.
  - intros c c' db. apply all_stamped_later.
  - intros c db uid now r db' HP Hlt Ha He.
    eapply request_keeps_stamped; eauto using app_request_well_stamped.
Qed.

Lemma reachable_stamped w : reachable w -> all_stamped (w_clock w) (w_db w).
Proof.
  unfold reachable. intros H.
  remember initial_world as w0 eqn:E.
  induction H as [w|w1 w2 w3 _ IH Hstep].
  - subst. intros k. destruct k; constructor.
  - eapply step_keeps_stamped; eauto.
Qed.

(** C8, as the code has it.  On each of the five tables, an accepted UPDATE
    gives every row it rewrites [updated_at = now()], whatever the statement
    assigns.  A request that leaves the timestamps to the database (an insert
    that takes the [now()] defaults, an update that does not assign
    [created_at]) keeps [created_at <= updated_at <= clock] on every row; so
    every state the application reaches from the empty database has
    [updated_at >= created_at] on every row, and in such a state an accepted
    UPDATE at a transaction time after the clock leaves each row it rewrites
    with an [updated_at] strictly greater than before. *)
Theorem timestamp_monotonicity (k : mutable_table) :
  (forall db uid now cond assign rows out,
      Pg.update_rows (mrel k) db uid now cond assign [] rows = inr out ->
      Forall2 (fun r r' =>
                 (Pg.targeted (mrel k) db uid UPDATE cond r = false /\ r' = r)
                 \/ (Pg.targeted (mrel k) db uid UPDATE cond r = true /\ updated k r' = now))
              rows out)
  /\ (forall db uid c now r db',
        (c < now)%Z -> request_well_stamped now r ->
        all_stamped c db ->
        exec_request db uid now r = inr db' ->
        all_stamped now db')
  /\ (forall w, reachable w ->
        forall r, In r (mrows k (w_db w)) ->
                  (created k r <= updated k r)%Z /\ (updated k r <= w_clock w)%Z)
  /\ (forall w, reachable w ->
        forall uid now cond assign out,
          (w_clock w < now)%Z ->
          Pg.update_rows (mrel k) (w_db w) uid now cond assign [] (mrows k (w_db w)) = inr out ->
          Forall2 (fun r r' =>
                     (Pg.targeted (mrel k) (w_db w) uid UPDATE cond r = false /\ r' = r)
                     \/ (Pg.targeted (mrel k) (w_db w) uid UPDATE cond r = true
                         /\ (updated k r < updated k r')%Z))
                  (mrows k (w_db w)) out).
Proof.
  assert (Hrefresh : forall db uid now cond assign rows out,
             Pg.update_rows (mrel k) db uid now cond assign [] rows = inr out ->
             Forall2 (fun r r' =>
                        (Pg.targeted (mrel k) db uid UPDATE cond r = false /\ r' = r)
                        \/ (Pg.targeted (mrel k) db uid UPDATE cond r = true
                            /\ updated k r' = now))
                     rows out).
  { intros db uid now cond assign rows out H. apply update_rows_rewritten in H.
    eapply Forall2_impl; [|exact H].
    intros r r' [[Hf ->]|(Ht & -> & _)]; [now left|right].
    split; [exact Ht | apply run_triggers_updated]. }
  assert (Hinv : forall w, reachable w ->
             forall r, In r (mrows k (w_db w)) ->
                       (created k r <= updated k r)%Z /\ (updated k r <= w_clock w)%Z).
  { intros w Hw r Hin. pose proof (reachable_stamped w Hw k) as HF.
    rewrite Forall_forall in HF. exact (HF r Hin). }
  split; [exact Hrefresh | split; [|split; [exact Hinv|]]].
  - intros db uid c now r db' Hc Hr Hs He.
    exact (request_keeps_stamped db uid c now r db' Hc Hr Hs He).
  - intros w Hw uid now cond assign out Hnow H.
    apply Hrefresh in H.
    assert (Hall : Forall (fun r => (updated k r <= w_clock w)%Z) (mrows k (w_db w))).
    { apply Forall_forall. intros r Hin. now apply (Hinv w Hw r Hin). }
    revert Hall. induction H as [|r r' l l' Hr HF IH]; intros Hall; [constructor|].
    inversion Hall as [|? ? Hle Hall']; subst.
    constructor; [|now apply IH].
    destruct Hr as [Hr|[Ht Hu]]; [now left|right]. split; [exact Ht | lia].
Qed.

(** The empty database, then identity 1 signs up as an admin. *)
Lemma timestamp_monotonicity_witness :
  Forall (fun r => (created mt_profiles r <= updated mt_profiles r)%Z
                   /\ (updated mt_profiles r <= 2)%Z)
         (mrows mt_profiles (run (act_signUp 1 "Ada" admin 20 30) 1%Z 2%Z empty_db)).
Proof.
  apply Forall_forall.
  apply (proj1 (proj2 (proj2 (timestamp_monotonicity mt_profiles)))
           (mkWorld (run (act_signUp 1 "Ada" admin 20 30) 1%Z 2%Z empty_db) 2%Z)).
  unfold reachable. eapply steps_step; [apply steps_refl|].
  apply (step_action initial_world (act_signUp 1 "Ada" admin 20 30) 1%Z 2%Z);
    [reflexivity | simpl; lia | lia].
Defined.

(** C8 as stated fails: nothing stops a client from supplying the timestamps
    itself.  From the empty database, identity 1 inserts its admin role and
    then a school whose row gives [created_at = 999] and [updated_at = 1000];
    both requests are accepted.  An ordinary update of the name at time 3 is
    accepted too, and the trigger sets [updated_at = 3]: it went down, and it
    is now below [created_at]. *)
Lemma supplied_timestamps_break_monotonicity :
  exists db1 db2 db3,
    exec_request empty_db (Some 1) 1%Z (on_user_roles (Insert (UserRole.mk 30 1 admin))) = inr db1
    /\ exec_request db1 (Some 1) 2%Z
         (on_schools (Insert (School.mk 10 "Springfield High" "SPRING24" 1 999%Z 1000%Z)))
       = inr db2
    /\ exec_request db2 (Some 1) 3%Z
         (on_schools
            (Update (fun r => Nat.eqb (School.id r) 10)
                    (fun r => School.mk (School.id r) "Springfield" (School.school_code r)
                                        (School.admin_id r) (School.created_at r)
                                        (School.updated_at r))))
       = inr db3
    /\ schools db2 = [School.mk 10 "Springfield High" "SPRING24" 1 999%Z 1000%Z]
    /\ schools db3 = [School.mk 10 "Springfield" "SPRING24" 1 999%Z 3%Z].
Proof. do 3 eexists. repeat split; reflexivity. Qed.

(** A school's administrator may also send an update of a notice that
    assigns [created_at]; the trigger refreshes [updated_at] only. *)
Lemma policies_accept_assigning_created_at :
  exists db',
    exec_request Demo.db (Some 1) 300%Z
      (on_notices
         (Update (fun r => Nat.eqb (Notice.id r) 40)
                 (fun r => Notice.mk (Notice.id r) (Notice.school_code r) (Notice.title r)
                                     (Notice.content r) (Notice.priority r) 999%Z
                                     (Notice.updated_at r))))
    = inr db'
    /\ exists r, In r (notices db') /\ (Notice.updated_at r < Notice.created_at r)%Z.
Proof.
  eexists. split; [reflexivity|].
  eexists. split; [left; reflexivity | reflexivity].
Qed.

(** ** Creating a school: one submission, and two at once *)

(** The two messages, as [handleSubmit] tells them apart. *)
Lemma unique_violation_is_duplicate c :
  Js.includes (Pg.message (Pg.unique_violation c)) "duplicate" = true.
Proof. reflexivity. Qed.

Lemma rls_violation_is_not_duplicate :
  Js.includes (Pg.message (Pg.rls_violation "schools")) "duplicate" = false.
Proof. vm_compute. reflexivity. Qed.

Lemma existsb_false_iff {A : Type} (f : A -> bool) l :
  existsb f l = false <-> forall x, In x l -> f x = false.
Proof.
  split.
  - intros H x Hin. destruct (f x) eqn:E; [|reflexivity].
    assert (existsb f l = true) by (apply existsb_exists; eauto). congruence.
  - intros H. destruct (existsb f l) eqn:E; [|reflexivity].
    apply existsb_exists in E. destruct E as (x & Hin & Hx). rewrite (H x Hin) in Hx.
    discriminate.
Qed.

Lemma insert_school_accepted db user now new_id name code :
  has_role db (Some user) admin = true ->
  ~ code_taken db code -> ~ school_id_used db new_id ->
  exec_request db (Some user) now
    (on_schools (Insert (UseSchool.new_school new_id now name code user)))
  = inr (set_schools (schools db ++ [UseSchool.new_school new_id now name code user]) db).
Proof.
  intros Hrole Hcode Hid. unfold exec_request, exec_statement, Pg.insert_row.
  change (check_passes (Pg.rel_table schools_rel) db (Some user) INSERT ?r)
    with (allow_insert schools_table db (Some user) r).
  rewrite schools_insert, Hrole. simpl School.admin_id.
  replace (Sql.holds (Sql.eq_uuid (Some user) (Some user))) with true
    by (symmetry; apply holds_uid_is; reflexivity).
  simpl negb. cbv iota.
  unfold Pg.find_conflict. simpl.
  replace (existsb _ (schools db)) with false.
  - replace (existsb _ (schools db)) with false; [reflexivity|].
    symmetry. apply existsb_false_iff. intros s Hin. apply String.eqb_neq.
    intros E. apply Hcode. exists s. auto.
  - symmetry. apply existsb_false_iff. intros s Hin. apply Nat.eqb_neq.
    intros E. apply Hid. exists s. auto.
Qed.

Lemma insert_school_refused db user now new_id name code :
  has_role db (Some user) admin = true ->
  code_taken db code ->
  exists c,
    exec_request db (Some user) now
      (on_schools (Insert (UseSchool.new_school new_id now name code user)))
    = inl (Pg.unique_violation c).
Proof.
  intros Hrole (s & Hin & Hs). unfold exec_request, exec_statement, Pg.insert_row.
  change (check_passes (Pg.rel_table schools_rel) db (Some user) INSERT ?r)
    with (allow_insert schools_table db (Some user) r).
  rewrite schools_insert, Hrole. simpl School.admin_id.
  replace (Sql.holds (Sql.eq_uuid (Some user) (Some user))) with true
    by (symmetry; apply holds_uid_is; reflexivity).
  simpl negb. cbv iota.
  unfold Pg.find_conflict. simpl.
  destruct (existsb _ (schools db)); simpl; [eauto|].
  replace (existsb _ (schools db)) with true; simpl; [eauto|].
  symmetry. apply existsb_exists. exists s. split; [exact Hin|].
  apply String.eqb_eq. now rewrite Hs.
Qed.

(** One submission on its own, step by step, is [handleSubmit]. *)
Lemma advance_twice_is_handleSubmit s t1 t2 db :
  CreateSchool.handleSubmit (sub_id s) t1 t2 (sub_user s) (sub_name s) (sub_code s) db
  = (toast_of (fst (advance s t2 (fst (advance s t1 submitted db))
                                 (snd (advance s t1 submitted db)))),
     snd (advance s t2 (fst (advance s t1 submitted db)) (snd (advance s t1 submitted db)))).
Proof.
  unfold CreateSchool.handleSubmit, advance, requested_code.
  destruct (_ <? 3)%nat; [reflexivity|].
  destruct (_ <? 4)%nat; [reflexivity|].
  unfold UseSchool.createSchool.
  destruct (sub_user s) as [user_id|]; [|reflexivity].
  destruct (exec_request db (Some user_id) t1 _) as [e|db1]; reflexivity.
Qed.

Section Race.

Variables (db0 : Database) (s1 s2 : submission) (u1 u2 : uuid).
Hypothesis user1 : sub_user s1 = Some u1.
Hypothesis user2 : sub_user s2 = Some u2.
Hypothesis admin1 : has_role db0 (Some u1) admin = true.
Hypothesis admin2 : has_role db0 (Some u2) admin = true.
Hypothesis form1 : well_formed s1.
Hypothesis form2 : well_formed s2.
Hypothesis same_code : requested_code s1 = requested_code s2.
Hypothesis code_free : ~ code_taken db0 (requested_code s1).
Hypothesis id1_free : ~ school_id_used db0 (sub_id s1).
Hypothesis id2_free : ~ school_id_used db0 (sub_id s2).

Lemma has_role_same_rows db uid role :
  user_roles db = user_roles db0 -> has_role db uid role = has_role db0 uid role.
Proof. unfold has_role. now intros ->. Qed.

Lemma advance_free s u now db :
  sub_user s = Some u -> well_formed s ->
  has_role db (Some u) admin = true ->
  ~ code_taken db (requested_code s) -> ~ school_id_used db (sub_id s) ->
  advance s now submitted db
  = (school_stored,
     set_schools (schools db ++ [UseSchool.new_school (sub_id s) now (Js.trim (sub_name s))
                                   (requested_code s) u]) db).
Proof.
  intros Hu [Hn Hc] Hrole Hcode Hid. unfold advance.
  apply Nat.ltb_ge in Hn. apply Nat.ltb_ge in Hc. rewrite Hn, Hc, Hu.
  now rewrite insert_school_accepted.
Qed.

Lemma advance_taken s u now db :
  sub_user s = Some u -> well_formed s ->
  has_role db (Some u) admin = true ->
  code_taken db (requested_code s) ->
  advance s now submitted db = (finished code_taken_toast, db).
Proof.
  intros Hu [Hn Hc] Hrole Hcode. unfold advance.
  apply Nat.ltb_ge in Hn. apply Nat.ltb_ge in Hc. rewrite Hn, Hc, Hu.
  destruct (insert_school_refused db u now (sub_id s) (Js.trim (sub_name s))
              (requested_code s) Hrole Hcode) as (c & ->).
  unfold CreateSchool.failure_toast. cbn [UseSchool.error_message].
  now rewrite unique_violation_is_duplicate.
Qed.

Lemma advance_stored s now db :
  fst (advance s now school_stored db) = finished CreateSchool.created_toast
  /\ schools (snd (advance s now school_stored db)) = schools db
  /\ user_roles (snd (advance s now school_stored db)) = user_roles db.
Proof.
  unfold advance. cbn [fst snd]. split; [reflexivity|].
  destruct (sub_user s) as [u|]; [|auto].
  destruct (after_request_cases db (Some u) now
              (on_profiles (Update (fun p => Nat.eqb (Profile.user_id p) u)
                                   (UseSchool.set_profile_school_code (requested_code s)))))
    as [->|H]; [auto|].
  apply exec_request_inv in H. cbn beta iota in H. tauto.
Qed.

Lemma advance_won s now p db :
  won p ->
  won (fst (advance s now p db))
  /\ schools (snd (advance s now p db)) = schools db
  /\ user_roles (snd (advance s now p db)) = user_roles db.
Proof.
  intros [->| ->].
  - destruct (advance_stored s now db) as (H1 & H2 & H3). rewrite H1. unfold won. auto.
  - simpl. unfold won. auto.
Qed.

Lemma taken_after_first (db : Database) (row : School.t) (code : text) :
  schools db = schools db0 ++ [row] -> School.school_code row = code -> code_taken db code.
Proof.
  intros Hs Hc. exists row. split; [|exact Hc]. rewrite Hs. apply in_or_app. right. now left.
Qed.

(** A request of the first submission keeps the invariant. *)
Lemma race_step_first now p1 p2 db :
  race_invariant db0 s1 p1 p2 db ->
  race_invariant db0 s1 (fst (advance s1 now p1 db)) p2 (snd (advance s1 now p1 db)).
Proof.
  intros [Hroles Hrace]. inversion Hrace as
    [d Hs|q row d Hw Hs Hc|q row d Hw Hs Hc|q row d Hw Hs Hc|q row d Hw Hs Hc]; subst.
  - rewrite (advance_free s1 u1 now db user1 form1).
    + split; [exact Hroles|]. simpl.
      apply (race_first_ahead db0 s1 school_stored
               (UseSchool.new_school (sub_id s1) now (Js.trim (sub_name s1))
                  (requested_code s1) u1)).
      * now left.
      * simpl. now rewrite Hs.
      * reflexivity.
    + now rewrite (has_role_same_rows db _ _ Hroles).
    + intros (s & Hin & Hc). apply code_free. exists s. rewrite <- Hs. auto.
    + intros (s & Hin & Hc). apply id1_free. exists s. rewrite <- Hs. auto.
  - destruct (advance_won s1 now p1 db Hw) as (Hw' & Hs' & Hr').
    split; [congruence|]. apply (race_first_ahead db0 s1 _ row); [exact Hw' | congruence | exact Hc].
  - rewrite (advance_taken s1 u1 now db user1 form1).
    + split; [exact Hroles|]. simpl. now apply (race_second_won db0 s1 p2 row).
    + now rewrite (has_role_same_rows db _ _ Hroles).
    + now apply (taken_after_first db row).
  - destruct (advance_won s1 now p1 db Hw) as (Hw' & Hs' & Hr').
    split; [congruence|]. apply (race_first_won db0 s1 _ row); [exact Hw' | congruence | exact Hc].
  - simpl. split; [exact Hroles|]. now apply (race_second_won db0 s1 p2 row).
Qed.

(** A request of the second submission keeps the invariant. *)
Lemma race_step_second now p1 p2 db :
  race_invariant db0 s1 p1 p2 db ->
  race_invariant db0 s1 p1 (fst (advance s2 now p2 db)) (snd (advance s2 now p2 db)).
Proof.
  intros [Hroles Hrace]. inversion Hrace as
    [d Hs|q row d Hw Hs Hc|q row d Hw Hs Hc|q row d Hw Hs Hc|q row d Hw Hs Hc]; subst.
  - rewrite (advance_free s2 u2 now db user2 form2).
    + split; [exact Hroles|]. simpl.
      apply (race_second_ahead db0 s1 school_stored
               (UseSchool.new_school (sub_id s2) now (Js.trim (sub_name s2))
                  (requested_code s2) u2)).
      * now left.
      * simpl. now rewrite Hs.
      * simpl. now rewrite same_code.
    + now rewrite (has_role_same_rows db _ _ Hroles).
    + rewrite <- same_code. intros (s & Hin & Hc). apply code_free. exists s.
      rewrite <- Hs. auto.
    + intros (s & Hin & Hc). apply id2_free. exists s. rewrite <- Hs. auto.
  - rewrite (advance_taken s2 u2 now db user2 form2).
    + split; [exact Hroles|]. simpl. now apply (race_first_won db0 s1 p1 row).
    + now rewrite (has_role_same_rows db _ _ Hroles).
    + rewrite <- same_code. now apply (taken_after_first db row).
  - destruct (advance_won s2 now p2 db Hw) as (Hw' & Hs' & Hr').
    split; [congruence|]. apply (race_second_ahead db0 s1 _ row); [exact Hw' | congruence | exact Hc].
  - simpl. split; [exact Hroles|]. now apply (race_first_won db0 s1 p1 row).
  - destruct (advance_won s2 now p2 db Hw) as (Hw' & Hs' & Hr').
    split; [congruence|]. apply (race_second_won db0 s1 _ row); [exact Hw' | congruence | exact Hc].
Qed.

Lemma race_interleave schedule : forall p1 p2 db,
  race_invariant db0 s1 p1 p2 db ->
  race_invariant db0 s1 (fst (fst (interleave schedule s1 s2 p1 p2 db)))
                 (snd (fst (interleave schedule s1 s2 p1 p2 db)))
                 (snd (interleave schedule s1 s2 p1 p2 db)).
Proof.
  induction schedule as [|[[|] now] rest IH]; intros p1 p2 db Hinv; simpl.
  - exact Hinv.
  - pose proof (race_step_first now p1 p2 db Hinv) as H.
    destruct (advance s1 now p1 db) as [p1' db']. now apply IH.
  - pose proof (race_step_second now p1 p2 db Hinv) as H.
    destruct (advance s2 now p2 db) as [p2' db']. now apply IH.
Qed.

Lemma one_school_with_code (db : Database) (row : School.t) :
  schools db = schools db0 ++ [row] ->
  School.school_code row = requested_code s1 ->
  List.length (filter (fun s => String.eqb (School.school_code s) (requested_code s1))
                      (schools db)) = 1.
Proof.
  intros -> Hc. rewrite filter_app, length_app. simpl. rewrite Hc, String.eqb_refl. simpl.
  replace (filter _ (schools db0)) with (@nil School.t); [reflexivity|].
  symmetry.
  assert (H : forall s, In s (schools db0) -> School.school_code s <> requested_code s1)
    by (intros s Hin E; apply code_free; exists s; auto).
  induction (schools db0) as [|s l IH]; simpl; [reflexivity|].
  assert (Hs : School.school_code s <> requested_code s1) by (apply H; now left).
  apply String.eqb_neq in Hs. rewrite Hs. apply IH. intros s' Hin. apply H. now right.
Qed.

Lemma race_finished t1 t2 db :
  race_invariant db0 s1 (finished t1) (finished t2) db ->
  ((t1 = CreateSchool.created_toast /\ t2 = code_taken_toast)
   \/ (t1 = code_taken_toast /\ t2 = CreateSchool.created_toast))
  /\ List.length (filter (fun s => String.eqb (School.school_code s) (requested_code s1))
                         (schools db)) = 1.
Proof.
  intros [_ Hrace]. inversion Hrace as
    [d Hs|q row d Hw Hs Hc|q row d Hw Hs Hc|q row d Hw Hs Hc|q row d Hw Hs Hc]; subst.
  - destruct Hw as [Hw|Hw]; [discriminate|]. injection Hw as ->.
    split; [now left | now apply (one_school_with_code db row)].
  - destruct Hw as [Hw|Hw]; [discriminate|]. injection Hw as ->.
    split; [now right | now apply (one_school_with_code db row)].
Qed.

End Race.

Lemma advance_progress s now p db :
  steps_left (fst (advance s now p db)) <= pred (steps_left p).
Proof.
  destruct p; simpl; [|lia|lia].
  destruct (_ <? 3)%nat; simpl; [lia|].
  destruct (_ <? 4)%nat; simpl; [lia|].
  destruct (sub_user s); simpl; [|lia].
  destruct (exec_request _ _ _ _); simpl; lia.
Qed.

Lemma interleave_progress schedule s1 s2 : forall p1 p2 db,
  steps_left (fst (fst (interleave schedule s1 s2 p1 p2 db)))
    <= steps_left p1 - turns true schedule
  /\ steps_left (snd (fst (interleave schedule s1 s2 p1 p2 db)))
    <= steps_left p2 - turns false schedule.
Proof.
  induction schedule as [|[[|] now] rest IH]; intros p1 p2 db; unfold turns; simpl.
  - lia.
  - pose proof (advance_progress s1 now p1 db) as H.
    destruct (advance s1 now p1 db) as [p1' db']. simpl in H.
    destruct (IH p1' p2 db') as [H1 H2]. unfold turns in *. lia.
  - pose proof (advance_progress s2 now p2 db) as H.
    destruct (advance s2 now p2 db) as [p2' db']. simpl in H.
    destruct (IH p1 p2' db') as [H1 H2]. unfold turns in *. lia.
Qed.

Lemma steps_left_zero p : steps_left p <= 0 -> exists t, p = finished t.
Proof. destruct p; simpl; try lia. eauto. Qed.

Lemma handleSubmit_code_taken db s u t1 t2 :
  sub_user s = Some u -> well_formed s ->
  has_role db (Some u) admin = true ->
  code_taken db (requested_code s) ->
  CreateSchool.handleSubmit (sub_id s) t1 t2 (sub_user s) (sub_name s) (sub_code s) db
  = (code_taken_toast, db).
Proof.
  intros Hu Hf Hrole Htaken. rewrite advance_twice_is_handleSubmit.
  now rewrite (advance_taken s u t1 db Hu Hf Hrole Htaken).
Qed.

(** C7. Duplicate-code error distinguishability.  A well-formed submission
    by an admin that asks for a code some school already has leaves the
    database as it was and shows the toast that says the code is taken.  When
    two such submissions ask for the same (normalised) code, free so far, and
    their requests interleave in any order in which each gets its two turns,
    both finish, exactly one is told the school was created, the other gets
    the code-is-taken toast, and the database holds exactly one school with
    the code.  That toast differs from the success toast and from what a
    refusal by the policy, or a missing session, shows (the unique
    violation's message contains "duplicate", theirs do not). *)
Theorem duplicate_code_is_distinguished :
  (forall db s u t1 t2,
      sub_user s = Some u -> well_formed s ->
      has_role db (Some u) admin = true ->
      code_taken db (requested_code s) ->
      CreateSchool.handleSubmit (sub_id s) t1 t2 (sub_user s) (sub_name s) (sub_code s) db
      = (code_taken_toast, db))
  /\ (forall db s1 s2 u1 u2 schedule,
        sub_user s1 = Some u1 -> sub_user s2 = Some u2 ->
        has_role db (Some u1) admin = true -> has_role db (Some u2) admin = true ->
        well_formed s1 -> well_formed s2 ->
        requested_code s1 = requested_code s2 ->
        ~ code_taken db (requested_code s1) ->
        ~ school_id_used db (sub_id s1) -> ~ school_id_used db (sub_id s2) ->
        2 <= turns true schedule -> 2 <= turns false schedule ->
        exists t1 t2 db',
          interleave schedule s1 s2 submitted submitted db = (finished t1, finished t2, db')
          /\ ((t1 = CreateSchool.created_toast /\ t2 = code_taken_toast)
              \/ (t1 = code_taken_toast /\ t2 = CreateSchool.created_toast))
          /\ List.length (filter (fun s => String.eqb (School.school_code s) (requested_code s1))
                                 (schools db')) = 1)
  /\ (CreateSchool.toast_description code_taken_toast = CreateSchool.code_taken_message
      /\ code_taken_toast <> CreateSchool.created_toast
      /\ code_taken_toast
         <> CreateSchool.failure_toast (UseSchool.pg_error (Pg.rls_violation "schools"))
      /\ code_taken_toast <> CreateSchool.failure_toast UseSchool.not_authenticated).
Proof.
  split; [exact handleSubmit_code_taken | split].
  - intros db s1 s2 u1 u2 schedule Hu1 Hu2 Ha1 Ha2 Hf1 Hf2 Hsame Hfree Hid1 Hid2 Ht1 Ht2.
    destruct (interleave_progress schedule s1 s2 submitted submitted db) as [Hp1 Hp2].
    cbn [steps_left] in Hp1, Hp2.
    assert (Hz1 : steps_left (fst (fst (interleave schedule s1 s2 submitted submitted db))) <= 0)
      by lia.
    assert (Hz2 : steps_left (snd (fst (interleave schedule s1 s2 submitted submitted db))) <= 0)
      by lia.
    apply steps_left_zero in Hz1. destruct Hz1 as (t1 & E1).
    apply steps_left_zero in Hz2. destruct Hz2 as (t2 & E2).
    pose proof (race_interleave db s1 s2 u1 u2 Hu1 Hu2 Ha1 Ha2 Hf1 Hf2 Hsame Hfree Hid1 Hid2
                  schedule submitted submitted db
                  (conj eq_refl (race_open db s1 db eq_refl))) as Hinv.
    rewrite E1, E2 in Hinv.
    destruct (race_finished db s1 Hfree _ _ _ Hinv) as [Hwho Hone].
    exists t1, t2, (snd (interleave schedule s1 s2 submitted submitted db)).
    split; [|split; [exact Hwho | exact Hone]].
    destruct (interleave schedule s1 s2 submitted submitted db) as [[q1 q2] d].
    simpl in *. now subst.
  - repeat split; discriminate.
Qed.

(** Ada and Olu both ask for "RIVER01"; Ada's insert comes first. *)
Lemma duplicate_code_is_distinguished_witness :
  exists t1 t2 db',
    interleave [(true, 501%Z); (false, 502%Z); (true, 503%Z); (false, 504%Z)]
      (mkSubmission (Some 1) "Riverside" "river-01" 12)
      (mkSubmission (Some 3) "Riverdale" "RIVER01" 13)
      submitted submitted Demo.db
    = (finished t1, finished t2, db')
    /\ ((t1 = CreateSchool.created_toast /\ t2 = code_taken_toast)
        \/ (t1 = code_taken_toast /\ t2 = CreateSchool.created_toast))
    /\ List.length
         (filter (fun s => String.eqb (School.school_code s)
                             (requested_code (mkSubmission (Some 1) "Riverside" "river-01" 12)))
                 (schools db')) = 1.
Proof.
  apply (proj1 (proj2 duplicate_code_is_distinguished) Demo.db
           (mkSubmission (Some 1) "Riverside" "river-01" 12)
           (mkSubmission (Some 3) "Riverdale" "RIVER01" 13) 1 3).
  - reflexivity.
  - reflexivity.
  - reflexivity.
  - reflexivity.
  - unfold well_formed. simpl. lia.
  - unfold well_formed. simpl. lia.
  - reflexivity.
  - intros (s & [<-|[<-|[]]] & H); discriminate H.
  - intros (s & [<-|[<-|[]]] & H); discriminate H.
  - intros (s & [<-|[<-|[]]] & H); discriminate H.
  - unfold turns. simpl. lia.
  - unfold turns. simpl. lia.
Defined.

(** ** The UNIQUE constraint on school codes is kept *)

Section UniqueKey.

Context {Row K : Type} (R : Pg.relation Row) (key : Row -> K) (name : string)
        (eqb : K -> K -> bool).

Hypothesis eqb_true : forall a b, eqb a b = true <-> a = b.
Hypothesis declared : In (name, fun a b => eqb (key a) (key b)) (Pg.rel_unique R).

Lemma no_conflict_new_key new rows :
  Pg.find_conflict R new rows = None -> ~ In (key new) (map key rows).
Proof.
  unfold Pg.find_conflict. intros H Hin.
  destruct (find _ (Pg.rel_unique R)) as [c|] eqn:E; [discriminate|].
  pose proof (find_none _ _ E _ declared) as Hc. simpl in Hc.
  apply in_map_iff in Hin. destruct Hin as (b & Hb & Hin).
  assert (Ht : existsb (fun b => eqb (key new) (key b)) rows = true).
  { apply existsb_exists. exists b. split; [exact Hin|]. apply eqb_true. congruence. }
  congruence.
Qed.

Lemma NoDup_insert_middle (l1 l2 : list K) x :
  NoDup (l1 ++ l2) -> ~ In x (l1 ++ l2) -> NoDup (l1 ++ x :: l2).
Proof.
  induction l1 as [|a l1 IH]; simpl; intros Hnd Hx.
  - now constructor.
  - inversion Hnd as [|? ? Ha Hnd']; subst. constructor.
    + intros Hin. apply in_app_or in Hin. destruct Hin as [Hin|[->|Hin]].
      * apply Ha. apply in_or_app. now left.
      * apply Hx. now left.
      * apply Ha. apply in_or_app. now right.
    + apply IH; [exact Hnd'|]. intros Hin. apply Hx. now right.
Qed.

Lemma update_rows_keeps_unique db uid now cond assign todo : forall done out,
  NoDup (map key (done ++ todo)) ->
  Pg.update_rows R db uid now cond assign done todo = inr out ->
  NoDup (map key out).
Proof.
  induction todo as [|r rest IH]; intros done out Hnd H; simpl in H.
  - injection H as <-. now rewrite app_nil_r in Hnd.
  - destruct (Pg.targeted R db uid UPDATE cond r).
    + destruct (check_passes _ db uid UPDATE _); simpl in H; [|discriminate].
      destruct (Pg.find_conflict R _ _) eqn:E; [discriminate|].
      apply IH in H; [exact H|].
      apply no_conflict_new_key in E.
      rewrite <- app_assoc. simpl. rewrite map_app in *. simpl in *.
      apply NoDup_insert_middle.
      * eapply NoDup_remove_1. exact Hnd.
      * exact E.
    + apply IH in H; [exact H|]. now rewrite <- app_assoc.
Qed.

Lemma NoDup_map_filter (f : Row -> bool) rows :
  NoDup (map key rows) -> NoDup (map key (filter f rows)).
Proof.
  induction rows as [|r rows IH]; simpl; intros Hnd; [constructor|].
  inversion Hnd as [|? ? Hr Hnd']; subst.
  destruct (f r); simpl; [|auto].
  constructor; [|auto]. intros Hin. apply Hr.
  apply in_map_iff in Hin. destruct Hin as (b & Hb & Hin).
  apply filter_In in Hin. apply in_map_iff. exists b. tauto.
Qed.

Lemma exec_statement_keeps_unique db uid now s rows out :
  NoDup (map key rows) ->
  exec_statement R db uid now s rows = inr out ->
  NoDup (map key out).
Proof.
  intros Hnd H. destruct s as [new|cond assign|cond]; simpl in H.
  - apply insert_row_spec in H. destruct H as (-> & _ & Hc).
    apply no_conflict_new_key in Hc. rewrite map_app. simpl.
    apply NoDup_insert_middle; now rewrite app_nil_r.
  - now apply (update_rows_keeps_unique db uid now cond assign rows [] out).
  - injection H as <-. now apply NoDup_map_filter.
Qed.

End UniqueKey.

Lemma exec_request_keeps_unique_codes db uid now r db' :
  unique_school_codes db ->
  exec_request db uid now r = inr db' ->
  unique_school_codes db'.
Proof.
  unfold unique_school_codes. intros Hu He. apply exec_request_inv in He.
  destruct r as [s|s|s|s|s|s]; try (destruct He as (_ & -> & _); exact Hu).
  destruct He as (He & _).
  apply (exec_statement_keeps_unique schools_rel School.school_code
           "schools_school_code_key" String.eqb String.eqb_eq
           (or_intror (or_introl eq_refl)) db uid now s _ _ Hu He).
Qed.

Lemma reachable_unique_codes w : reachable w -> unique_school_codes (w_db w).
Proof.
  unfold reachable. intros H. remember initial_world as w0 eqn:E.
  induction H as [w|w1 w2 w3 _ IH Hstep].
  - subst. constructor.
  - specialize (IH E). destruct Hstep as [w a t1 t2 _ Hc Ht]. simpl.
    apply (run_preserves (fun _ d => unique_school_codes d) t1 t2 a) with (c := w_clock w); auto.
    intros c db uid now r db' HP _ _ He. now apply (exec_request_keeps_unique_codes db uid now r).
Qed.

(** ** The code on the small database *)

Example normalised_code : Js.strip_non_code (Js.toUpperCase "river-01") = "RIVER01".
Proof. reflexivity. Qed.

Example trimmed : Js.trim "  Oak Hill " = "Oak Hill".
Proof. reflexivity. Qed.

Example includes_duplicate :
  Js.includes "duplicate key value violates unique constraint" "duplicate" = true
  /\ Js.includes "new row violates row-level security policy" "duplicate" = false.
Proof. split; reflexivity. Qed.

(** A student of Springfield asks for its notices and gets the one there is;
    a student of Oak Hill asks for the same and gets nothing. *)
Example student_reads_own_school :
  Pg.select_rows notices_rel Demo.db (Some 2)
    (fun r => String.eqb (Notice.school_code r) "SPRING24") (notices Demo.db)
  = [Demo.exam].
Proof. reflexivity. Qed.

Example student_of_other_school_reads_nothing :
  Pg.select_rows notices_rel Demo.db (Some 4)
    (fun r => String.eqb (Notice.school_code r) "SPRING24") (notices Demo.db)
  = [].
Proof. reflexivity. Qed.

Example student_insert_fee_refused :
  exec_request Demo.db (Some 2) 300%Z
    (on_fees (Insert (Fee.mk 51 "SPRING24" "Trip" None 1500%Z None None 300%Z 300%Z)))
  = inl (Pg.rls_violation "fees").
Proof. reflexivity. Qed.

Example rehoming_update_refused :
  exec_request Demo.db (Some 1) 300%Z
    (on_notices
       (Update (fun r => Nat.eqb (Notice.id r) 40)
               (fun r => Notice.mk (Notice.id r) "OAKHILL1" (Notice.title r) (Notice.content r)
                                   (Notice.priority r) (Notice.created_at r)
                                   (Notice.updated_at r))))
  = inl (Pg.rls_violation "notices").
Proof. reflexivity. Qed.

Example foreign_update_is_skipped :
  exec_request Demo.db (Some 3) 300%Z
    (on_notices
       (Update (fun r => Nat.eqb (Notice.id r) 40)
               (fun r => Notice.mk (Notice.id r) (Notice.school_code r) "Cancelled"
                                   (Notice.content r) (Notice.priority r)
                                   (Notice.created_at r) (Notice.updated_at r))))
  = inr Demo.db.
Proof. reflexivity. Qed.

Example admin_update_refreshes_updated_at :
  exec_request Demo.db (Some 1) 300%Z
    (on_notices
       (Update (fun r => Nat.eqb (Notice.id r) 40)
               (fun r => Notice.mk (Notice.id r) (Notice.school_code r) "Exam moved"
                                   (Notice.content r) (Notice.priority r)
                                   (Notice.created_at r) (Notice.updated_at r))))
  = inr (set_notices
           [ Notice.mk 40 "SPRING24" "Exam moved" "Maths on Monday" (Some "high") 200%Z 300%Z;
             Demo.fair ]
           Demo.db).
Proof. reflexivity. Qed.

Example second_school_with_same_code :
  fst (CreateSchool.handleSubmit 12 300%Z 301%Z (Some 3) "Spring Valley" "spring-24" Demo.db)
  = code_taken_toast.
Proof. reflexivity. Qed.

Example student_cannot_create_school :
  fst (CreateSchool.handleSubmit 12 300%Z 301%Z (Some 2) "Spring Valley" "VALLEY01" Demo.db)
  = CreateSchool.mkToast CreateSchool.destructive "Failed to create school"
      (Pg.message (Pg.rls_violation "schools")).
Proof. reflexivity. Qed.


(** * Part II, continued: the rest of the client API and the pages *)

(** ** Callers without a session *)

Lemma is_school_admin_anonymous db code : is_school_admin db None code = false.
Proof.
  unfold is_school_admin. induction (schools db) as [|s l IH]; [reflexivity|].
  cbn [existsb]. rewrite IH, SqlFacts.holds_and3. reflexivity.
Qed.

Lemma has_role_anonymous db role : has_role db None role = false.
Proof.
  unfold has_role. induction (user_roles db) as [|r l IH]; [reflexivity|].
  cbn [existsb]. rewrite IH, SqlFacts.holds_and3. reflexivity.
Qed.

Lemma get_user_school_code_anonymous db : get_user_school_code db None = None.
Proof.
  unfold get_user_school_code. induction (profiles db) as [|p l IH]; [reflexivity|].
  cbn [filter]. exact IH.
Qed.

Lemma member_or_admin_anonymous db code : member_or_admin db None code = false.
Proof.
  unfold member_or_admin.
  now rewrite get_user_school_code_anonymous, is_school_admin_anonymous.
Qed.

Lemma set_scholarships_same db : set_scholarships (scholarships db) db = db.
Proof. now destruct db. Qed.

Lemma set_fees_same db : set_fees (fees db) db = db.
Proof. now destruct db. Qed.

Lemma set_notices_same db : set_notices (notices db) db = db.
Proof. now destruct db. Qed.

Lemma filter_none {A : Type} (f : A -> bool) (l : list A) :
  (forall x, In x l -> f x = false) -> filter f l = [].
Proof.
  induction l as [|a l IH]; intros H; [reflexivity|]. simpl.
  rewrite (H a (or_introl eq_refl)). apply IH. intros x Hx. apply H. now right.
Qed.

Lemma filter_all {A : Type} (f : A -> bool) (l : list A) :
  (forall x, In x l -> f x = true) -> filter f l = l.
Proof.
  induction l as [|a l IH]; intros H; [reflexivity|]. simpl.
  rewrite (H a (or_introl eq_refl)). f_equal. apply IH. intros x Hx. apply H. now right.
Qed.

(** A statement under policies that let nothing through either fails or
    leaves the rows as they are. *)
Lemma refused_statement {Row : Type} (R : Pg.relation Row) db uid now s rows :
  (forall r, check_passes (Pg.rel_table R) db uid INSERT r = false) ->
  (forall r, using_passes (Pg.rel_table R) db uid UPDATE r = false) ->
  (forall r, using_passes (Pg.rel_table R) db uid DELETE r = false) ->
  exec_statement R db uid now s rows = inr rows
  \/ exists e, exec_statement R db uid now s rows = inl e.
Proof.
  intros Hi Hu Hd. destruct s as [new|cond assign|cond]; simpl.
  - right. unfold Pg.insert_row. rewrite Hi. simpl. eauto.
  - left. now apply update_without_policy.
  - left. f_equal. now apply delete_without_policy.
Qed.

Lemma schools_update_using db uid r :
  using_passes schools_table db uid UPDATE r
  = Sql.holds (Sql.eq_uuid (Some (School.admin_id r)) uid).
Proof. unfold using_passes. simpl. now rewrite orb_false_r. Qed.

Lemma resource_update_using k db uid (r : row_of k) :
  using_passes (table_of k) db uid UPDATE r
  = is_school_admin db uid (Some (school_code_of k r)).
Proof.
  destruct k; unfold using_passes; simpl; now rewrite orb_false_r, SqlFacts.holds_of_bool.
Qed.

(** X1.  A caller without a session ([auth.uid()] is NULL) changes nothing,
    whatever the request, and reads no row of any table but [schools], which
    it reads in full. *)
Theorem anonymous_caller_reads_schools_only (db : Database) (now : timestamptz) :
  (forall r, after_request db None now r = db)
  /\ (forall cond, Pg.select_rows schools_rel db None cond (schools db) = filter cond (schools db))
  /\ (forall cond, Pg.select_rows profiles_rel db None cond (profiles db) = [])
  /\ (forall cond, Pg.select_rows user_roles_rel db None cond (user_roles db) = [])
  /\ (forall cond, Pg.select_rows scholarships_rel db None cond (scholarships db) = [])
  /\ (forall cond, Pg.select_rows fees_rel db None cond (fees db) = [])
  /\ (forall cond, Pg.select_rows notices_rel db None cond (notices db) = []).
Proof.
  split.
  { intros r. unfold after_request, exec_request.
    destruct r as [s|s|s|s|s|s].
    - destruct (refused_statement schools_rel db None now s (schools db)) as [E|[e E]];
        try (rewrite E; simpl; now rewrite ?set_schools_same).
      + intros r. change (allow_insert schools_table db None r = false).
        now rewrite schools_insert, has_role_anonymous.
      + intros r. now rewrite schools_update_using.
      + reflexivity.
    - destruct (refused_statement profiles_rel db None now s (profiles db)) as [E|[e E]];
        try (rewrite E; simpl; now rewrite ?set_profiles_same); reflexivity.
    - destruct (refused_statement user_roles_rel db None now s (user_roles db)) as [E|[e E]];
        try (rewrite E; simpl; now rewrite ?set_user_roles_same); reflexivity.
    - destruct (refused_statement scholarships_rel db None now s (scholarships db)) as [E|[e E]];
        try (rewrite E; simpl; now rewrite ?set_scholarships_same); intros r.
      + change (allow_insert scholarships_table db None r = false).
        now rewrite scholarships_insert, is_school_admin_anonymous.
      + now rewrite (resource_update_using res_scholarships), is_school_admin_anonymous.
      + change (allow_delete scholarships_table db None r = false).
        now rewrite scholarships_delete, is_school_admin_anonymous.
    - destruct (refused_statement fees_rel db None now s (fees db)) as [E|[e E]];
        try (rewrite E; simpl; now rewrite ?set_fees_same); intros r.
      + change (allow_insert fees_table db None r = false).
        now rewrite fees_insert, is_school_admin_anonymous.
      + now rewrite (resource_update_using res_fees), is_school_admin_anonymous.
      + change (allow_delete fees_table db None r = false).
        now rewrite fees_delete, is_school_admin_anonymous.
    - destruct (refused_statement notices_rel db None now s (notices db)) as [E|[e E]];
        try (rewrite E; simpl; now rewrite ?set_notices_same); intros r.
      + change (allow_insert notices_table db None r = false).
        now rewrite notices_insert, is_school_admin_anonymous.
      + now rewrite (resource_update_using res_notices), is_school_admin_anonymous.
      + change (allow_delete notices_table db None r = false).
        now rewrite notices_delete, is_school_admin_anonymous. }
  split; [intros cond; reflexivity|].
  repeat split; intros cond; unfold Pg.select_rows; apply filter_none; intros r _.
  - reflexivity.
  - reflexivity.
  - change (allow_select scholarships_table db None r && cond r = false).
    now rewrite scholarships_select, member_or_admin_anonymous.
  - change (allow_select fees_table db None r && cond r = false).
    now rewrite fees_select, member_or_admin_anonymous.
  - change (allow_select notices_table db None r && cond r = false).
    now rewrite notices_select, member_or_admin_anonymous.
Qed.

(** ** Roles: what the database takes for an admin, and what the pages do *)

Lemma has_role_iff db (u : uuid) role :
  has_role db (Some u) role = true
  <-> exists r, In r (user_roles db) /\ UserRole.user_id r = u /\ UserRole.role r = role.
Proof.
  unfold has_role. rewrite existsb_exists. split.
  - intros (r & Hin & H). exists r. split; [exact Hin|].
    rewrite SqlFacts.holds_and3, SqlFacts.holds_of_bool in H.
    apply andb_true_iff in H. destruct H as [Hu Hr].
    apply SqlFacts.holds_eq_uuid in Hu. destruct Hu as (x & Hx & Hy).
    apply app_role_eqb_eq in Hr. split; congruence.
  - intros (r & Hin & <- & <-). exists r. split; [exact Hin|].
    rewrite SqlFacts.holds_and3, SqlFacts.holds_of_bool. apply andb_true_iff. split.
    + apply SqlFacts.holds_eq_uuid. eauto.
    + now apply app_role_eqb_eq.
Qed.

Lemma role_key_eqb_eq a b : role_key_eqb a b = true <-> a = b.
Proof.
  destruct a as [u r], b as [u' r']. unfold role_key_eqb. simpl.
  rewrite andb_true_iff, Nat.eqb_eq, app_role_eqb_eq. split.
  - intros [-> ->]. reflexivity.
  - intros E. injection E as -> ->. auto.
Qed.

(** X2.  The role is the client's word: with one insert into [user_roles]
    (under a new row id) any identity holds the role admin for the database,
    whatever role it signed up with, and then passes the INSERT policy of
    [schools] for every school it names itself the admin of. *)
Theorem any_identity_can_take_the_admin_role
    (db : Database) (U rid : uuid) (now : timestamptz) :
  ~ In rid (map UserRole.id (user_roles db)) ->
  let db1 := after_request db (Some U) now (on_user_roles (Insert (UserRole.mk rid U admin))) in
  has_role db1 (Some U) admin = true
  /\ forall s, School.admin_id s = U -> allow_insert schools_table db1 (Some U) s = true.
Proof.
  intros Hfresh db1.
  assert (Hrole : has_role db1 (Some U) admin = true).
  { subst db1. unfold after_request, exec_request. cbn [exec_statement].
    unfold Pg.insert_row.
    change (check_passes (Pg.rel_table user_roles_rel) db (Some U) INSERT (UserRole.mk rid U admin))
      with (allow_insert user_roles_table db (Some U) (UserRole.mk rid U admin)).
    rewrite user_roles_insert.
    replace (Sql.holds (Sql.eq_uuid (Some U) (Some (UserRole.user_id (UserRole.mk rid U admin)))))
      with true by (symmetry; apply SqlFacts.holds_eq_uuid; simpl; eauto).
    cbn [negb].
    destruct (Pg.find_conflict user_roles_rel (UserRole.mk rid U admin) (user_roles db))
      as [c|] eqn:E; cbn [Pg.store].
    - unfold Pg.find_conflict in E. cbn [Pg.rel_unique user_roles_rel find snd] in E.
      destruct (existsb _ (user_roles db)) eqn:Epk in E.
      + exfalso. apply Hfresh. apply existsb_exists in Epk. destruct Epk as (x & Hx & Hid).
        simpl in Hid. apply Nat.eqb_eq in Hid. rewrite Hid. now apply in_map.
      + destruct (existsb _ (user_roles db)) eqn:Eur in E; [|discriminate].
        apply existsb_exists in Eur. destruct Eur as (x & Hx & Hk). simpl in Hk.
        apply andb_true_iff in Hk. destruct Hk as [Hu Hr].
        apply Nat.eqb_eq in Hu. apply has_role_iff. exists x. repeat split; auto.
        destruct (UserRole.role x); [reflexivity | discriminate].
    - apply has_role_iff. exists (UserRole.mk rid U admin). simpl.
      repeat split. apply in_or_app. right. now left. }
  split; [exact Hrole|].
  intros s Hs. rewrite schools_insert, Hrole. simpl.
  apply SqlFacts.holds_eq_uuid. exists U. now rewrite Hs.
Qed.

Lemma any_identity_can_take_the_admin_role_witness :
  has_role (after_request Demo.db (Some 2) 300%Z
              (on_user_roles (Insert (UserRole.mk 34 2 admin)))) (Some 2) admin = true.
Proof.
  apply (any_identity_can_take_the_admin_role Demo.db 2 34 300%Z).
  simpl. intros [H|[H|[H|[H|[]]]]]; discriminate.
Defined.

Lemma NoDup_constant {A : Type} (k : A) (l : list A) :
  NoDup l -> (forall x, In x l -> x = k) -> (List.length l <= 1)%nat.
Proof.
  intros Hnd Hall. destruct l as [|a [|b l]]; simpl; try lia.
  exfalso. inversion Hnd as [|? ? Ha _]; subst. apply Ha.
  rewrite (Hall a), (Hall b); simpl; auto.
Qed.

Lemma NoDup_map_filter_key {A K : Type} (key : A -> K) (f : A -> bool) (l : list A) :
  NoDup (map key l) -> NoDup (map key (filter f l)).
Proof.
  induction l as [|a l IH]; simpl; intros Hnd; [constructor|].
  inversion Hnd as [|? ? Ha Hnd']; subst.
  destruct (f a); simpl; [|auto].
  constructor; [|auto]. intros Hin. apply Ha.
  apply in_map_iff in Hin. destruct Hin as (b & Hb & Hin).
  apply filter_In in Hin. apply in_map_iff. exists b. tauto.
Qed.

(** X3.  Under the UNIQUE (user_id, role) constraint, the pages take a user
    for an admin ([isAdmin], from [fetchRole]'s [.single()]) exactly when the
    database holds the admin role for them and not the student role: whoever
    the pages treat as admin passes [has_role(_, 'admin')], and the only
    database admins the pages do not treat so are those with both role
    rows. *)
Theorem pages_admin_is_database_admin (db : Database) (user : uuid) :
  NoDup (map role_key (user_roles db)) ->
  (isAdmin db user = true
   <-> has_role db (Some user) admin = true /\ has_role db (Some user) student = false).
Proof.
  intros Hnd. unfold isAdmin. rewrite fetchRole_lookup. unfold role_lookup.
  set (l := filter (fun r => Nat.eqb (UserRole.user_id r) user) (user_roles db)).
  assert (Hl : forall r, In r l <-> In r (user_roles db) /\ UserRole.user_id r = user).
  { intros r. unfold l. rewrite filter_In, Nat.eqb_eq. tauto. }
  split.
  - intros H. destruct l as [|r [|r' l']] eqn:El; simpl in H; try discriminate.
    destruct (UserRole.role r) eqn:Er; [|discriminate].
    assert (Hr : In r (user_roles db) /\ UserRole.user_id r = user)
      by (apply Hl; now left).
    split.
    + apply has_role_iff. exists r. tauto.
    + destruct (has_role db (Some user) student) eqn:Es; [|reflexivity].
      apply has_role_iff in Es. destruct Es as (x & Hx & Hu & Hs).
      assert (Hin : In x [r]) by (apply Hl; auto).
      destruct Hin as [<-|[]]. congruence.
  - intros [Ha Hs]. apply has_role_iff in Ha. destruct Ha as (r & Hr & Hu & Hrole).
    assert (Hall : forall x, In x (map role_key l) -> x = (user, admin)).
    { intros k Hk. apply in_map_iff in Hk. destruct Hk as (x & <- & Hx).
      apply Hl in Hx. destruct Hx as [Hx Hxu]. unfold role_key. rewrite Hxu. f_equal.
      destruct (UserRole.role x) eqn:Ex; [reflexivity|].
      assert (Hst : has_role db (Some user) student = true)
        by (apply has_role_iff; exists x; auto).
      congruence. }
    assert (Hlen : (List.length (map role_key l) <= 1)%nat).
    { apply (NoDup_constant (user, admin)); [|exact Hall].
      unfold l. now apply NoDup_map_filter_key. }
    rewrite length_map in Hlen.
    assert (Hin : In r l) by (apply Hl; auto).
    destruct l as [|a [|b l']]; simpl in Hlen; [contradiction | | lia].
    destruct Hin as [->|[]]. simpl. now rewrite Hrole.
Qed.

Lemma demo_role_keys : NoDup (map role_key (user_roles Demo.db)).
Proof.
  simpl. repeat constructor; simpl; intuition discriminate.
Qed.

Lemma pages_admin_is_database_admin_witness :
  isAdmin Demo.db 1 = true
  <-> has_role Demo.db (Some 1) admin = true /\ has_role Demo.db (Some 1) student = false.
Proof.
  apply (pages_admin_is_database_admin Demo.db 1). exact demo_role_keys.
Defined.

(** ** The PRIMARY KEY and UNIQUE constraints *)

Lemma demo_constraints : constraints_hold Demo.db.
Proof.
  constructor; simpl; repeat constructor; simpl; intuition discriminate.
Qed.

(** X4.  Every request the database accepts, from whatever caller, keeps the
    nine PRIMARY KEY and UNIQUE constraints of the schema: ids stay distinct
    in each table, school codes stay distinct, no user gets a second profile,
    and no user gets the same role twice. *)
Theorem accepted_requests_keep_the_constraints
    (db db' : Database) (uid : option uuid) (now : timestamptz) (r : request) :
  constraints_hold db ->
  exec_request db uid now r = inr db' ->
  constraints_hold db'.
Proof.
  intros [H1 H2 H3 H4 H5 H6 H7 H8 H9] He. apply exec_request_inv in He.
  destruct r as [s|s|s|s|s|s].
  - destruct He as (He & E1 & E2 & E3 & E4 & E5).
    constructor; rewrite ?E1, ?E2, ?E3, ?E4, ?E5; auto.
    + apply (exec_statement_keeps_unique schools_rel School.id "schools_pkey" Nat.eqb
               Nat.eqb_eq (or_introl eq_refl) db uid now s _ _ H1 He).
    + apply (exec_statement_keeps_unique schools_rel School.school_code
               "schools_school_code_key" String.eqb String.eqb_eq
               (or_intror (or_introl eq_refl)) db uid now s _ _ H2 He).
  - destruct He as (He & E1 & E2 & E3 & E4 & E5).
    constructor; rewrite ?E1, ?E2, ?E3, ?E4, ?E5; auto.
    + apply (exec_statement_keeps_unique profiles_rel Profile.id "profiles_pkey" Nat.eqb
               Nat.eqb_eq (or_introl eq_refl) db uid now s _ _ H3 He).
    + apply (exec_statement_keeps_unique profiles_rel Profile.user_id
               "profiles_user_id_key" Nat.eqb Nat.eqb_eq
               (or_intror (or_introl eq_refl)) db uid now s _ _ H4 He).
  - destruct He as (He & E1 & E2 & E3 & E4 & E5).
    constructor; rewrite ?E1, ?E2, ?E3, ?E4, ?E5; auto.
    + apply (exec_statement_keeps_unique user_roles_rel UserRole.id "user_roles_pkey" Nat.eqb
               Nat.eqb_eq (or_introl eq_refl) db uid now s _ _ H5 He).
    + apply (exec_statement_keeps_unique user_roles_rel role_key
               "user_roles_user_id_role_key" role_key_eqb role_key_eqb_eq
               (or_intror (or_introl eq_refl)) db uid now s _ _ H6 He).
  - destruct He as (He & E1 & E2 & E3 & E4 & E5).
    constructor; rewrite ?E1, ?E2, ?E3, ?E4, ?E5; auto.
    apply (exec_statement_keeps_unique scholarships_rel Scholarship.id "scholarships_pkey"
             Nat.eqb Nat.eqb_eq (or_introl eq_refl) db uid now s _ _ H7 He).
  - destruct He as (He & E1 & E2 & E3 & E4 & E5).
    constructor; rewrite ?E1, ?E2, ?E3, ?E4, ?E5; auto.
    apply (exec_statement_keeps_unique fees_rel Fee.id "fees_pkey"
             Nat.eqb Nat.eqb_eq (or_introl eq_refl) db uid now s _ _ H8 He).
  - destruct He as (He & E1 & E2 & E3 & E4 & E5).
    constructor; rewrite ?E1, ?E2, ?E3, ?E4, ?E5; auto.
    apply (exec_statement_keeps_unique notices_rel Notice.id "notices_pkey"
             Nat.eqb Nat.eqb_eq (or_introl eq_refl) db uid now s _ _ H9 He).
Qed.

Lemma accepted_requests_keep_the_constraints_witness :
  constraints_hold
    (set_notices
       [ Notice.mk 40 "SPRING24" "Exam moved" "Maths on Monday" (Some "high") 200%Z 300%Z;
         Demo.fair ]
       Demo.db).
Proof.
  apply (accepted_requests_keep_the_constraints Demo.db _ (Some 1) 300%Z
           (on_notices
              (Update (fun r => Nat.eqb (Notice.id r) 40)
                      (fun r => Notice.mk (Notice.id r) (Notice.school_code r) "Exam moved"
                                          (Notice.content r) (Notice.priority r)
                                          (Notice.created_at r) (Notice.updated_at r))))).
  - exact demo_constraints.
  - reflexivity.
Defined.

(** ** The school code, from the form to the table *)

Lemma code_char_facts c :
  Js.is_upper c || Js.is_digit c = true -> Js.is_lower c = false /\ Js.is_space c = false.
Proof.
  destruct c as [[] [] [] [] [] [] [] []]; intros H; try discriminate H; split; reflexivity.
Qed.

Lemma toUpperCase_code_chars s : code_chars s = true -> Js.toUpperCase s = s.
Proof.
  induction s as [|c s IH]; simpl; intros H; [reflexivity|].
  apply andb_true_iff in H. destruct H as [Hc Hs].
  destruct (code_char_facts c Hc) as [-> _]. now rewrite IH.
Qed.

Lemma strip_non_code_code_chars s : code_chars s = true -> Js.strip_non_code s = s.
Proof.
  induction s as [|c s IH]; simpl; intros H; [reflexivity|].
  apply andb_true_iff in H. destruct H as [Hc Hs]. now rewrite Hc, IH.
Qed.

Lemma trimEnd_code_chars s : code_chars s = true -> Js.trimEnd s = s.
Proof.
  induction s as [|c s IH]; simpl; intros H; [reflexivity|].
  apply andb_true_iff in H. destruct H as [Hc Hs].
  rewrite (IH Hs). destruct (code_char_facts c Hc) as [_ ->]. now destruct s.
Qed.

Lemma trim_code_chars s : code_chars s = true -> Js.trim s = s.
Proof.
  intros H. unfold Js.trim.
  assert (E : Js.trimStart s = s).
  { destruct s as [|c s]; [reflexivity|]. simpl in *.
    apply andb_true_iff in H. destruct H as [Hc _].
    now destruct (code_char_facts c Hc) as [_ ->]. }
  rewrite E. now apply trimEnd_code_chars.
Qed.

Lemma code_chars_strip_non_code s : code_chars (Js.strip_non_code s) = true.
Proof.
  induction s as [|c s IH]; simpl; [reflexivity|].
  destruct (Js.is_upper c || Js.is_digit c) eqn:E; [|exact IH].
  simpl. now rewrite E, IH.
Qed.

Lemma code_chars_onChange v : code_chars (CreateSchoolForm.onChange v) = true.
Proof. apply code_chars_strip_non_code. Qed.



(** What [createSchool] makes of a code that is in the form's alphabet: the
    code itself. *)
Lemma normalised_code_is_kept code :
  code_chars code = true ->
  Js.strip_non_code (Js.toUpperCase (Js.trim code)) = code.
Proof.
  intros H. now rewrite (trim_code_chars code H), (toUpperCase_code_chars code H),
    (strip_non_code_code_chars code H).
Qed.

Lemma schools_after_profile_request db uid now s :
  schools (after_request db uid now (on_profiles s)) = schools db.
Proof.
  destruct (after_request_cases db uid now (on_profiles s)) as [->|H]; [reflexivity|].
  apply exec_request_inv in H. tauto.
Qed.

(** X5.  A school that the CreateSchool form reports as created is stored
    under exactly the code the form's field shows (the field keeps what
    [onChange] made of the typed value): the row is added to [schools] with
    that code, the caller as [admin_id] and the trimmed name, and the code has
    at least four characters, all of them in A-Z or 0-9. *)
Theorem created_school_has_the_code_shown
    (new_id : uuid) (t1 t2 : timestamptz) (user : option uuid) (schoolName typed : string)
    (db db' : Database) :
  CreateSchool.handleSubmit new_id t1 t2 user schoolName (CreateSchoolForm.onChange typed) db
    = (CreateSchool.created_toast, db') ->
  exists u,
    user = Some u
    /\ schools db'
       = schools db
         ++ [School.mk new_id (Js.trim schoolName) (CreateSchoolForm.onChange typed) u t1 t1]
    /\ (4 <= String.length (CreateSchoolForm.onChange typed))%nat
    /\ code_chars (CreateSchoolForm.onChange typed) = true.
Proof.
  set (code := CreateSchoolForm.onChange typed).
  assert (Hcode : code_chars code = true) by apply code_chars_onChange.
  unfold CreateSchool.handleSubmit.
  destruct (String.length (Js.trim schoolName) <? 3)%nat; [discriminate|].
  destruct (String.length (Js.trim code) <? 4)%nat eqn:Elen; [discriminate|].
  unfold UseSchool.createSchool. destruct user as [u|]; [|discriminate].
  rewrite (normalised_code_is_kept code Hcode).
  destruct (exec_request db (Some u) t1 _) as [e|db1] eqn:E1; [discriminate|].
  intros H. injection H as <-. exists u. split; [reflexivity|].
  rewrite schools_after_profile_request.
  apply exec_request_inv in E1. destruct E1 as (E1 & _). cbn [exec_statement] in E1.
  apply insert_row_spec in E1. destruct E1 as (-> & _ & _).
  rewrite (trim_code_chars code Hcode) in *.
  repeat split; auto.
  apply Nat.ltb_ge in Elen. exact Elen.
Qed.

Lemma created_school_has_the_code_shown_witness :
  exists u,
    Some 3 = Some u
    /\ schools (snd (CreateSchool.handleSubmit 12 300%Z 301%Z (Some 3) " Valley " "val-ley 01"
                       Demo.db))
       = schools Demo.db ++ [School.mk 12 "Valley" "VALLEY01" u 300%Z 300%Z]
    /\ (4 <= String.length "VALLEY01")%nat
    /\ code_chars "VALLEY01" = true.
Proof.
  apply (created_school_has_the_code_shown 12 300%Z 301%Z (Some 3) " Valley " "val-ley 01"
           Demo.db).
  reflexivity.
Defined.

(** *** [generateCode] *)






(** ** An UPDATE that keeps the keys *)

Lemma find_ext_in {A : Type} (f g : A -> bool) (l : list A) :
  (forall x, In x l -> f x = g x) -> find f l = find g l.
Proof.
  induction l as [|a l IH]; intros H; [reflexivity|]. simpl.
  rewrite (H a (or_introl eq_refl)). destruct (g a); [reflexivity|].
  apply IH. intros x Hx. apply H. now right.
Qed.

Lemma existsb_ext_in {A : Type} (f g : A -> bool) (l : list A) :
  (forall x, In x l -> f x = g x) -> existsb f l = existsb g l.
Proof.
  induction l as [|a l IH]; intros H; [reflexivity|]. simpl.
  rewrite (H a (or_introl eq_refl)). f_equal. apply IH. intros x Hx. apply H. now right.
Qed.

Lemma existsb_of_map {A B : Type} (f : B -> bool) (h : A -> B) (l : list A) :
  existsb f (map h l) = existsb (fun x => f (h x)) l.
Proof. induction l as [|a l IH]; simpl; [reflexivity | now rewrite IH]. Qed.

Section KeptKeys.

Context {Row : Type} (R : Pg.relation Row) (db : Database) (uid : option uuid)
        (now : timestamptz) (cond : Row -> bool) (assign : Row -> Row).

Let new (r : Row) : Row := Pg.run_triggers R now (assign r).

Let g : Row -> Row := updated_row R db uid now cond assign.

(** The assignment leaves the constrained columns alone. *)
Hypothesis keys_kept :
  forall c a x, In c (Pg.rel_unique R) ->
                snd c (new a) x = snd c a x /\ snd c a (new x) = snd c a x.

Lemma collides_with_updated c a x :
  In c (Pg.rel_unique R) -> snd c (new a) (g x) = snd c a x.
Proof.
  intros Hc. unfold g, updated_row. fold (new x).
  destruct (Pg.targeted R db uid UPDATE cond x).
  - destruct (keys_kept c a (new x) Hc) as [-> _]. now destruct (keys_kept c a x Hc) as [_ ->].
  - now destruct (keys_kept c a x Hc) as [-> _].
Qed.

Lemma find_conflict_updated r done rest :
  Pg.find_conflict R (new r) (map g done ++ rest) = Pg.find_conflict R r (done ++ rest).
Proof.
  unfold Pg.find_conflict. f_equal. apply find_ext_in. intros c Hc.
  rewrite !existsb_app. f_equal.
  - rewrite existsb_of_map. apply existsb_ext_in. intros x _. now apply collides_with_updated.
  - apply existsb_ext_in. intros x _. now destruct (keys_kept c r x Hc) as [-> _].
Qed.

(** With the keys kept and every new row passing the check, the UPDATE goes
    through and rewrites each row by [updated_row]. *)
Lemma update_rows_total todo : forall done,
  no_conflicts R (done ++ todo) ->
  (forall r, In r todo -> Pg.targeted R db uid UPDATE cond r = true ->
             check_passes (Pg.rel_table R) db uid UPDATE (new r) = true) ->
  Pg.update_rows R db uid now cond assign (map g done) todo = inr (map g (done ++ todo)).
Proof.
  induction todo as [|r rest IH]; intros done Hnc Hchk; simpl.
  - now rewrite app_nil_r.
  - assert (Hnc' : no_conflicts R ((done ++ [r]) ++ rest)) by now rewrite <- app_assoc.
    assert (Hchk' : forall x, In x rest -> Pg.targeted R db uid UPDATE cond x = true ->
                              check_passes (Pg.rel_table R) db uid UPDATE (new x) = true)
      by (intros x Hx; apply Hchk; now right).
    specialize (IH (done ++ [r]) Hnc' Hchk').
    rewrite <- app_assoc in IH. simpl in IH. rewrite map_app in IH. simpl in IH.
    destruct (Pg.targeted R db uid UPDATE cond r) eqn:Ht.
    + fold (new r). rewrite (Hchk r (or_introl eq_refl) Ht). simpl.
      rewrite find_conflict_updated, (Hnc done r rest eq_refl).
      unfold g at 2 in IH. unfold updated_row in IH. rewrite Ht in IH. exact IH.
    + unfold g at 2 in IH. unfold updated_row in IH. rewrite Ht in IH. exact IH.
Qed.

Lemma update_rows_by_row rows :
  no_conflicts R rows ->
  (forall r, In r rows -> Pg.targeted R db uid UPDATE cond r = true ->
             check_passes (Pg.rel_table R) db uid UPDATE (new r) = true) ->
  Pg.update_rows R db uid now cond assign [] rows
  = inr (map (updated_row R db uid now cond assign) rows).
Proof. intros Hnc Hchk. exact (update_rows_total rows [] Hnc Hchk). Qed.

End KeptKeys.

Lemma NoDup_map_split {A K : Type} (key : A -> K) (l1 l2 : list A) (r : A) :
  NoDup (map key (l1 ++ r :: l2)) -> ~ In (key r) (map key (l1 ++ l2)).
Proof.
  rewrite !map_app. simpl. intros H. now apply NoDup_remove_2 in H.
Qed.

Lemma existsb_key_false {A : Type} (key : A -> nat) (r : A) (l : list A) :
  ~ In (key r) (map key l) -> existsb (fun x => Nat.eqb (key r) (key x)) l = false.
Proof.
  intros H. destruct (existsb _ l) eqn:E; [|reflexivity]. exfalso. apply H.
  apply existsb_exists in E. destruct E as (x & Hx & Hk). apply Nat.eqb_eq in Hk.
  rewrite Hk. now apply in_map.
Qed.

Lemma no_conflicts_notices rows :
  NoDup (map Notice.id rows) -> no_conflicts notices_rel rows.
Proof.
  intros Hnd l1 r l2 ->. unfold Pg.find_conflict. cbn [Pg.rel_unique notices_rel find snd].
  now rewrite (existsb_key_false Notice.id r _ (NoDup_map_split Notice.id l1 l2 r Hnd)).
Qed.

Lemma no_conflicts_profiles rows :
  NoDup (map Profile.id rows) -> NoDup (map Profile.user_id rows) ->
  no_conflicts profiles_rel rows.
Proof.
  intros Hid Hu l1 r l2 ->. unfold Pg.find_conflict. cbn [Pg.rel_unique profiles_rel find snd].
  rewrite (existsb_key_false Profile.id r _ (NoDup_map_split Profile.id l1 l2 r Hid)).
  now rewrite (existsb_key_false Profile.user_id r _ (NoDup_map_split Profile.user_id l1 l2 r Hu)).
Qed.

(** On the three tenant-scoped tables an UPDATE or DELETE operates on the
    rows its WHERE clause selects among those of schools the caller
    administers. *)
Lemma targeted_resource k db uid cmd cond (r : row_of k) :
  cmd = UPDATE \/ cmd = DELETE ->
  Pg.targeted (rel_of k) db uid cmd cond r
  = cond r && is_school_admin db uid (Some (school_code_of k r)).
Proof.
  intros Hcmd. unfold Pg.targeted. rewrite rel_table_of.
  change (using_passes (table_of k) db uid SELECT r) with (allow_select (table_of k) db uid r).
  rewrite resource_select.
  assert (E : using_passes (table_of k) db uid cmd r
              = is_school_admin db uid (Some (school_code_of k r))).
  { destruct Hcmd as [-> | ->]; [apply resource_update_using|].
    change (using_passes (table_of k) db uid DELETE r) with (allow_delete (table_of k) db uid r).
    apply resource_delete. }
  rewrite E. unfold member_or_admin.
  destruct (cond r), (is_school_admin db uid _), (Sql.holds _); reflexivity.
Qed.

(** ** The admin pages: adding, saving and deleting *)


Lemma nonempty_code code : code <> EmptyString -> String.eqb code EmptyString = false.
Proof. intros H. now apply String.eqb_neq. Qed.




Lemma delete_resource k db uid now id (key : row_of k -> uuid) rows :
  exec_statement (rel_of k) db uid now (Delete (fun r => Nat.eqb (key r) id)) rows
  = inr (filter (fun r => negb (Nat.eqb (key r) id
                                && is_school_admin db uid (Some (school_code_of k r)))) rows).
Proof.
  cbn [exec_statement]. unfold Pg.delete_rows. f_equal. apply filter_ext. intros r.
  now rewrite (targeted_resource k db uid DELETE _ r (or_intror eq_refl)).
Qed.

(** X8.  Deleting through an admin page never fails: the request removes the
    rows with the given id that belong to a school the caller administers,
    and leaves every other row, the rows of other schools with it, where it
    is.  A caller who administers no such row gets the success answer and an
    unchanged table. *)
Theorem deleting_removes_own_rows_only
    (db : Database) (user : option uuid) (id : uuid) (now : timestamptz) :
  AdminScholarships.handleDelete now user id db
  = inr (set_scholarships
           (filter (fun r => negb (Nat.eqb (Scholarship.id r) id
                                   && is_school_admin db user (Some (Scholarship.school_code r))))
                   (scholarships db)) db)
  /\ AdminFees.handleDelete now user id db
     = inr (set_fees
              (filter (fun r => negb (Nat.eqb (Fee.id r) id
                                      && is_school_admin db user (Some (Fee.school_code r))))
                      (fees db)) db)
  /\ AdminNotices.handleDelete now user id db
     = inr (set_notices
              (filter (fun r => negb (Nat.eqb (Notice.id r) id
                                      && is_school_admin db user (Some (Notice.school_code r))))
                      (notices db)) db).
Proof.
  repeat split.
  - unfold AdminScholarships.handleDelete, exec_request.
    now rewrite (delete_resource res_scholarships db user now id Scholarship.id).
  - unfold AdminFees.handleDelete, exec_request.
    now rewrite (delete_resource res_fees db user now id Fee.id).
  - unfold AdminNotices.handleDelete, exec_request.
    now rewrite (delete_resource res_notices db user now id Notice.id).
Qed.

(** Saving an edited notice. *)
Lemma notice_edit db user (code title content priority : text) id new_id now :
  code <> EmptyString ->
  NoDup (map Notice.id (notices db)) ->
  is_school_admin db user (Some code) = true ->
  AdminNotices.handleSubmit new_id now user (Some code) (title, content, priority) (Some id) db
  = inr (set_notices
           (map (fun r =>
                   if Nat.eqb (Notice.id r) id
                      && is_school_admin db user (Some (Notice.school_code r))
                   then Notice.mk (Notice.id r) code title content (Some priority)
                                  (Notice.created_at r) now
                   else r)
                (notices db)) db).
Proof.
  intros Hcode Hnd Hadm. apply nonempty_code in Hcode.
  unfold AdminNotices.handleSubmit. rewrite Hcode. unfold exec_request. cbn [exec_statement].
  rewrite (update_rows_by_row notices_rel db user now).
  - cbn [Pg.store]. f_equal. f_equal. apply map_ext. intros r. unfold updated_row.
    now rewrite (targeted_resource res_notices db user UPDATE _ r (or_introl eq_refl)).
  - intros c a x [<-|[]]. simpl. auto.
  - now apply no_conflicts_notices.
  - intros r _ _.
    change (check_passes (table_of res_notices) db user UPDATE
              (Pg.run_triggers (rel_of res_notices) now
                 (AdminNotices.updated (AdminNotices.mkData code title content priority) r))
            = true).
    rewrite resource_update_check. exact Hadm.
Qed.

(** X9.  Saving an edited notice, for a caller who administers the page's
    school, on a table whose ids are distinct: the rows with the edited id
    that belong to a school the caller administers take the form's title,
    content and priority and the page's school code, keep their id and
    [created_at], and get the request's time as [updated_at]; every other row
    stays as it is.  The request succeeds also when it changes nothing: if the
    caller administers the school of no row with that id, the answer is the
    success answer and the database is as before. *)
Theorem saving_a_notice_stores_the_form
    (db : Database) (user : option uuid) (code title content priority : text)
    (id new_id : uuid) (now : timestamptz) :
  code <> EmptyString ->
  NoDup (map Notice.id (notices db)) ->
  is_school_admin db user (Some code) = true ->
  AdminNotices.handleSubmit new_id now user (Some code) (title, content, priority) (Some id) db
  = inr (set_notices
           (map (fun r =>
                   if Nat.eqb (Notice.id r) id
                      && is_school_admin db user (Some (Notice.school_code r))
                   then Notice.mk (Notice.id r) code title content (Some priority)
                                  (Notice.created_at r) now
                   else r)
                (notices db)) db)
  /\ ((forall r, In r (notices db) -> Notice.id r = id ->
                 is_school_admin db user (Some (Notice.school_code r)) = false) ->
      AdminNotices.handleSubmit new_id now user (Some code) (title, content, priority)
        (Some id) db
      = inr db).
Proof.
  intros Hcode Hnd Hadm.
  pose proof (notice_edit db user code title content priority id new_id now Hcode Hnd Hadm)
    as E.
  split; [exact E|].
  intros Hforeign. rewrite E. f_equal.
  transitivity (set_notices (notices db) db); [|apply set_notices_same].
  f_equal. transitivity (map (fun r => r) (notices db)); [|apply map_id].
  apply map_ext_in. intros r Hr.
  destruct (Nat.eqb_spec (Notice.id r) id) as [Hid|]; [|reflexivity].
  now rewrite (Hforeign r Hr Hid).
Qed.

Lemma saving_a_notice_stores_the_form_witness :
  AdminNotices.handleSubmit 0 300%Z (Some 1) (Some "SPRING24") ("Exam moved", "Tuesday", "high")
    (Some 40) Demo.db
  = inr (set_notices
           [ Notice.mk 40 "SPRING24" "Exam moved" "Tuesday" (Some "high") 200%Z 300%Z;
             Demo.fair ] Demo.db).
Proof.
  apply (proj1 (saving_a_notice_stores_the_form Demo.db (Some 1) "SPRING24" "Exam moved"
                  "Tuesday" "high" 40 0 300%Z ltac:(discriminate)
                  (notices_pkey _ demo_constraints) eq_refl)).
Defined.

(** X10.  Opening the edit dialog on a notice and saving it as it stands: the
    notice keeps its id, school, title, content and [created_at]; its
    priority becomes 'normal' where it was NULL or empty and stays otherwise;
    [updated_at] becomes the request's time.  No other notice changes. *)
Theorem reopening_a_notice_changes_nothing_but_the_stamp
    (db : Database) (user : option uuid) (n : Notice.t) (new_id : uuid) (now : timestamptz) :
  In n (notices db) ->
  NoDup (map Notice.id (notices db)) ->
  Notice.school_code n <> EmptyString ->
  is_school_admin db user (Some (Notice.school_code n)) = true ->
  AdminNotices.handleSubmit new_id now user (Some (Notice.school_code n))
    (fst (AdminNoticesDialog.openEditDialog n)) (snd (AdminNoticesDialog.openEditDialog n)) db
  = inr (set_notices
           (map (fun r =>
                   if Nat.eqb (Notice.id r) (Notice.id n)
                   then Notice.mk (Notice.id n) (Notice.school_code n) (Notice.title n)
                                  (Notice.content n)
                                  (Some (match Notice.priority n with
                                         | Some p => if String.eqb p EmptyString then "normal" else p
                                         | None => "normal"
                                         end))
                                  (Notice.created_at n) now
                   else r)
                (notices db)) db).
Proof.
  intros Hin Hnd Hcode Hadm. unfold AdminNoticesDialog.openEditDialog. cbn [fst snd].
  rewrite (notice_edit db user _ _ _ _ _ _ _ Hcode Hnd Hadm).
  f_equal. f_equal. apply map_ext_in. intros r Hr.
  destruct (Nat.eqb (Notice.id r) (Notice.id n)) eqn:E; [|reflexivity].
  apply Nat.eqb_eq in E.
  assert (r = n) as -> by exact (NoDup_map_eq Notice.id (notices db) r n Hnd Hr Hin E).
  now rewrite Hadm.
Qed.

Lemma reopening_a_notice_changes_nothing_but_the_stamp_witness :
  AdminNotices.handleSubmit 0 300%Z (Some 1) (Some "SPRING24")
    (fst (AdminNoticesDialog.openEditDialog Demo.exam))
    (snd (AdminNoticesDialog.openEditDialog Demo.exam)) Demo.db
  = inr (set_notices
           [ Notice.mk 40 "SPRING24" "Exam" "Maths on Monday" (Some "high") 200%Z 300%Z;
             Demo.fair ] Demo.db).
Proof.
  apply (reopening_a_notice_changes_nothing_but_the_stamp Demo.db (Some 1) Demo.exam 0 300%Z).
  - now left.
  - exact (notices_pkey _ demo_constraints).
  - discriminate.
  - reflexivity.
Defined.

(** ** [useSchool]: finding the school, and creating it *)

Lemma select_schools db user cond rows :
  Pg.select_rows schools_rel db user cond rows = filter cond rows.
Proof. reflexivity. Qed.

Lemma filter_the_one {A : Type} (f : A -> bool) (l : list A) (s : A) :
  In s l -> f s = true -> (forall x, In x l -> f x = true -> x = s) -> NoDup l ->
  filter f l = [s].
Proof.
  induction l as [|a l IH]; simpl; intros Hin Hs Huniq Hnd; [contradiction|].
  inversion Hnd as [|? ? Ha Hnd']; subst.
  destruct Hin as [->|Hin].
  - rewrite Hs. f_equal. apply filter_none. intros x Hx.
    destruct (f x) eqn:E; [|reflexivity].
    exfalso. apply Ha. now rewrite <- (Huniq x (or_intror Hx) E).
  - destruct (f a) eqn:E.
    + exfalso. apply Ha. now rewrite (Huniq a (or_introl eq_refl) E).
    + apply IH; auto.
Qed.

Lemma NoDup_of_map {A K : Type} (key : A -> K) (l : list A) : NoDup (map key l) -> NoDup l.
Proof.
  induction l as [|a l IH]; simpl; intros H; [constructor|].
  inversion H as [|? ? Ha Hnd]; subst. constructor; [|auto].
  intros Hin. apply Ha. now apply in_map.
Qed.

Lemma single_none {A : Type} (l : list A) : List.length l <> 1%nat -> Js.single l = None.
Proof. destruct l as [|a [|b l]]; simpl; intros H; try reflexivity. now elim H. Qed.

(** X11.  What [fetchSchool] finds, school codes being unique.  A user who
    administers exactly one school gets that school, whatever the profile
    says.  A user who administers none, or more than one, gets the school
    whose code the profile carries when there is one, and keeps the state the
    hook had when there is none (or when the profile has no code). *)
Theorem fetchSchool_finds
    (db : Database) (u : uuid) (profile_school_code : option text) (state : option School.t) :
  unique_school_codes db ->
  (forall s, In s (schools db) -> School.admin_id s = u ->
             (forall x, In x (schools db) -> School.admin_id x = u -> x = s) ->
             fetchSchool db (Some u) profile_school_code state = Some s)
  /\ (List.length (filter (fun s => Nat.eqb (School.admin_id s) u) (schools db)) <> 1%nat ->
      (forall s code, profile_school_code = Some code -> code <> EmptyString ->
                      In s (schools db) -> School.school_code s = code ->
                      fetchSchool db (Some u) profile_school_code state = Some s)
      /\ ((forall code, profile_school_code = Some code ->
                        forall x, In x (schools db) -> School.school_code x <> code) ->
          fetchSchool db (Some u) profile_school_code state = state)).
Proof.
  intros Hu. pose proof (NoDup_of_map _ _ Hu) as Hnd. split.
  - intros s Hin Hadm Huniq. unfold fetchSchool. rewrite select_schools.
    rewrite (filter_the_one _ (schools db) s Hin); try assumption.
    + reflexivity.
    + now apply Nat.eqb_eq.
    + intros x Hx Hxa. apply Huniq; [exact Hx | now apply Nat.eqb_eq].
  - intros Hnone.
    assert (E : Js.single (Pg.select_rows schools_rel db (Some u)
                             (fun s => Nat.eqb (School.admin_id s) u) (schools db)) = None).
    { rewrite select_schools. now apply single_none. }
    split.
    + intros s code -> Hcode Hin Hs. unfold fetchSchool. rewrite E.
      rewrite (nonempty_code code Hcode), select_schools.
      rewrite (filter_the_one _ (schools db) s Hin); try assumption.
      * reflexivity.
      * now apply String.eqb_eq.
      * intros x Hx Hxc. apply String.eqb_eq in Hxc.
        apply (NoDup_map_eq School.school_code (schools db) x s Hu Hx Hin). congruence.
    + intros Hno. unfold fetchSchool. rewrite E.
      destruct profile_school_code as [code|]; [|reflexivity].
      destruct (String.eqb code EmptyString); [reflexivity|].
      rewrite select_schools, filter_none; [reflexivity|].
      intros x Hx. apply String.eqb_neq. now apply (Hno code eq_refl).
Qed.

Lemma fetchSchool_finds_witness :
  fetchSchool Demo.db (Some 1) (Some "OAKHILL1") None = Some Demo.springfield.
Proof.
  apply (proj1 (fetchSchool_finds Demo.db 1 (Some "OAKHILL1") None demo_unique_codes)).
  - now left.
  - reflexivity.
  - intros x [<-|[<-|[]]] H; [reflexivity | discriminate H].
Defined.

(** X12.  The school [createSchool] reports as created is the one
    [fetchSchool] finds afterwards for its creator, if the creator administered
    no school before: the row has the new id, the name as given, the code
    normalised, the creator as admin and both timestamps at the time of the
    insert; and the database holds the creator for the admin of that code. *)
Theorem created_school_is_found
    (db db' : Database) (u new_id : uuid) (t1 t2 : timestamptz) (name schoolCode : string)
    (profile_school_code : option text) (state : option School.t) :
  (forall s, In s (schools db) -> School.admin_id s <> u) ->
  UseSchool.createSchool new_id t1 t2 (Some u) name schoolCode db = (None, db') ->
  let code := Js.strip_non_code (Js.toUpperCase schoolCode) in
  fetchSchool db' (Some u) profile_school_code state
    = Some (School.mk new_id name code u t1 t1)
  /\ is_school_admin db' (Some u) (Some code) = true.
Proof.
  intros Hnone H code. unfold UseSchool.createSchool in H. fold code in H.
  destruct (exec_request db (Some u) t1 _) as [e|db1] eqn:E1; [discriminate|].
  injection H as <-.
  apply exec_request_inv in E1. destruct E1 as (E1 & _). cbn [exec_statement] in E1.
  apply insert_row_spec in E1. destruct E1 as (E1 & _ & _).
  assert (Hs : schools (after_request db1 (Some u) t2
                          (on_profiles (Update (fun p => Nat.eqb (Profile.user_id p) u)
                                               (UseSchool.set_profile_school_code code))))
               = schools db ++ [School.mk new_id name code u t1 t1]).
  { rewrite schools_after_profile_request. exact E1. }
  split.
  - unfold fetchSchool. rewrite select_schools, Hs, filter_app.
    rewrite (filter_none _ (schools db)).
    + simpl. now rewrite Nat.eqb_refl.
    + intros x Hx. apply Nat.eqb_neq. now apply Hnone.
  - apply is_school_admin_iff. exists (School.mk new_id name code u t1 t1).
    rewrite Hs. repeat split. apply in_or_app. right. now left.
Qed.

Lemma created_school_is_found_witness :
  fetchSchool
    (snd (UseSchool.createSchool 12 300%Z 301%Z (Some 5) "Valley" "valley-01" demo_newcomer))
    (Some 5) None None
  = Some (School.mk 12 "Valley" "VALLEY01" 5 300%Z 300%Z).
Proof.
  apply (created_school_is_found demo_newcomer _ 5 12 300%Z 301%Z "Valley" "valley-01" None None).
  - intros s [<-|[<-|[]]]; discriminate.
  - reflexivity.
Defined.

Lemma targeted_own_profile db (u : uuid) (p : Profile.t) :
  Pg.targeted profiles_rel db (Some u) UPDATE (fun p => Nat.eqb (Profile.user_id p) u) p
  = Nat.eqb (Profile.user_id p) u.
Proof.
  unfold Pg.targeted.
  change (using_passes (Pg.rel_table profiles_rel) db (Some u) SELECT p)
    with (using_passes profiles_table db (Some u) UPDATE p).
  change (Pg.rel_table profiles_rel) with profiles_table.
  rewrite profiles_update_using.
  destruct (Nat.eqb_spec (Profile.user_id p) u) as [->|Hne]; [|reflexivity].
  simpl. replace (Sql.holds (Sql.eq_uuid (Some u) (Some u))) with true; [reflexivity|].
  symmetry. apply SqlFacts.holds_eq_uuid. eauto.
Qed.

(** Setting one's own school code, on a table that satisfies its constraints. *)
Lemma own_school_code_update db (u : uuid) now code :
  NoDup (map Profile.id (profiles db)) ->
  NoDup (map Profile.user_id (profiles db)) ->
  exec_request db (Some u) now
    (on_profiles (Update (fun p => Nat.eqb (Profile.user_id p) u)
                         (UseSchool.set_profile_school_code code)))
  = inr (set_profiles
           (map (fun p =>
                   if Nat.eqb (Profile.user_id p) u
                   then Profile.mk (Profile.id p) (Profile.user_id p) (Profile.full_name p)
                                   (Some code) (Profile.created_at p) now
                   else p)
                (profiles db)) db).
Proof.
  intros Hid Hu. unfold exec_request. cbn [exec_statement].
  rewrite (update_rows_by_row profiles_rel db (Some u) now).
  - cbn [Pg.store]. f_equal. f_equal. apply map_ext. intros p. unfold updated_row.
    now rewrite targeted_own_profile.
  - intros c a x [<-|[<-|[]]]; simpl; auto.
  - now apply no_conflicts_profiles.
  - intros p _ Ht. rewrite targeted_own_profile in Ht. apply Nat.eqb_eq in Ht.
    change (Pg.rel_table profiles_rel) with profiles_table.
    rewrite profiles_update_check. simpl. rewrite Ht.
    apply SqlFacts.holds_eq_uuid. eauto.
Qed.

Lemma tenant_lookup_after_own_update rows (u : uuid) code now :
  (exists p, In p rows /\ Profile.user_id p = u) ->
  tenant_lookup
    (map (fun p =>
            if Nat.eqb (Profile.user_id p) u
            then Profile.mk (Profile.id p) (Profile.user_id p) (Profile.full_name p)
                            (Some code) (Profile.created_at p) now
            else p) rows) (Some u)
  = Some code.
Proof.
  unfold tenant_lookup. induction rows as [|a rows IH]; intros (p & Hin & Hp); [contradiction|].
  cbn [map filter].
  destruct (Nat.eqb_spec (Profile.user_id a) u) as [Ea|Ea].
  - cbn [Profile.user_id]. rewrite Ea.
    replace (Sql.holds (Sql.eq_uuid (Some u) (Some u))) with true; [reflexivity|].
    symmetry. apply SqlFacts.holds_eq_uuid. eauto.
  - rewrite (holds_eq_uuid_other _ _ Ea). apply IH.
    destruct Hin as [->|Hin]; [contradiction|]. eauto.
Qed.

(** X13.  After [createSchool] has reported a school as created, its creator,
    if they have a profile (in a table that satisfies its constraints),
    belongs to the new school: the profile carries the normalised code,
    [updated_at] is the time of the update, no other profile has changed, and
    [get_user_school_code] returns the code. *)
Theorem creator_joins_the_created_school
    (db db' : Database) (u new_id : uuid) (t1 t2 : timestamptz) (name schoolCode : string) :
  NoDup (map Profile.id (profiles db)) ->
  NoDup (map Profile.user_id (profiles db)) ->
  (exists p, In p (profiles db) /\ Profile.user_id p = u) ->
  UseSchool.createSchool new_id t1 t2 (Some u) name schoolCode db = (None, db') ->
  let code := Js.strip_non_code (Js.toUpperCase schoolCode) in
  profiles db'
    = map (fun p =>
             if Nat.eqb (Profile.user_id p) u
             then Profile.mk (Profile.id p) (Profile.user_id p) (Profile.full_name p)
                             (Some code) (Profile.created_at p) t2
             else p)
          (profiles db)
  /\ get_user_school_code db' (Some u) = Some code.
Proof.
  intros Hid Hu Hp H code. unfold UseSchool.createSchool in H. fold code in H.
  destruct (exec_request db (Some u) t1 _) as [e|db1] eqn:E1; [discriminate|].
  injection H as <-.
  apply exec_request_inv in E1. destruct E1 as (_ & E1 & _).
  unfold after_request. rewrite own_school_code_update by (rewrite E1; assumption).
  rewrite E1. cbn [profiles set_profiles]. split; [reflexivity|].
  rewrite get_user_school_code_lookup. cbn [profiles set_profiles].
  now apply tenant_lookup_after_own_update.
Qed.

Lemma creator_joins_the_created_school_witness :
  get_user_school_code
    (snd (UseSchool.createSchool 12 300%Z 301%Z (Some 5) "Valley" "valley-01" demo_newcomer))
    (Some 5)
  = Some "VALLEY01".
Proof.
  apply (creator_joins_the_created_school demo_newcomer _ 5 12 300%Z 301%Z "Valley" "valley-01").
  - simpl. repeat constructor; simpl; intuition discriminate.
  - simpl. repeat constructor; simpl; intuition discriminate.
  - exists (Profile.mk 24 5 "Eve" None 140%Z 140%Z). split; [|reflexivity].
    simpl. auto 10.
  - reflexivity.
Defined.

(** ** The student pages: what they list *)

Section Ordering.

Context {Row : Type} (before : Row -> Row -> bool).

Lemma place_permutation x rows : Permutation (Query.place before x rows) (x :: rows).
Proof.
  induction rows as [|y rest IH]; simpl; [reflexivity|].
  destruct (before x y); [reflexivity|].
  rewrite IH. apply perm_swap.
Qed.

Lemma order_permutation rows : Permutation (Query.order before rows) rows.
Proof.
  induction rows as [|x rest IH]; simpl; [reflexivity|].
  rewrite place_permutation. now constructor.
Qed.

Lemma order_in x rows : In x (Query.order before rows) <-> In x rows.
Proof.
  split; apply Permutation_in; [|symmetry]; apply order_permutation.
Qed.

Hypothesis total : forall a b, before a b = false -> before b a = true.
Hypothesis transitive : forall a b c, before a b = true -> before b c = true -> before a c = true.

Lemma place_sorted x rows :
  StronglySorted (fun a b => before a b = true) rows ->
  StronglySorted (fun a b => before a b = true) (Query.place before x rows).
Proof.
  induction rows as [|y rest IH]; simpl; intros Hs.
  - repeat constructor.
  - inversion Hs as [|? ? Hrest Hy]; subst.
    destruct (before x y) eqn:E.
    + constructor; [exact Hs|]. constructor; [exact E|].
      rewrite Forall_forall in *. intros z Hz. eapply transitive; [exact E | now apply Hy].
    + constructor; [now apply IH|].
      rewrite Forall_forall in *. intros z Hz.
      apply (Permutation_in _ (place_permutation x rest)) in Hz.
      destruct Hz as [<-|Hz]; [now apply total | now apply Hy].
Qed.

Lemma order_sorted rows :
  StronglySorted (fun a b => before a b = true) (Query.order before rows).
Proof.
  induction rows as [|x rest IH]; simpl; [constructor | now apply place_sorted].
Qed.

End Ordering.


Lemma StronglySorted_impl {A : Type} (P Q : A -> A -> Prop) (l : list A) :
  (forall a b, P a b -> Q a b) -> StronglySorted P l -> StronglySorted Q l.
Proof.
  intros H. induction 1 as [|a l Hs IH Ha]; constructor; [exact IH|].
  eapply Forall_impl; [|exact Ha]. intros b. apply H.
Qed.

Lemma descending_sorted (rows : list Notice.t) :
  newest_first
    (Query.order (fun a b => Query.descending (Notice.created_at a) (Notice.created_at b)) rows).
Proof.
  unfold newest_first.
  eapply StronglySorted_impl; [|apply order_sorted].
  - intros a b H. unfold Query.descending in H. now apply Z.leb_le.
  - intros a b H. unfold Query.descending in *. apply Z.leb_le. apply Z.leb_gt in H. lia.
  - intros a b c H1 H2. unfold Query.descending in *.
    apply Z.leb_le. apply Z.leb_le in H1, H2. lia.
Qed.


Lemma select_resource_of_member k db user code (rows : list (row_of k)) :
  member_or_admin db user code = true ->
  Pg.select_rows (rel_of k) db user (fun r => String.eqb (school_code_of k r) code) rows
  = filter (fun r => String.eqb (school_code_of k r) code) rows.
Proof.
  intros Hm. unfold Pg.select_rows. apply filter_ext. intros r. rewrite rel_table_of.
  change (using_passes (table_of k) db user SELECT r) with (allow_select (table_of k) db user r).
  rewrite resource_select.
  destruct (String.eqb_spec (school_code_of k r) code) as [->|]; [|apply andb_false_r].
  now rewrite Hm.
Qed.

Lemma select_notices db user cond rows :
  Pg.select_rows notices_rel db user cond rows
  = filter (fun r => member_or_admin db user (Notice.school_code r) && cond r) rows.
Proof.
  unfold Pg.select_rows. apply filter_ext. intros r.
  change (using_passes (Pg.rel_table notices_rel) db user SELECT r)
    with (allow_select notices_table db user r).
  now rewrite notices_select.
Qed.

Lemma select_notices_of_member db user code rows :
  member_or_admin db user code = true ->
  Pg.select_rows notices_rel db user (fun r => String.eqb (Notice.school_code r) code) rows
  = filter (fun r => String.eqb (Notice.school_code r) code) rows.
Proof.
  intros Hm. rewrite select_notices. apply filter_ext. intros r.
  destruct (String.eqb_spec (Notice.school_code r) code) as [->|]; [|apply andb_false_r].
  now rewrite Hm.
Qed.

Lemma select_notices_of_stranger db user code rows :
  member_or_admin db user code = false ->
  Pg.select_rows notices_rel db user (fun r => String.eqb (Notice.school_code r) code) rows
  = [].
Proof.
  intros Hm. rewrite select_notices. apply filter_none. intros r _.
  destruct (String.eqb_spec (Notice.school_code r) code) as [->|]; [|apply andb_false_r].
  now rewrite Hm.
Qed.

(** X14.  The Notices page of a user whose profile carries school code [code]
    (or who administers that school) lists exactly the notices of that
    school, every one of them once, newest first.  Asked with a code the user
    neither carries nor administers, the query returns nothing. *)
Theorem notices_page_lists_the_school
    (db : Database) (user : option uuid) (code : text) (state : list Notice.t) :
  code <> EmptyString ->
  (member_or_admin db user code = true ->
   Permutation (Notices.fetchNotices db user (Some code) state)
               (filter (fun r => String.eqb (Notice.school_code r) code) (notices db))
   /\ newest_first (Notices.fetchNotices db user (Some code) state))
  /\ (member_or_admin db user code = false ->
      Notices.fetchNotices db user (Some code) state = []).
Proof.
  intros Hcode. apply nonempty_code in Hcode. unfold Notices.fetchNotices. rewrite Hcode.
  split; intros Hm.
  - split; [|apply descending_sorted].
    rewrite order_permutation. now rewrite select_notices_of_member.
  - now rewrite select_notices_of_stranger.
Qed.

Lemma notices_page_lists_the_school_witness :
  Permutation (Notices.fetchNotices Demo.db (Some 2) (Some "SPRING24") [])
              (filter (fun r => String.eqb (Notice.school_code r) "SPRING24") (notices Demo.db)).
Proof.
  apply (proj1 (notices_page_lists_the_school Demo.db (Some 2) "SPRING24" []
                  ltac:(discriminate))).
  reflexivity.
Defined.

(** X15.  A notice published through the admin page is on the Notices page of
    every user who belongs to the school (or administers it) the next time
    the page fetches, and on the page of no one else, whatever code they ask
    with. *)
Theorem published_notice_reaches_the_school
    (db db' : Database) (admin_user : option uuid) (code title content priority : text)
    (new_id : uuid) (now : timestamptz) :
  code <> EmptyString ->
  AdminNotices.handleSubmit new_id now admin_user (Some code) (title, content, priority) None db
    = inr db' ->
  let published := Notice.mk new_id code title content (Some priority) now now in
  forall reader : option uuid,
    (member_or_admin db' reader code = true ->
     forall state, In published (Notices.fetchNotices db' reader (Some code) state))
    /\ (member_or_admin db' reader code = false ->
        forall asked, ~ In published (Notices.fetchNotices db' reader asked [])).
Proof.
  intros Hcode H published reader.
  pose proof (nonempty_code code Hcode) as Hc.
  unfold AdminNotices.handleSubmit in H. rewrite Hc in H.
  apply exec_request_inv in H. destruct H as (H & _). cbn [exec_statement] in H.
  apply insert_row_spec in H. destruct H as (Hrows & _ & _).
  change (AdminNotices.inserted new_id now (AdminNotices.mkData code title content priority))
    with published in Hrows.
  split.
  - intros Hm state. unfold Notices.fetchNotices. rewrite Hc.
    apply order_in. rewrite (select_notices_of_member db' reader code _ Hm).
    apply filter_In. split.
    + rewrite Hrows. apply in_or_app. right. now left.
    + apply String.eqb_refl.
  - intros Hm asked Hin. unfold Notices.fetchNotices in Hin.
    destruct asked as [c|]; [|contradiction].
    destruct (String.eqb c EmptyString); [contradiction|].
    apply order_in in Hin. rewrite select_notices in Hin. apply filter_In in Hin.
    destruct Hin as [_ Hin]. cbn [published Notice.school_code] in Hin. now rewrite Hm in Hin.
Qed.

Lemma published_notice_reaches_the_school_witness :
  In (Notice.mk 42 "SPRING24" "Trip" "To the lake" (Some "low") 300%Z 300%Z)
     (Notices.fetchNotices
        (set_notices
           (notices Demo.db
            ++ [Notice.mk 42 "SPRING24" "Trip" "To the lake" (Some "low") 300%Z 300%Z])
           Demo.db)
        (Some 2) (Some "SPRING24") []).
Proof.
  apply (proj1 (published_notice_reaches_the_school Demo.db _ (Some 1) "SPRING24" "Trip"
                  "To the lake" "low" 42 300%Z ltac:(discriminate) eq_refl (Some 2))).
  reflexivity.
Defined.



Lemma StronglySorted_split {A : Type} (R : A -> A -> Prop) (l1 l2 : list A) :
  StronglySorted R (l1 ++ l2) -> forall a b, In a l1 -> In b l2 -> R a b.
Proof.
  induction l1 as [|x l1 IH]; simpl; intros Hs a b Ha Hb; [contradiction|].
  inversion Hs as [|? ? Hs' Hx]; subst. destruct Ha as [->|Ha].
  - rewrite Forall_forall in Hx. apply Hx. apply in_or_app. now right.
  - now apply IH.
Qed.

Lemma StronglySorted_prefix {A : Type} (R : A -> A -> Prop) (l1 l2 : list A) :
  StronglySorted R (l1 ++ l2) -> StronglySorted R l1.
Proof.
  induction l1 as [|x l1 IH]; simpl; intros Hs; [constructor|].
  inversion Hs as [|? ? Hs' Hx]; subst. constructor; [now apply IH|].
  rewrite Forall_forall in *. intros y Hy. apply Hx. apply in_or_app. now left.
Qed.

(** X17.  The dashboard of a user who belongs to the school with code [code]
    (or administers it): the two counts are the numbers of scholarships and
    of notices of the school; the recent notices are three of them (all of them when there are
    fewer), newest first, and none of the school's notices left out is newer
    than one shown. *)
Theorem dashboard_shows_the_newest_notices
    (db : Database) (user : option uuid) (code : text)
    (state : Dashboard.Stats * list Notice.t) :
  code <> EmptyString ->
  member_or_admin db user code = true ->
  let of_school := filter (fun r => String.eqb (Notice.school_code r) code) (notices db) in
  let stats := fst (Dashboard.fetchStats db user (Some code) state) in
  let recent := snd (Dashboard.fetchStats db user (Some code) state) in
  Dashboard.n_scholarships stats
    = List.length (filter (fun r => String.eqb (Scholarship.school_code r) code)
                          (scholarships db))
  /\ Dashboard.n_notices stats = List.length of_school
  /\ List.length recent = Nat.min 3 (List.length of_school)
  /\ newest_first recent
  /\ exists left_out,
       Permutation (recent ++ left_out) of_school
       /\ forall shown older,
            In shown recent -> In older left_out ->
            (Notice.created_at older <= Notice.created_at shown)%Z.
Proof.
  intros Hcode Hm of_school stats recent. apply nonempty_code in Hcode.
  unfold stats, recent, Dashboard.fetchStats. rewrite Hcode.
  cbn [fst snd Dashboard.n_notices Dashboard.n_scholarships]. unfold Query.limit.
  rewrite (select_notices_of_member db user code _ Hm). fold of_school.
  split; [now rewrite (select_resource_of_member res_scholarships db user code _ Hm)|].
  set (sorted := Query.order _ of_school).
  assert (Hperm : Permutation sorted of_school) by apply order_permutation.
  pose proof (descending_sorted of_school) as Hsorted. fold sorted in Hsorted.
  unfold newest_first in *. rewrite <- (firstn_skipn 3 sorted) in Hsorted.
  split; [reflexivity|]. split; [|split].
  - rewrite length_firstn. now rewrite (Permutation_length Hperm).
  - exact (StronglySorted_prefix _ _ _ Hsorted).
  - exists (skipn 3 sorted). split.
    + now rewrite firstn_skipn.
    + intros shown older Hs Ho. exact (StronglySorted_split _ _ _ Hsorted shown older Hs Ho).
Qed.

Lemma dashboard_shows_the_newest_notices_witness :
  Dashboard.n_scholarships
    (fst (Dashboard.fetchStats Demo.db (Some 2) (Some "SPRING24") (Dashboard.mkStats 0 0, [])))
  = 1%nat.
Proof.
  apply (dashboard_shows_the_newest_notices Demo.db (Some 2) "SPRING24"
           (Dashboard.mkStats 0 0, []) ltac:(discriminate) eq_refl).
Defined.

(** ** Dates on the student pages *)

Lemma quotient_floor a b : (0 < b)%Z -> Qfloor (JsDate.quotient a b) = (a / b)%Z.
Proof.
  intros Hb. destruct b as [|p|p]; try lia.
  unfold JsDate.quotient, Qdiv, Qinv, Qmult, Qfloor, inject_Z. simpl.
  now rewrite Z.mul_1_r.
Qed.


Lemma quotient_lt a b c : (0 < b)%Z -> JsDate.lt (JsDate.quotient a b) c = (a <? c * b)%Z.
Proof.
  intros Hb. destruct b as [|p|p]; try lia.
  unfold JsDate.lt, JsDate.quotient, Qdiv, Qinv, Qmult, Qle_bool, inject_Z. simpl.
  rewrite !Z.mul_1_r. rewrite Z.ltb_antisym. reflexivity.
Qed.




(** X19.  The age label of a notice, by the milliseconds between the notice
    and now: 'Just now' under one hour (and for a notice stamped in the
    future), 'N hours ago' with N the whole hours, from 1 to 23, under a day,
    'Yesterday' from 24 hours to under 48 (whatever the calendar day), the
    date from 48 hours on. *)
Theorem age_label_of_a_notice (now date : Z) :
  (Notices.formatDate now date = Notices.just_now <-> (now - date < 3600000)%Z)
  /\ (forall hours,
         Notices.formatDate now date = Notices.hours_ago hours
         <-> (3600000 <= now - date < 86400000)%Z /\ hours = ((now - date) / 3600000)%Z)
  /\ (forall hours,
         Notices.formatDate now date = Notices.hours_ago hours -> (1 <= hours <= 23)%Z)
  /\ (Notices.formatDate now date = Notices.yesterday
      <-> (86400000 <= now - date < 172800000)%Z)
  /\ (Notices.formatDate now date = Notices.on_date <-> (172800000 <= now - date)%Z).
Proof.
  unfold Notices.formatDate.
  rewrite !quotient_lt by lia. rewrite quotient_floor by lia.
  change (1000 * 60 * 60)%Z with 3600000%Z.
  change (1 * 3600000)%Z with 3600000%Z.
  change (24 * 3600000)%Z with 86400000%Z.
  change (48 * 3600000)%Z with 172800000%Z.
  set (diff := (now - date)%Z).
  assert (Hh : (3600000 <= diff < 86400000)%Z -> (1 <= diff / 3600000 <= 23)%Z).
  { intros [H1 H2]. split.
    - apply Z.div_le_lower_bound; lia.
    - apply Z.lt_succ_r. apply Z.div_lt_upper_bound; lia. }
  destruct (diff <? 3600000)%Z eqn:E1; [apply Z.ltb_lt in E1 | apply Z.ltb_ge in E1].
  { split; [|split; [|split; [|split]]].
    - split; [intros _; exact E1 | reflexivity].
    - intros hours. split; [discriminate | intros [Hb _]; lia].
    - intros hours Hl. discriminate Hl.
    - split; [discriminate | lia].
    - split; [discriminate | lia]. }
  destruct (diff <? 86400000)%Z eqn:E2; [apply Z.ltb_lt in E2 | apply Z.ltb_ge in E2].
  { split; [|split; [|split; [|split]]].
    - split; [discriminate | lia].
    - intros hours. split.
      + intros Hl. injection Hl as <-. split; [lia | reflexivity].
      + intros [_ ->]. reflexivity.
    - intros hours Hl. injection Hl as <-. apply Hh. lia.
    - split; [discriminate | lia].
    - split; [discriminate | lia]. }
  destruct (diff <? 172800000)%Z eqn:E3; [apply Z.ltb_lt in E3 | apply Z.ltb_ge in E3].
  { split; [|split; [|split; [|split]]].
    - split; [discriminate | lia].
    - intros hours. split; [discriminate | intros [Hb _]; lia].
    - intros hours Hl. discriminate Hl.
    - split; [intros _; lia | reflexivity].
    - split; [discriminate | lia]. }
  split; [|split; [|split; [|split]]].
  - split; [discriminate | lia].
  - intros hours. split; [discriminate | intros [Hb _]; lia].
  - intros hours Hl. discriminate Hl.
  - split; [discriminate | lia].
  - split; [intros _; lia | reflexivity].
Qed.

(** ** Creating a school without the role *)

(** X20.  Submitting the CreateSchool form (name and code long enough) as a
    caller the database does not hold for an admin: the insert is refused by
    the policy of [schools], nothing is stored (neither the school nor the
    code on the profile), and the toast carries the database's message, not
    the one for a code that is taken.  Without a session nothing is sent and
    the message is 'Not authenticated'. *)
Theorem creating_a_school_needs_the_admin_role
    (db : Database) (new_id : uuid) (t1 t2 : timestamptz) (schoolName schoolCode : string) :
  (3 <= String.length (Js.trim schoolName))%nat ->
  (4 <= String.length (Js.trim schoolCode))%nat ->
  (forall u,
      has_role db (Some u) admin = false ->
      CreateSchool.handleSubmit new_id t1 t2 (Some u) schoolName schoolCode db
      = (CreateSchool.mkToast CreateSchool.destructive "Failed to create school"
           (Pg.message (Pg.rls_violation "schools")), db))
  /\ CreateSchool.handleSubmit new_id t1 t2 None schoolName schoolCode db
     = (CreateSchool.mkToast CreateSchool.destructive "Failed to create school"
          "Not authenticated", db).
Proof.
  intros Hname Hcode.
  assert (E1 : (String.length (Js.trim schoolName) <? 3)%nat = false)
    by now apply Nat.ltb_ge.
  assert (E2 : (String.length (Js.trim schoolCode) <? 4)%nat = false)
    by now apply Nat.ltb_ge.
  split.
  - intros u Hrole. unfold CreateSchool.handleSubmit. rewrite E1, E2.
    unfold UseSchool.createSchool, exec_request. cbn [exec_statement]. unfold Pg.insert_row.
    change (check_passes (Pg.rel_table schools_rel) db (Some u) INSERT ?r)
      with (allow_insert schools_table db (Some u) r).
    rewrite schools_insert, Hrole. cbn [andb negb Pg.store].
    unfold CreateSchool.failure_toast.
    change (UseSchool.error_message
              (UseSchool.pg_error (Pg.rls_violation (tbl_name (Pg.rel_table schools_rel)))))
      with (Pg.message (Pg.rls_violation "schools")).
    now rewrite rls_violation_is_not_duplicate.
  - unfold CreateSchool.handleSubmit. rewrite E1, E2. reflexivity.
Qed.

Lemma creating_a_school_needs_the_admin_role_witness :
  CreateSchool.handleSubmit 12 300%Z 301%Z (Some 2) "Valley" "VALLEY01" Demo.db
  = (CreateSchool.mkToast CreateSchool.destructive "Failed to create school"
       (Pg.message (Pg.rls_violation "schools")), Demo.db).
Proof.
  apply (proj1 (creating_a_school_needs_the_admin_role Demo.db 12 300%Z 301%Z "Valley"
                  "VALLEY01" ltac:(simpl; lia) ltac:(simpl; lia)) 2).
  reflexivity.
Defined.

(** ** The Scholarships and Fees pages: what they list *)

Lemma ascending_total a b : Query.ascending a b = false -> Query.ascending b a = true.
Proof.
  destruct a as [x|], b as [y|]; simpl; try discriminate; try reflexivity.
  intros H. apply Z.leb_gt in H. apply Z.leb_le. lia.
Qed.

Lemma ascending_transitive a b c :
  Query.ascending a b = true -> Query.ascending b c = true -> Query.ascending a c = true.
Proof.
  destruct a as [x|], b as [y|], c as [z|]; simpl; try discriminate; try reflexivity.
  intros H1 H2. apply Z.leb_le in H1, H2. apply Z.leb_le. lia.
Qed.

(** X21.  The Scholarships page and the Fees page of a user who belongs to
    the school with code [code] (or administers it) list exactly the rows of
    that school, every one of them once, by deadline (due date), earliest
    first, the rows without a date last. *)
Theorem dated_pages_list_the_school
    (db : Database) (user : option uuid) (code : text)
    (state1 : list Scholarship.t) (state2 : list Fee.t) :
  code <> EmptyString ->
  member_or_admin db user code = true ->
  (Permutation (Scholarships.fetchScholarships db user (Some code) state1)
               (filter (fun r => String.eqb (Scholarship.school_code r) code) (scholarships db))
   /\ StronglySorted
        (fun a b => Query.ascending (Scholarship.deadline a) (Scholarship.deadline b) = true)
        (Scholarships.fetchScholarships db user (Some code) state1))
  /\ (Permutation (Fees.fetchFees db user (Some code) state2)
                  (filter (fun r => String.eqb (Fee.school_code r) code) (fees db))
      /\ StronglySorted
           (fun a b => Query.ascending (Fee.due_date a) (Fee.due_date b) = true)
           (Fees.fetchFees db user (Some code) state2)).
Proof.
  intros Hcode Hm. apply nonempty_code in Hcode.
  unfold Scholarships.fetchScholarships, Fees.fetchFees. rewrite Hcode.
  split; split.
  - rewrite order_permutation.
    now rewrite (select_resource_of_member res_scholarships db user code _ Hm).
  - apply order_sorted.
    + intros a b. apply ascending_total.
    + intros a b c. apply ascending_transitive.
  - rewrite order_permutation.
    now rewrite (select_resource_of_member res_fees db user code _ Hm).
  - apply order_sorted.
    + intros a b. apply ascending_total.
    + intros a b c. apply ascending_transitive.
Qed.

Lemma dated_pages_list_the_school_witness :
  Permutation (Fees.fetchFees Demo.db (Some 2) (Some "SPRING24") [])
              (filter (fun r => String.eqb (Fee.school_code r) "SPRING24") (fees Demo.db)).
Proof.
  apply (proj2 (dated_pages_list_the_school Demo.db (Some 2) "SPRING24" [] []
                  ltac:(discriminate) eq_refl)).
Defined.

(** ** The CreateSchool page: who sees the form, and what the form rejects *)

Lemma isAdmin_has_role db user : isAdmin db user = true -> has_role db (Some user) admin = true.
Proof.
  unfold isAdmin. rewrite fetchRole_lookup. unfold role_lookup. intros H.
  destruct (filter _ (user_roles db)) as [|r [|r' l]] eqn:E; simpl in H; try discriminate.
  destruct (UserRole.role r) eqn:Er; [|discriminate].
  assert (Hin : In r (filter (fun r => Nat.eqb (UserRole.user_id r) user) (user_roles db)))
    by (rewrite E; now left).
  apply filter_In in Hin. destruct Hin as [Hin Hu]. apply Nat.eqb_eq in Hu.
  apply has_role_iff. exists r. auto.
Qed.

(** X22.  Whoever gets to see the CreateSchool form can create a school: when
    the page renders the form for a user (the hooks have loaded, [isAdmin] is
    what [fetchRole] gave, no school and no code on the profile), a
    submission with a name of three and a code of four characters or more,
    a code no school has yet and a new id is answered 'School created!'. *)
Theorem whoever_sees_the_form_can_create_a_school
    (db : Database) (u new_id : uuid) (t1 t2 : timestamptz) (schoolName schoolCode : string)
    (authLoading roleLoading schoolLoading : bool) (school : option School.t)
    (profile_school_code : option text) :
  CreateSchoolPage.render authLoading roleLoading schoolLoading (Some u) (isAdmin db u)
    school profile_school_code = CreateSchoolPage.form ->
  (3 <= String.length (Js.trim schoolName))%nat ->
  (4 <= String.length (Js.trim schoolCode))%nat ->
  ~ code_taken db (Js.strip_non_code (Js.toUpperCase (Js.trim schoolCode))) ->
  ~ school_id_used db new_id ->
  fst (CreateSchool.handleSubmit new_id t1 t2 (Some u) schoolName schoolCode db)
  = CreateSchool.created_toast.
Proof.
  intros Hview Hname Hcode Hfree Hid.
  assert (Hadmin : isAdmin db u = true).
  { unfold CreateSchoolPage.render in Hview.
    destruct (authLoading || roleLoading || schoolLoading); [discriminate|].
    destruct (isAdmin db u); [reflexivity | discriminate]. }
  apply isAdmin_has_role in Hadmin.
  unfold CreateSchool.handleSubmit.
  replace (String.length (Js.trim schoolName) <? 3)%nat with false
    by (symmetry; now apply Nat.ltb_ge).
  replace (String.length (Js.trim schoolCode) <? 4)%nat with false
    by (symmetry; now apply Nat.ltb_ge).
  unfold UseSchool.createSchool.
  now rewrite (insert_school_accepted db u t1 new_id _ _ Hadmin Hfree Hid).
Qed.

Lemma whoever_sees_the_form_can_create_a_school_witness :
  fst (CreateSchool.handleSubmit 12 300%Z 301%Z (Some 5) "Valley" "valley-01" demo_newcomer)
  = CreateSchool.created_toast.
Proof.
  apply (whoever_sees_the_form_can_create_a_school demo_newcomer 5 12 300%Z 301%Z
           "Valley" "valley-01" false false false None None).
  - reflexivity.
  - simpl. lia.
  - simpl. lia.
  - intros (s & [<-|[<-|[]]] & H); discriminate H.
  - intros (s & [<-|[<-|[]]] & H); discriminate H.
Defined.

Lemma trimStart_blank s : blank s = true -> Js.trimStart s = EmptyString.
Proof.
  induction s as [|c s IH]; simpl; intros H; [reflexivity|].
  apply andb_true_iff in H. destruct H as [-> Hs]. now apply IH.
Qed.

Lemma trim_blank s : blank s = true -> Js.trim s = EmptyString.
Proof. intros H. unfold Js.trim. now rewrite (trimStart_blank s H). Qed.

(** X23.  The CreateSchool form sends nothing for a name or a code made of
    white space only (the empty string included): a blank name is answered
    'Invalid name' whatever the code, a blank code, under a name that passes,
    'Invalid code'; the database stays as it is. *)
Theorem blank_name_or_code_is_rejected
    (db : Database) (new_id : uuid) (t1 t2 : timestamptz) (user : option uuid)
    (schoolName schoolCode : string) :
  (blank schoolName = true ->
   CreateSchool.handleSubmit new_id t1 t2 user schoolName schoolCode db
   = (CreateSchool.invalid_name_toast, db))
  /\ ((3 <= String.length (Js.trim schoolName))%nat -> blank schoolCode = true ->
      CreateSchool.handleSubmit new_id t1 t2 user schoolName schoolCode db
      = (CreateSchool.invalid_code_toast, db)).
Proof.
  unfold CreateSchool.handleSubmit. split.
  - intros H. now rewrite (trim_blank schoolName H).
  - intros Hname H. rewrite (trim_blank schoolCode H).
    replace (String.length (Js.trim schoolName) <? 3)%nat with false
      by (symmetry; now apply Nat.ltb_ge).
    reflexivity.
Qed.

Lemma blank_name_or_code_is_rejected_witness :
  CreateSchool.handleSubmit 12 300%Z 301%Z (Some 1) "   " "VALLEY01" Demo.db
  = (CreateSchool.invalid_name_toast, Demo.db).
Proof.
  apply (proj1 (blank_name_or_code_is_rejected Demo.db 12 300%Z 301%Z (Some 1) "   "
                  "VALLEY01")).
  reflexivity.
Defined.
